(** * Right-sizing engine: recommenders, percentile and savings aggregation

    A shallow embedding of the recommendation core of the right-sizing
    engine (src/recommenders, src/cost_optimizer.py, the percentile
    helper of src/analyzers, the EC2 analyzer with its AWS calls as
    parameters, and the recommendation step of src/main.py), followed by
    the properties of the specification that were checked against it
    and by further properties read off the code.

    Conventions of the embedding.
    - Python dictionaries with a fixed set of keys are records; the
      fields carry a short prefix because record projections are global.
    - Monetary amounts and utilization figures are Python floats in the
      source.  They are embedded as exact rationals [Q]: every arithmetic
      expression of the source is kept operator for operator, and
      equalities between amounts are stated with [==].  Rounding of
      binary floating point is outside this model, so the properties
      about amounts repeat the operators of the source, compare
      amounts, or evaluate them on concrete inputs, rather than assert
      identities of exact arithmetic.  Where rounding decides what the
      program reports, the computation is replayed on binary64 numbers
      ([Binary64.fsum]).
    - An operation that can raise in Python returns a [result]; the
      exception is kept as a value.
    - Dictionaries used as counters are [gmap]s; dictionaries that are
      iterated (the reserved-instance groups) are association lists in
      insertion order, as Python iterates them. *)

From Stdlib Require Import QArith Qround ZArith List String Ascii Permutation Lia Lqa.
From Stdlib Require PrimFloat.
From stdpp Require Import gmap strings.
Import ListNotations.

Local Open Scope Q_scope.

(** ** Python runtime helpers *)

Inductive exn : Type := KeyError | TypeError | IndexError.

Inductive result (A : Type) : Type :=
| Ok (a : A)
| Raise (e : exn).

Arguments Ok {A} a.
Arguments Raise {A} e.

Definition bind {A B : Type} (r : result A) (k : A -> result B) : result B :=
  match r with
  | Ok a => k a
  | Raise e => Raise e
  end.

Notation "'let*' x ':=' r 'in' k" := (bind r (fun x => k))
  (at level 10, x name, r at level 100, k at level 200).

(** [x < y] on numbers. *)
Definition Qlt_bool (x y : Q) : bool :=
  match Qcompare x y with
  | Lt => true
  | _ => false
  end.

(** [sum(...)]: starts from [0] and adds from left to right. *)
Definition sum (l : list Q) : Q := fold_left Qplus l 0.

(** The same [sum(...)] on binary64 numbers, the floats Python computes
    with; used only to replay single computations whose rounding the
    rational amounts cannot show. *)
Module Binary64.
Import PrimFloat.

Definition fsum (l : list float) : float := fold_left add l 0%float.

End Binary64.

(** [int(x)] on a float: truncation toward zero. *)
Definition int (x : Q) : Z := Z.quot (Qnum x) (Zpos (Qden x)).

(** [l[i]] with Python's negative indices; out of range raises. *)
Definition subscript {A : Type} (l : list A) (i : Z) : result A :=
  let n := Z.of_nat (List.length l) in
  let j := if (i <? 0)%Z then (i + n)%Z else i in
  if ((j <? 0) || (n <=? j))%Z then Raise IndexError
  else match nth_error l (Z.to_nat j) with
       | Some x => Ok x
       | None => Raise IndexError
       end.

(** [x in l] for a list of strings. *)
Definition str_in (x : string) (l : list string) : bool :=
  existsb (String.eqb x) l.

(** [l.index(x)] once [x in l] is known: position of the first occurrence. *)
Fixpoint index (x : string) (l : list string) : nat :=
  match l with
  | [] => 0
  | y :: l' => if String.eqb x y then 0%nat else S (index x l')
  end.

(** [d.get(k)] on a dictionary given by its literal. *)
Fixpoint dict_get {V : Type} (k : string) (d : list (string * V)) : option V :=
  match d with
  | [] => None
  | (k', v) :: d' => if String.eqb k k' then Some v else dict_get k d'
  end.

(** [d.get(k, default)]. *)
Definition dict_get_or {V : Type} (k : string) (d : list (string * V)) (default : V) : V :=
  match dict_get k d with
  | Some v => v
  | None => default
  end.

(** [s.split('.')]: one more segment than there are dots. *)
Fixpoint split_dot (s : string) : list string :=
  match s with
  | EmptyString => [EmptyString]
  | String c rest =>
      if Ascii.eqb c "."%char then EmptyString :: split_dot rest
      else match split_dot rest with
           | [] => [String c EmptyString]
           | seg :: segs => String c seg :: segs
           end
  end.

(** [sorted(data)]: ascending. *)
Fixpoint insert_asc (x : Q) (l : list Q) : list Q :=
  match l with
  | [] => [x]
  | y :: l' => if Qlt_bool y x then y :: insert_asc x l' else x :: y :: l'
  end.

Fixpoint sorted (l : list Q) : list Q :=
  match l with
  | [] => []
  | x :: l' => insert_asc x (sorted l')
  end.

(** [l.sort(key=..., reverse=True)]: descending by key and stable, so
    elements with equal keys keep the order they had in [l]. *)
Section SortDesc.
Context {A : Type} (key : A -> Q).

Fixpoint insert_desc (x : A) (l : list A) : list A :=
  match l with
  | [] => [x]
  | y :: l' => if Qlt_bool (key x) (key y) then y :: insert_desc x l' else x :: y :: l'
  end.

Fixpoint sort_desc (l : list A) : list A :=
  match l with
  | [] => []
  | x :: l' => insert_desc x (sort_desc l')
  end.
End SortDesc.

(** ** Data model *)

(** The statistics dictionary built by [_get_metric_stats]. *)
Record MetricStats : Type := {
  ms_datapoints : nat;
  ms_average : Q;
  ms_max : Q;
  ms_min : Q;
  ms_p95 : Q;
  ms_values : list Q
}.

(** The dictionary built by [_collect_metrics]: the five keys are always
    present and a series without datapoints is [None]. *)
Record Metrics : Type := {
  cpu_utilization : option MetricStats;
  network_in : option MetricStats;
  network_out : option MetricStats;
  disk_read_bytes : option MetricStats;
  disk_write_bytes : option MetricStats
}.

(** One entry of [analysis_results]. *)
Record Analysis : Type := {
  a_instance_id : string;
  a_name : string;
  a_region : string;
  a_instance_type : string;
  a_launch_time : Z;
  a_metrics : Metrics;
  a_current_cost : Q
}.

(** The ['cpu_utilization'] snapshot stored in a recommendation. *)
Record CpuSnapshot : Type := {
  cs_average : Q;
  cs_p95 : Q;
  cs_max : Q
}.

(** The ['reason'] text, kept as the data its f-string is built from. *)
Inductive Reason : Type :=
| ReasonDownsize (p95_cpu : Q)
| ReasonFamilySwitch (budget_family : string).

(** A right-sizing recommendation. *)
Record Recommendation : Type := {
  rec_instance_id : string;
  rec_name : string;
  rec_region : string;
  rec_current_type : string;
  rec_recommended_type : string;
  rec_strategy : string;
  rec_reason : Reason;
  rec_current_monthly_cost : Q;
  rec_recommended_monthly_cost : Q;
  rec_monthly_savings : Q;
  rec_annual_savings : Q;
  rec_cpu_utilization : CpuSnapshot
}.

(** [config['ec2']]. *)
Record EC2Config : Type := {
  cpu_underutilized_threshold : Q;
  min_savings_threshold : Q;
  allowed_families : list string
}.

(** [f"{family}.{size}"]. *)
Definition type_name (family size : string) : string :=
  String.append family (String.append "." size).

(** ** src/recommenders/ec2_recommender.py *)

Module EC2Recommender.

Definition instance_sizes : list string :=
  ["nano"; "micro"; "small"; "medium"; "large"; "xlarge"; "2xlarge"; "4xlarge"; "8xlarge"]%string.

Definition _build_pricing_map : list (string * Q) :=
  [ ("t3.nano", 0.0052 * 730); ("t3.micro", 0.0104 * 730);
    ("t3.small", 0.0208 * 730); ("t3.medium", 0.0416 * 730);
    ("t3.large", 0.0832 * 730); ("t3.xlarge", 0.1664 * 730);
    ("t3.2xlarge", 0.3328 * 730);
    ("t3a.nano", 0.0047 * 730); ("t3a.micro", 0.0094 * 730);
    ("t3a.small", 0.0188 * 730); ("t3a.medium", 0.0376 * 730);
    ("t3a.large", 0.0752 * 730); ("t3a.xlarge", 0.1504 * 730);
    ("t3a.2xlarge", 0.3008 * 730);
    ("m5.large", 0.096 * 730); ("m5.xlarge", 0.192 * 730);
    ("m5.2xlarge", 0.384 * 730); ("m5.4xlarge", 0.768 * 730);
    ("m5a.large", 0.086 * 730); ("m5a.xlarge", 0.172 * 730);
    ("m5a.2xlarge", 0.344 * 730); ("m5a.4xlarge", 0.688 * 730);
    ("c5.large", 0.085 * 730); ("c5.xlarge", 0.17 * 730);
    ("c5.2xlarge", 0.34 * 730); ("c5.4xlarge", 0.68 * 730);
    ("c5a.large", 0.077 * 730); ("c5a.xlarge", 0.154 * 730);
    ("c5a.2xlarge", 0.308 * 730); ("c5a.4xlarge", 0.616 * 730);
    ("r5.large", 0.126 * 730); ("r5.xlarge", 0.252 * 730);
    ("r5.2xlarge", 0.504 * 730);
    ("r5a.large", 0.113 * 730); ("r5a.xlarge", 0.226 * 730);
    ("r5a.2xlarge", 0.452 * 730) ]%string.

Definition pricing : list (string * Q) := _build_pricing_map.

Definition premium_to_budget : list (string * string) :=
  [ ("m5", "m5a"); ("c5", "c5a"); ("r5", "r5a"); ("t3", "t3a") ]%string.

(** [analysis['metrics']['cpu_utilization'][...]]: subscripting [None]
    is a [TypeError]. *)
Definition cpu_snapshot (analysis : Analysis) (p95_cpu : Q) : result CpuSnapshot :=
  match cpu_utilization (a_metrics analysis) with
  | None => Raise TypeError
  | Some cpu =>
      Ok {| cs_average := ms_average cpu; cs_p95 := p95_cpu; cs_max := ms_max cpu |}
  end.

Section WithConfig.
Variable config : EC2Config.

Let cpu_threshold := cpu_underutilized_threshold config.
Let min_savings := min_savings_threshold config.

Definition _recommend_downsize (analysis : Analysis) (family current_size : string)
    (current_cost p95_cpu : Q) : result (option Recommendation) :=
  if negb (str_in current_size instance_sizes) then Ok None
  else
    let current_index := index current_size instance_sizes in
    if Nat.eqb current_index 0 then Ok None
    else
      let recommended_size := nth (current_index - 1) instance_sizes EmptyString in
      let recommended_type := type_name family recommended_size in
      let recommended_cost := dict_get_or recommended_type pricing (current_cost * 0.5) in
      let monthly_savings := current_cost - recommended_cost in
      if Qlt_bool monthly_savings min_savings then Ok None
      else
        let* snap := cpu_snapshot analysis p95_cpu in
        Ok (Some {|
          rec_instance_id := a_instance_id analysis;
          rec_name := a_name analysis;
          rec_region := a_region analysis;
          rec_current_type := type_name family current_size;
          rec_recommended_type := recommended_type;
          rec_strategy := "downsize";
          rec_reason := ReasonDownsize p95_cpu;
          rec_current_monthly_cost := current_cost;
          rec_recommended_monthly_cost := recommended_cost;
          rec_monthly_savings := monthly_savings;
          rec_annual_savings := monthly_savings * 12;
          rec_cpu_utilization := snap
        |}).

Definition _recommend_family_switch (analysis : Analysis)
    (current_family current_size : string) (current_cost p95_cpu : Q)
    : result (option Recommendation) :=
  match dict_get current_family premium_to_budget with
  | None => Ok None
  | Some budget_family =>
      if negb (str_in budget_family (allowed_families config)) then Ok None
      else
        let recommended_type := type_name budget_family current_size in
        let recommended_cost := current_cost * 0.90 in
        let monthly_savings := current_cost - recommended_cost in
        if Qlt_bool monthly_savings min_savings then Ok None
        else
          let* snap := cpu_snapshot analysis p95_cpu in
          Ok (Some {|
            rec_instance_id := a_instance_id analysis;
            rec_name := a_name analysis;
            rec_region := a_region analysis;
            rec_current_type := type_name current_family current_size;
            rec_recommended_type := recommended_type;
            rec_strategy := "family_switch";
            rec_reason := ReasonFamilySwitch budget_family;
            rec_current_monthly_cost := current_cost;
            rec_recommended_monthly_cost := recommended_cost;
            rec_monthly_savings := monthly_savings;
            rec_annual_savings := monthly_savings * 12;
            rec_cpu_utilization := snap
          |})
  end.

(** [if rec: recommendations.append(rec)]. *)
Definition append_if (recommendations : list Recommendation)
    (rec : option Recommendation) : list Recommendation :=
  match rec with
  | Some r => recommendations ++ [r]
  | None => recommendations
  end.

Definition _find_better_instance_types (analysis : Analysis) (current_type : string)
    (p95_cpu : Q) : result (list Recommendation) :=
  let recommendations := [] in
  let current_cost := a_current_cost analysis in
  match split_dot current_type with
  | [current_family; current_size] =>
      let* downsize_rec := _recommend_downsize analysis current_family current_size
                        current_cost p95_cpu in
      let recommendations := append_if recommendations downsize_rec in
      let* family_rec := _recommend_family_switch analysis current_family current_size
                      current_cost p95_cpu in
      let recommendations := append_if recommendations family_rec in
      Ok recommendations
  | _ => Ok recommendations
  end.

(** The body of the [for analysis in analysis_results] loop: what one
    resource adds to [recommendations]. *)
Definition loop_body (recommendations : list Recommendation) (analysis : Analysis)
    : result (list Recommendation) :=
  let current_type := a_instance_type analysis in
  match cpu_utilization (a_metrics analysis) with
  | None => Ok recommendations
  | Some cpu_metrics =>
      let p95_cpu := ms_p95 cpu_metrics in
      if Qlt_bool p95_cpu cpu_threshold then
        let* recs := _find_better_instance_types analysis current_type p95_cpu in
        Ok (recommendations ++ recs)
      else Ok recommendations
  end.

Fixpoint loop (analysis_results : list Analysis) (recommendations : list Recommendation)
    : result (list Recommendation) :=
  match analysis_results with
  | [] => Ok recommendations
  | analysis :: rest =>
      let* recommendations' := loop_body recommendations analysis in
      loop rest recommendations'
  end.

Definition generate_recommendations (analysis_results : list Analysis)
    : result (list Recommendation) :=
  let* recommendations := loop analysis_results [] in
  Ok (sort_desc rec_monthly_savings recommendations).

End WithConfig.

End EC2Recommender.

(** ** src/recommenders/reserved_instance_recommender.py *)

(** [config['reserved_instances']]. *)
Record RIConfig : Type := {
  min_utilization : Q;
  term_years : Z;
  payment_option : string
}.

(** One entry of the ['instances'] list of a reserved-instance
    recommendation. *)
Record InstanceRef : Type := {
  ir_instance_id : string;
  ir_name : string
}.

(** A reserved-instance recommendation. *)
Record RIRecommendation : Type := {
  ri_region : string;
  ri_instance_type : string;
  ri_instance_count : nat;
  ri_term_years : Z;
  ri_payment_option : string;
  ri_current_monthly_cost : Q;
  ri_ri_monthly_cost : Q;
  ri_monthly_savings : Q;
  ri_annual_savings : Q;
  ri_total_savings_over_term : Q;
  ri_upfront_payment : Q;
  ri_discount_rate : Q;
  ri_instances : list InstanceRef
}.

(** The key of a group: [(analysis['region'], analysis['instance_type'])]. *)
Definition GroupKey : Type := (string * string)%type.

Definition key_eqb (k1 k2 : GroupKey) : bool :=
  String.eqb (fst k1) (fst k2) && String.eqb (snd k1) (snd k2).

Definition group_key (analysis : Analysis) : GroupKey :=
  (a_region analysis, a_instance_type analysis).

Module ReservedInstanceRecommender.

Definition discount_rates : list (Z * list (string * Q)) :=
  [ (1%Z, [ ("all_upfront", 0.40); ("partial_upfront", 0.35); ("no_upfront", 0.30) ]);
    (3%Z, [ ("all_upfront", 0.60); ("partial_upfront", 0.55); ("no_upfront", 0.50) ]) ]%string.

(** [d[k]] on a dictionary with integer keys. *)
Fixpoint term_get {V : Type} (k : Z) (d : list (Z * V)) : option V :=
  match d with
  | [] => None
  | (k', v) :: d' => if Z.eqb k k' then Some v else term_get k d'
  end.

(** [groups[key].append(analysis)] on a [defaultdict(list)]: a new key
    is added after the existing ones. *)
Fixpoint groups_append (key : GroupKey) (analysis : Analysis)
    (groups : list (GroupKey * list Analysis)) : list (GroupKey * list Analysis) :=
  match groups with
  | [] => [(key, [analysis])]
  | (k, members) :: groups' =>
      if key_eqb key k then (k, members ++ [analysis]) :: groups'
      else (k, members) :: groups_append key analysis groups'
  end.

Definition _group_instances (analysis_results : list Analysis)
    : list (GroupKey * list Analysis) :=
  fold_left (fun groups analysis => groups_append (group_key analysis) analysis groups)
    analysis_results [].

Section WithConfig.
Variable config : RIConfig.

Definition _calculate_upfront_payment (monthly_cost discount_rate : Q) : Q :=
  let annual_cost := monthly_cost * 12 in
  let term_cost := annual_cost * inject_Z (term_years config) in
  let ri_term_cost := term_cost * (1 - discount_rate) in
  if String.eqb (payment_option config) "all_upfront" then ri_term_cost
  else if String.eqb (payment_option config) "partial_upfront" then ri_term_cost * 0.5
  else 0.

(** [self.discount_rates[self.term_years][self.payment_option]]: a
    missing key raises [KeyError]. *)
Definition lookup_discount_rate : result Q :=
  match term_get (term_years config) discount_rates with
  | None => Raise KeyError
  | Some by_option =>
      match dict_get (payment_option config) by_option with
      | None => Raise KeyError
      | Some rate => Ok rate
      end
  end.

Definition _create_ri_recommendation (region instance_type : string)
    (instances : list Analysis) : result RIRecommendation :=
  let count := List.length instances in
  let total_monthly_cost := sum (map a_current_cost instances) in
  let* discount_rate := lookup_discount_rate in
  let ri_monthly_cost := total_monthly_cost * (1 - discount_rate) in
  let monthly_savings := total_monthly_cost - ri_monthly_cost in
  let annual_savings := monthly_savings * 12 in
  let total_savings := annual_savings * inject_Z (term_years config) in
  let upfront_payment := _calculate_upfront_payment total_monthly_cost discount_rate in
  Ok {|
    ri_region := region;
    ri_instance_type := instance_type;
    ri_instance_count := count;
    ri_term_years := term_years config;
    ri_payment_option := payment_option config;
    ri_current_monthly_cost := total_monthly_cost;
    ri_ri_monthly_cost := ri_monthly_cost;
    ri_monthly_savings := monthly_savings;
    ri_annual_savings := annual_savings;
    ri_total_savings_over_term := total_savings;
    ri_upfront_payment := upfront_payment;
    ri_discount_rate := discount_rate * 100;
    ri_instances :=
      map (fun inst => {| ir_instance_id := a_instance_id inst; ir_name := a_name inst |})
        instances
  |}.

(** The [for key, instances in instance_groups.items()] loop. *)
Fixpoint loop (instance_groups : list (GroupKey * list Analysis))
    (recommendations : list RIRecommendation) : result (list RIRecommendation) :=
  match instance_groups with
  | [] => Ok recommendations
  | ((region, instance_type), instances) :: rest =>
      let count := List.length instances in
      if Nat.ltb 0 count then
        let* rec := _create_ri_recommendation region instance_type instances in
        loop rest (recommendations ++ [rec])
      else loop rest recommendations
  end.

Definition generate_recommendations (analysis_results : list Analysis)
    : result (list RIRecommendation) :=
  let instance_groups := _group_instances analysis_results in
  let* recommendations := loop instance_groups [] in
  Ok (sort_desc ri_annual_savings recommendations).

End WithConfig.

End ReservedInstanceRecommender.

(** ** src/cost_optimizer.py *)

Record SavingsEntry : Type := {
  se_count : nat;
  se_monthly_savings : Q;
  se_annual_savings : Q
}.

Record SavingsTotal : Type := {
  st_monthly_savings : Q;
  st_annual_savings : Q
}.

Record SavingsSummary : Type := {
  ss_ec2_rightsizing : SavingsEntry;
  ss_reserved_instances : SavingsEntry;
  ss_total : SavingsTotal
}.

Record Stats : Type := {
  total_recommendations : nat;
  by_strategy : gmap string nat;
  by_region : gmap string nat
}.

Module CostOptimizer.

Definition calculate_total_savings (ec2_recommendations : list Recommendation)
    (ri_recommendations : list RIRecommendation) : SavingsSummary :=
  let ec2_monthly_savings := sum (map rec_monthly_savings ec2_recommendations) in
  let ec2_annual_savings := ec2_monthly_savings * 12 in
  let ri_monthly_savings := sum (map ri_monthly_savings ri_recommendations) in
  let ri_annual_savings := sum (map ri_annual_savings ri_recommendations) in
  let total_monthly_savings := ec2_monthly_savings + ri_monthly_savings in
  let total_annual_savings := ec2_annual_savings + ri_annual_savings in
  {| ss_ec2_rightsizing :=
       {| se_count := List.length ec2_recommendations;
          se_monthly_savings := ec2_monthly_savings;
          se_annual_savings := ec2_annual_savings |};
     ss_reserved_instances :=
       {| se_count := List.length ri_recommendations;
          se_monthly_savings := ri_monthly_savings;
          se_annual_savings := ri_annual_savings |};
     ss_total :=
       {| st_monthly_savings := total_monthly_savings;
          st_annual_savings := total_annual_savings |} |}.

(** [if k not in d: d[k] = 0] followed by [d[k] += n]. *)
Definition count_up (k : string) (n : nat) (d : gmap string nat) : gmap string nat :=
  let d' := match d !! k with
            | None => <[k := 0%nat]> d
            | Some _ => d
            end in
  match d' !! k with
  | Some c => <[k := (c + n)%nat]> d'
  | None => d'
  end.

Definition get_summary_stats (ec2_recommendations : list Recommendation)
    (ri_recommendations : list RIRecommendation) : Stats :=
  let strategies :=
    fold_left (fun d rec => count_up (rec_strategy rec) 1 d) ec2_recommendations ∅ in
  let strategies :=
    match ri_recommendations with
    | [] => strategies
    | _ :: _ => <["reserved_instances"%string := List.length ri_recommendations]> strategies
    end in
  let regions :=
    fold_left (fun d rec => count_up (rec_region rec) 1 d) ec2_recommendations ∅ in
  let regions :=
    fold_left (fun d rec => count_up (ri_region rec) (List.length (ri_instances rec)) d)
      ri_recommendations regions in
  {| total_recommendations :=
       (List.length ec2_recommendations + List.length ri_recommendations)%nat;
     by_strategy := strategies;
     by_region := regions |}.

End CostOptimizer.

(** ** src/analyzers *)

(** One element of [response['Datapoints']]; the timestamp is kept as a
    number of seconds. *)
Record Datapoint : Type := {
  dp_Timestamp : Z;
  dp_Average : Q;
  dp_Maximum : Q;
  dp_Minimum : Q
}.

(** One element of [instance['Tags']]. *)
Record Tag : Type := {
  tag_Key : string;
  tag_Value : string
}.

(** One instance of a [describe_instances] reservation; the ['Tags']
    key may be absent. *)
Record Instance : Type := {
  InstanceId : string;
  InstanceType : string;
  LaunchTime : Z;
  Tags : option (list Tag)
}.

(** [config['analysis']]. *)
Record AnalysisConfig : Type := {
  lookback_days : Z;
  cpu_percentile : Q;
  min_datapoints : Z
}.

(** [sorted(l, key=...)] on an integer key: ascending and stable. *)
Section SortedBy.
Context {A : Type} (key : A -> Z).

Fixpoint insert_by (x : A) (l : list A) : list A :=
  match l with
  | [] => [x]
  | y :: l' => if (key y <? key x)%Z then y :: insert_by x l' else x :: y :: l'
  end.

Fixpoint sorted_by (l : list A) : list A :=
  match l with
  | [] => []
  | x :: l' => insert_by x (sorted_by l')
  end.
End SortedBy.

(** [statistics.mean(l)]; only called on a non-empty list (an empty one
    raises in Python). *)
Definition mean (l : list Q) : Q :=
  sum l / inject_Z (Z.of_nat (List.length l)).

(** [max(l)] and [min(l)]: the first extremal element; only called on
    a non-empty list (an empty one raises in Python). *)
Definition py_max (l : list Q) : Q :=
  match l with
  | [] => 0
  | x :: l' => fold_left (fun m y => if Qlt_bool m y then y else m) l' x
  end.

Definition py_min (l : list Q) : Q :=
  match l with
  | [] => 0
  | x :: l' => fold_left (fun m y => if Qlt_bool y m then y else m) l' x
  end.

Module EC2Analyzer.

Definition _percentile (data : list Q) (percentile : Q) : result Q :=
  match data with
  | [] => Ok 0
  | _ :: _ =>
      let sorted_data := sorted data in
      let len := Z.of_nat (List.length sorted_data) in
      let index := inject_Z (len - 1) * percentile / 100 in
      let floor_index := int index in
      let ceil_index := (floor_index + 1)%Z in
      if (len <=? ceil_index)%Z then subscript sorted_data floor_index
      else
        let* lo := subscript sorted_data floor_index in
        let* hi := subscript sorted_data ceil_index in
        Ok (lo + (index - inject_Z floor_index) * (hi - lo))
  end.

(** [_get_running_instances]: the instances of all reservations of the
    [describe_instances] response, which is a parameter here. *)
Definition _get_running_instances (reservations : list (list Instance)) : list Instance :=
  fold_left (fun instances reservation => instances ++ reservation) reservations [].

Fixpoint first_name_tag (tags : list Tag) : option string :=
  match tags with
  | [] => None
  | tag :: tags' =>
      if String.eqb (tag_Key tag) "Name" then Some (tag_Value tag) else first_name_tag tags'
  end.

Definition _get_instance_name (instance : Instance) : string :=
  let tags := match Tags instance with Some tags => tags | None => [] end in
  match first_name_tag tags with
  | Some value => value
  | None => "N/A"%string
  end.

Definition hourly_pricing : list (string * Q) :=
  [ ("t3.micro", 0.0104); ("t3.small", 0.0208); ("t3.medium", 0.0416);
    ("t3.large", 0.0832); ("t3.xlarge", 0.1664); ("t3.2xlarge", 0.3328);
    ("t3a.micro", 0.0094); ("t3a.small", 0.0188); ("t3a.medium", 0.0376);
    ("t3a.large", 0.0752);
    ("m5.large", 0.096); ("m5.xlarge", 0.192); ("m5.2xlarge", 0.384);
    ("m5a.large", 0.086); ("m5a.xlarge", 0.172);
    ("c5.large", 0.085); ("c5.xlarge", 0.17); ("c5.2xlarge", 0.34);
    ("r5.large", 0.126); ("r5.xlarge", 0.252) ]%string.

Definition _estimate_monthly_cost (instance_type : string) : Q :=
  let hourly_rate := dict_get_or instance_type hourly_pricing 0.10 in
  let hours_per_month := 730 in
  hourly_rate * hours_per_month.

Section WithClient.
Variable region : string.
Variable config : AnalysisConfig.

(** The CloudWatch client: the outcome of [get_metric_statistics] for an
    instance id and a metric name over the lookback window, either the
    list [response['Datapoints']] or an exception. *)
Variable get_metric_statistics : string -> string -> result (list Datapoint).

(** Every exception raised in the body is caught and turned into
    [None]. *)
Definition _get_metric_stats (instance_id metric_name : string) : option MetricStats :=
  match get_metric_statistics instance_id metric_name with
  | Raise _ => None
  | Ok [] => None
  | Ok response =>
      let datapoints := sorted_by dp_Timestamp response in
      let averages := map dp_Average datapoints in
      let maximums := map dp_Maximum datapoints in
      match _percentile averages (cpu_percentile config) with
      | Raise _ => None
      | Ok p95 =>
          Some {| ms_datapoints := List.length datapoints;
                  ms_average := mean averages;
                  ms_max := py_max maximums;
                  ms_min := py_min (map dp_Minimum datapoints);
                  ms_p95 := p95;
                  ms_values := averages |}
      end
  end.

Definition _collect_metrics (instance_id : string) : Metrics :=
  {| cpu_utilization := _get_metric_stats instance_id "CPUUtilization";
     network_in := _get_metric_stats instance_id "NetworkIn";
     network_out := _get_metric_stats instance_id "NetworkOut";
     disk_read_bytes := _get_metric_stats instance_id "DiskReadBytes";
     disk_write_bytes := _get_metric_stats instance_id "DiskWriteBytes" |}.

Definition _has_sufficient_data (metrics : Metrics) : bool :=
  match cpu_utilization metrics with
  | None => false
  | Some cpu =>
      let cpu_datapoints := Z.of_nat (ms_datapoints cpu) in
      (min_datapoints config <=? cpu_datapoints)%Z
  end.

(** [analyze_all_instances], with the [describe_instances] response as
    a parameter. *)
Definition analyze_all_instances (reservations : list (list Instance)) : list Analysis :=
  let instances := _get_running_instances reservations in
  fold_left
    (fun analysis_results instance =>
       let instance_id := InstanceId instance in
       let instance_type := InstanceType instance in
       let launch_time := LaunchTime instance in
       let name := _get_instance_name instance in
       let metrics := _collect_metrics instance_id in
       if _has_sufficient_data metrics then
         analysis_results ++
         [ {| a_instance_id := instance_id;
              a_name := name;
              a_region := region;
              a_instance_type := instance_type;
              a_launch_time := launch_time;
              a_metrics := metrics;
              a_current_cost := _estimate_monthly_cost instance_type |} ]
       else analysis_results)
    instances [].

End WithClient.

End EC2Analyzer.

Module RDSAnalyzer.

(** The same text as [EC2Analyzer._percentile]. *)
Definition _percentile (data : list Q) (percentile : Q) : result Q :=
  match data with
  | [] => Ok 0
  | _ :: _ =>
      let sorted_data := sorted data in
      let len := Z.of_nat (List.length sorted_data) in
      let index := inject_Z (len - 1) * percentile / 100 in
      let floor_index := int index in
      let ceil_index := (floor_index + 1)%Z in
      if (len <=? ceil_index)%Z then subscript sorted_data floor_index
      else
        let* lo := subscript sorted_data floor_index in
        let* hi := subscript sorted_data ceil_index in
        Ok (lo + (index - inject_Z floor_index) * (hi - lo))
  end.

End RDSAnalyzer.

(** ** src/main.py *)

(** The parts of the configuration read by the recommenders. *)
Record Config : Type := {
  cfg_ec2 : EC2Config;
  cfg_reserved_instances : RIConfig
}.

Module Main.

(** [generate_recommendations]: both recommenders run on the EC2
    analysis; [rds_analysis] is accepted and not used. *)
Definition generate_recommendations {R : Type} (config : Config)
    (ec2_analysis : list Analysis) (rds_analysis : list R)
    : result (list Recommendation * list RIRecommendation) :=
  let* ec2_recommendations :=
    EC2Recommender.generate_recommendations (cfg_ec2 config) ec2_analysis in
  let* ri_recommendations :=
    ReservedInstanceRecommender.generate_recommendations (cfg_reserved_instances config)
      ec2_analysis in
  Ok (ec2_recommendations, ri_recommendations).

End Main.

(** ** Vocabulary of the statements *)

(** A resource passes the eligibility gate: its CPU series exists and
    its p95 is strictly below the configured threshold. *)
Definition eligible (config : EC2Config) (analysis : Analysis) : Prop :=
  exists cpu, cpu_utilization (a_metrics analysis) = Some cpu /\
              ms_p95 cpu < cpu_underutilized_threshold config.

(** A resource fails the gate: no CPU series, or p95 at or above the
    threshold. *)
Definition ineligible (config : EC2Config) (analysis : Analysis) : Prop :=
  cpu_utilization (a_metrics analysis) = None \/
  exists cpu, cpu_utilization (a_metrics analysis) = Some cpu /\
              cpu_underutilized_threshold config <= ms_p95 cpu.

(** The resource type does not split into exactly two segments. *)
Definition malformed (analysis : Analysis) : Prop :=
  List.length (split_dot (a_instance_type analysis)) <> 2%nat.

(** Recommendation [r] was produced for [analysis] by one of the two
    strategies, after the gate and the decomposition of the type. *)
Definition produced_for (config : EC2Config) (analysis : Analysis) (r : Recommendation) : Prop :=
  exists cpu family size,
    cpu_utilization (a_metrics analysis) = Some cpu /\
    ms_p95 cpu < cpu_underutilized_threshold config /\
    split_dot (a_instance_type analysis) = [family; size] /\
    (EC2Recommender._recommend_downsize config analysis family size
       (a_current_cost analysis) (ms_p95 cpu) = Ok (Some r) \/
     EC2Recommender._recommend_family_switch config analysis family size
       (a_current_cost analysis) (ms_p95 cpu) = Ok (Some r)).


(** The input resources that share the group key [k], in input order. *)
Definition members (k : GroupKey) (l : list Analysis) : list Analysis :=
  List.filter (fun a => key_eqb (group_key a) k) l.

(** The group a reserved-instance recommendation stands for. *)
Definition ri_key (r : RIRecommendation) : GroupKey :=
  (ri_region r, ri_instance_type r).


(** The members stored for key [k] in the grouping dictionary; a key
    that is absent has no members. *)
Fixpoint stored (k : GroupKey) (groups : list (GroupKey * list Analysis)) : list Analysis :=
  match groups with
  | [] => []
  | (k', ms) :: groups' => if key_eqb k k' then ms else stored k groups'
  end.

(** Right-sizing recommendations located in [region]. *)
Definition rightsizing_in (region : string) (ec2 : list Recommendation) : nat :=
  List.length (List.filter (fun r => String.eqb (rec_region r) region) ec2).

(** Member resources of the reserved-instance recommendations located
    in [region]. *)
Definition reserved_members_in (region : string) (ri : list RIRecommendation) : nat :=
  list_sum (map (fun r => List.length (ri_instances r))
                (List.filter (fun r => String.eqb (ri_region r) region) ri)).

(** The percentile as the specification words it: for sorted values
    [v] of count [n] and index [i = (n - 1) * p / 100], the value
    [v[floor i] + (i - floor i) * (v[ceil i] - v[floor i])], and
    [v[floor i]] when [ceil i >= n]. *)
Definition percentile_formula (v : list Q) (p : Q) : Q :=
  let n := Z.of_nat (List.length v) in
  let i := inject_Z (n - 1) * p / 100 in
  let lo := nth (Z.to_nat (Qfloor i)) v 0 in
  let hi := nth (Z.to_nat (Qceiling i)) v 0 in
  if (n <=? Qceiling i)%Z then lo
  else lo + (i - inject_Z (Qfloor i)) * (hi - lo).

(** Values never decrease along the list. *)
Inductive ascending : list Q -> Prop :=
| ascending_nil : ascending []
| ascending_cons x l : Forall (fun y => x <= y) l -> ascending l -> ascending (x :: l).

(** Keys never increase along the list. *)
Inductive descending {A : Type} (key : A -> Q) : list A -> Prop :=
| descending_nil : descending key []
| descending_cons x l :
    Forall (fun y => key y <= key x) l -> descending key l -> descending key (x :: l).

(** What the loop of the right-sizing recommender adds for one
    resource. *)
Definition recs_of (config : EC2Config) (analysis : Analysis) : list Recommendation :=
  match EC2Recommender.loop_body config [] analysis with
  | Ok recs => recs
  | Raise _ => []
  end.

(** The recommendation is about the resource [id]. *)
Definition about (id : string) (r : Recommendation) : bool :=
  String.eqb (rec_instance_id r) id.

(** The resource has the identifier [id]. *)
Definition has_id (id : string) (a : Analysis) : bool :=
  String.eqb (a_instance_id a) id.

(** The entry a resource leaves in the ['instances'] list of its
    reserved-instance recommendation. *)
Definition instance_ref (a : Analysis) : InstanceRef :=
  {| ir_instance_id := a_instance_id a; ir_name := a_name a |}.

(** What the reserved-instance recommender reads of a resource. *)
Definition billing (a : Analysis) : string * string * string * string * Q :=
  (a_instance_id a, a_name a, a_region a, a_instance_type a, a_current_cost a).

(** A resource reduced to what the reserved-instance recommender reads
    of it. *)
Definition strip (a : Analysis) : Analysis :=
  {| a_instance_id := a_instance_id a; a_name := a_name a; a_region := a_region a;
     a_instance_type := a_instance_type a; a_launch_time := 0;
     a_metrics := {| cpu_utilization := None; network_in := None; network_out := None;
                     disk_read_bytes := None; disk_write_bytes := None |};
     a_current_cost := a_current_cost a |}.

(** Right-sizing recommendations that carry the strategy tag [s]. *)
Definition tagged (s : string) (ec2 : list Recommendation) : nat :=
  List.length (List.filter (fun r => String.eqb (rec_strategy r) s) ec2).

(** Input resources located in [region]. *)
Definition resources_in (region : string) (l : list Analysis) : nat :=
  List.length (List.filter (fun a => String.eqb (a_region a) region) l).

(** The index [(n - 1) * p / 100] of the percentile [p] among [n]
    values. *)
Definition percentile_index (n : nat) (p : Q) : Q :=
  inject_Z (Z.of_nat n - 1) * p / 100.

(** The value read at index [i] of the sorted values [v]: [v[floor i]]
    at the last position, otherwise the blend of [v[floor i]] and
    [v[floor i + 1]]. *)
Definition interpolate (v : list Q) (i : Q) : Q :=
  let f := Qfloor i in
  let lo := nth (Z.to_nat f) v 0 in
  let hi := nth (Z.to_nat (f + 1)) v 0 in
  if (Z.of_nat (List.length v) <=? f + 1)%Z then lo
  else lo + (i - inject_Z f) * (hi - lo).

(** The entry [analyze_all_instances] appends for an instance whose
    data is sufficient. *)
Definition analysis_of (region : string) (config : AnalysisConfig)
    (get_metric_statistics : string -> string -> result (list Datapoint))
    (instance : Instance) : Analysis :=
  {| a_instance_id := InstanceId instance;
     a_name := EC2Analyzer._get_instance_name instance;
     a_region := region;
     a_instance_type := InstanceType instance;
     a_launch_time := LaunchTime instance;
     a_metrics := EC2Analyzer._collect_metrics config get_metric_statistics
                    (InstanceId instance);
     a_current_cost := EC2Analyzer._estimate_monthly_cost (InstanceType instance) |}.

(** The instance passes the sufficiency test of the analyzer. *)
Definition sufficient (config : AnalysisConfig)
    (get_metric_statistics : string -> string -> result (list Datapoint))
    (instance : Instance) : bool :=
  EC2Analyzer._has_sufficient_data config
    (EC2Analyzer._collect_metrics config get_metric_statistics (InstanceId instance)).

(** Keys never decrease along the list: the order [sorted(l, key=...)]
    leaves its result in. *)
Inductive ascending_by {A : Type} (key : A -> Z) : list A -> Prop :=
| ascending_by_nil : ascending_by key []
| ascending_by_cons x l :
    Forall (fun y => (key x <= key y)%Z) l -> ascending_by key l ->
    ascending_by key (x :: l).

(** The CloudWatch call for the CPU of the instance returns at least
    one datapoint, and at least [min_datapoints] of them. *)
Definition enough_cpu_datapoints (config : AnalysisConfig)
    (get_metric_statistics : string -> string -> result (list Datapoint))
    (instance : Instance) : bool :=
  match get_metric_statistics (InstanceId instance) "CPUUtilization"%string with
  | Ok [] => false
  | Ok response => (min_datapoints config <=? Z.of_nat (List.length response))%Z
  | Raise _ => false
  end.

(** ** Concrete inputs used by the examples *)

Module Examples.

Definition cpu_stats (average p95 maximum : Q) : MetricStats :=
  {| ms_datapoints := 336; ms_average := average; ms_max := maximum; ms_min := 0;
     ms_p95 := p95; ms_values := [] |}.

Definition resource (id region type : string) (cost : Q) (cpu : option MetricStats)
    : Analysis :=
  {| a_instance_id := id; a_name := "N/A"; a_region := region; a_instance_type := type;
     a_launch_time := 0;
     a_metrics := {| cpu_utilization := cpu; network_in := None; network_out := None;
                     disk_read_bytes := None; disk_write_bytes := None |};
     a_current_cost := cost |}.

(** Threshold 20 percent, minimum savings 50 per month, only [m5a]
    allowed as a budget family. *)
Definition config_50 : EC2Config :=
  {| cpu_underutilized_threshold := 20; min_savings_threshold := 50;
     allowed_families := ["m5a"%string] |}.

(** The same with a minimum savings of 35.04. *)
Definition config_35 : EC2Config :=
  {| cpu_underutilized_threshold := 20; min_savings_threshold := 35.04;
     allowed_families := ["m5a"%string] |}.

(** The same with a minimum savings of 0. *)
Definition config_0 : EC2Config :=
  {| cpu_underutilized_threshold := 20; min_savings_threshold := 0;
     allowed_families := ["m5a"%string] |}.

(** An idle [x9.large] at 100 per month; [x9.medium] is not in the
    catalog, so the downsize estimate is 50. *)
Definition idle_x9 : Analysis :=
  resource "i-01" "us-east-1" "x9.large" 100 (Some (cpu_stats 4 10 35)).

(** An idle [m5.large] at the analyzer's estimate, 0.096 * 730 = 70.08
    per month; [m5.medium] is not in the catalog, so the downsize
    estimate is 35.04. *)
Definition idle_m5_large : Analysis :=
  resource "i-09" "us-east-1" "m5.large" (0.096 * 730) (Some (cpu_stats 4 10 35)).

(** An idle [m5.xlarge] at 1000 per month. *)
Definition idle_m5 : Analysis :=
  resource "i-02" "us-east-1" "m5.xlarge" 1000 (Some (cpu_stats 4 10 35)).

(** An idle [c5.large] at 1000 per month. *)
Definition idle_c5 : Analysis :=
  resource "i-03" "us-east-1" "c5.large" 1000 (Some (cpu_stats 4 10 35)).

(** An idle [t3.nano], the smallest rung. *)
Definition idle_nano : Analysis :=
  resource "i-04" "us-east-1" "t3.nano" 1000 (Some (cpu_stats 4 10 35)).

(** A busy [m5.xlarge]: p95 exactly at the threshold. *)
Definition busy_m5 : Analysis :=
  resource "i-05" "us-east-1" "m5.xlarge" 1000 (Some (cpu_stats 12 20 90)).

(** An [m5.xlarge] without a CPU series. *)
Definition blind_m5 : Analysis :=
  resource "i-06" "us-east-1" "m5.xlarge" 1000 None.

(** An idle database class: three segments. *)
Definition idle_db : Analysis :=
  resource "i-07" "us-east-1" "db.m5.large" 1000 (Some (cpu_stats 4 10 35)).

(** An idle resource that costs nothing. *)
Definition idle_free : Analysis :=
  resource "i-08" "us-east-1" "x9.large" 0 (Some (cpu_stats 4 10 35)).

(** One-year term, everything paid upfront: discount rate 0.40. *)
Definition ri_config_1yr_all : RIConfig :=
  {| min_utilization := 70; term_years := 1; payment_option := "all_upfront" |}.

(** Three [m5.large] in [us-east-1] at 70 per month each. *)
Definition three_m5_large : list Analysis :=
  [ resource "i-11" "us-east-1" "m5.large" 70 (Some (cpu_stats 40 60 90));
    resource "i-12" "us-east-1" "m5.large" 70 (Some (cpu_stats 40 60 90));
    resource "i-13" "us-east-1" "m5.large" 70 None ].

(** A right-sizing recommendation whose stored annual figure (100) is
    not 12 times its monthly figure (10). *)
Definition stale_annual : Recommendation :=
  {| rec_instance_id := "i-21"; rec_name := "N/A"; rec_region := "us-east-1";
     rec_current_type := "m5.xlarge"; rec_recommended_type := "m5.large";
     rec_strategy := "downsize"; rec_reason := ReasonDownsize 10;
     rec_current_monthly_cost := 30; rec_recommended_monthly_cost := 20;
     rec_monthly_savings := 10; rec_annual_savings := 100;
     rec_cpu_utilization := {| cs_average := 4; cs_p95 := 10; cs_max := 35 |} |}.

(** A right-sizing recommendation as the recommender builds it. *)
Definition fresh_annual : Recommendation :=
  {| rec_instance_id := "i-22"; rec_name := "N/A"; rec_region := "eu-west-1";
     rec_current_type := "m5.xlarge"; rec_recommended_type := "m5.large";
     rec_strategy := "downsize"; rec_reason := ReasonDownsize 10;
     rec_current_monthly_cost := 30; rec_recommended_monthly_cost := 20;
     rec_monthly_savings := 10; rec_annual_savings := 120;
     rec_cpu_utilization := {| cs_average := 4; cs_p95 := 10; cs_max := 35 |} |}.

(** A reserved-instance recommendation that covers five resources. *)
Definition reserved_five : RIRecommendation :=
  {| ri_region := "us-east-1"; ri_instance_type := "m5.large"; ri_instance_count := 5;
     ri_term_years := 1; ri_payment_option := "all_upfront";
     ri_current_monthly_cost := 350; ri_ri_monthly_cost := 210;
     ri_monthly_savings := 140; ri_annual_savings := 1680;
     ri_total_savings_over_term := 1680; ri_upfront_payment := 2520;
     ri_discount_rate := 40;
     ri_instances :=
       map (fun id => {| ir_instance_id := id; ir_name := "N/A" |})
           ["i-31"; "i-32"; "i-33"; "i-34"; "i-35"]%string |}.

(** A two-year term: not a key of the discount table. *)
Definition ri_config_2yr : RIConfig :=
  {| min_utilization := 70; term_years := 2; payment_option := "all_upfront" |}.

(** The one-year upfront configuration with another utilization
    floor. *)
Definition ri_config_1yr_all_low : RIConfig :=
  {| min_utilization := 10; term_years := 1; payment_option := "all_upfront" |}.

(** Resources of two regions and two types, in mixed order. *)
Definition mixed_fleet : list Analysis :=
  [ resource "i-41" "us-east-1" "m5.large" 70 (Some (cpu_stats 40 60 90));
    resource "i-42" "eu-west-1" "t3.small" 15 (Some (cpu_stats 4 10 35));
    resource "i-43" "us-east-1" "m5.large" 70 None;
    resource "i-44" "us-east-1" "t3.small" 15 (Some (cpu_stats 4 10 35)) ].

(** A reserved-instance recommendation with an empty instance list. *)
Definition reserved_none : RIRecommendation :=
  {| ri_region := "ap-south-1"; ri_instance_type := "m5.large"; ri_instance_count := 0;
     ri_term_years := 1; ri_payment_option := "all_upfront";
     ri_current_monthly_cost := 0; ri_ri_monthly_cost := 0;
     ri_monthly_savings := 0; ri_annual_savings := 0;
     ri_total_savings_over_term := 0; ri_upfront_payment := 0;
     ri_discount_rate := 40; ri_instances := [] |}.

(** A reserved-instance recommendation whose stored annual figure is
    not twelve times the monthly one. *)
Definition stale_reserved : RIRecommendation :=
  {| ri_region := "us-east-1"; ri_instance_type := "m5.large"; ri_instance_count := 1;
     ri_term_years := 1; ri_payment_option := "all_upfront";
     ri_current_monthly_cost := 30; ri_ri_monthly_cost := 20;
     ri_monthly_savings := 10; ri_annual_savings := 100;
     ri_total_savings_over_term := 100; ri_upfront_payment := 240;
     ri_discount_rate := 40;
     ri_instances := [{| ir_instance_id := "i-36"; ir_name := "N/A" |}] |}.

(** The configuration read by both recommenders. *)
Definition config_both : Config :=
  {| cfg_ec2 := config_0; cfg_reserved_instances := ri_config_1yr_all |}.

(** The same with a term that is not in the discount table. *)
Definition config_both_2yr : Config :=
  {| cfg_ec2 := config_0; cfg_reserved_instances := ri_config_2yr |}.

Definition datapoint (timestamp : Z) (minimum average maximum : Q) : Datapoint :=
  {| dp_Timestamp := timestamp; dp_Average := average; dp_Maximum := maximum;
     dp_Minimum := minimum |}.

(** Three hourly CPU datapoints, delivered out of order. *)
Definition cpu_datapoints : list Datapoint :=
  [ datapoint 10800 5 12 30; datapoint 3600 2 8 20; datapoint 7200 4 10 25 ].

(** A CloudWatch that knows the CPU of [i-51], has no datapoints for
    [i-52] and fails for every other instance. *)
Definition cloudwatch (instance_id metric_name : string) : result (list Datapoint) :=
  if String.eqb instance_id "i-51" then
    if String.eqb metric_name "CPUUtilization" then Ok cpu_datapoints else Ok []
  else if String.eqb instance_id "i-52" then Ok []
  else Raise KeyError.

Definition analysis_config : AnalysisConfig :=
  {| lookback_days := 14; cpu_percentile := 95; min_datapoints := 3 |}.

(** The same with a percentile far out of range. *)
Definition analysis_config_250 : AnalysisConfig :=
  {| lookback_days := 14; cpu_percentile := 250; min_datapoints := 3 |}.

Definition instance (id type : string) (tags : option (list Tag)) : Instance :=
  {| InstanceId := id; InstanceType := type; LaunchTime := 0; Tags := tags |}.

Definition reservations : list (list Instance) :=
  [ [ instance "i-51" "m5.xlarge"
        (Some [ {| tag_Key := "env"; tag_Value := "prod" |};
                {| tag_Key := "Name"; tag_Value := "web" |} ]);
      instance "i-52" "t3.small" None ];
    [ instance "i-53" "c5.large" (Some []) ] ]%string.

End Examples.

(** ** Numbers, sums and sorting *)

Lemma Qlt_bool_true (x y : Q) : Qlt_bool x y = true <-> x < y.
Proof.
  unfold Qlt_bool. rewrite Qlt_alt.
  destruct (x ?= y); split; intro H; congruence.
Qed.

Lemma Qlt_bool_false (x y : Q) : Qlt_bool x y = false <-> y <= x.
Proof.
  rewrite <- Bool.not_true_iff_false, Qlt_bool_true.
  split; [apply Qnot_lt_le | apply Qle_not_lt].
Qed.

Lemma fold_left_Qplus (l : list Q) (acc : Q) :
  fold_left Qplus l acc == acc + fold_right Qplus 0 l.
Proof.
  revert acc. induction l as [|x l IH]; intro acc; simpl.
  - ring.
  - rewrite IH. ring.
Qed.

Lemma sum_cons (x : Q) (l : list Q) : sum (x :: l) == x + sum l.
Proof.
  unfold sum. simpl. rewrite !fold_left_Qplus. ring.
Qed.

Lemma sum_nil : sum [] == 0.
Proof. reflexivity. Qed.

Lemma sum_app (l1 l2 : list Q) : sum (l1 ++ l2) == sum l1 + sum l2.
Proof.
  induction l1 as [|x l1 IH]; simpl.
  - rewrite sum_nil. ring.
  - rewrite !sum_cons, IH. ring.
Qed.

Lemma sum_Permutation (l1 l2 : list Q) : Permutation l1 l2 -> sum l1 == sum l2.
Proof.
  induction 1 as [|x l1 l2 _ IH|x y l|l1 l2 l3 _ IH1 _ IH2].
  - reflexivity.
  - rewrite !sum_cons, IH. reflexivity.
  - rewrite !sum_cons. ring.
  - rewrite IH1. exact IH2.
Qed.

Lemma sum_map_times {A : Type} (f : A -> Q) (k : Q) (l : list A) :
  sum (map (fun x => f x * k) l) == sum (map f l) * k.
Proof.
  induction l as [|x l IH]; simpl.
  - rewrite sum_nil. ring.
  - rewrite !sum_cons, IH. ring.
Qed.

Section SortDescFacts.
Context {A : Type} (key : A -> Q).

Lemma insert_desc_Permutation (x : A) (l : list A) :
  Permutation (insert_desc key x l) (x :: l).
Proof.
  induction l as [|y l IH]; simpl.
  - reflexivity.
  - destruct (Qlt_bool (key x) (key y)).
    + rewrite IH. apply perm_swap.
    + reflexivity.
Qed.

Lemma sort_desc_Permutation (l : list A) : Permutation (sort_desc key l) l.
Proof.
  induction l as [|x l IH]; simpl.
  - reflexivity.
  - rewrite insert_desc_Permutation. now apply perm_skip.
Qed.

Lemma sort_desc_In (l : list A) (x : A) : In x (sort_desc key l) <-> In x l.
Proof.
  split; apply Permutation_in;
    [apply sort_desc_Permutation | symmetry; apply sort_desc_Permutation].
Qed.

Lemma sort_desc_Forall (P : A -> Prop) (l : list A) :
  Forall P l -> Forall P (sort_desc key l).
Proof.
  rewrite !List.Forall_forall. intros H x Hx. apply H. now apply sort_desc_In.
Qed.

Lemma insert_desc_descending (x : A) (l : list A) :
  descending key l -> descending key (insert_desc key x l).
Proof.
  induction 1 as [|y l Hy Hl IH]; simpl.
  - constructor; constructor.
  - destruct (Qlt_bool (key x) (key y)) eqn:E.
    + constructor; [|exact IH].
      apply List.Forall_forall. intros z Hz.
      apply (Permutation_in _ (insert_desc_Permutation x l)) in Hz.
      destruct Hz as [<-|Hz].
      * apply Qlt_le_weak. now apply Qlt_bool_true.
      * revert z Hz. now apply List.Forall_forall.
    + apply Qlt_bool_false in E.
      constructor; [|now constructor].
      constructor; [exact E|].
      eapply List.Forall_impl; [|exact Hy].
      intros z Hz. simpl in Hz. now apply Qle_trans with (key y).
Qed.

Lemma sort_desc_descending (l : list A) : descending key (sort_desc key l).
Proof.
  induction l as [|x l IH]; simpl.
  - constructor.
  - now apply insert_desc_descending.
Qed.
End SortDescFacts.

(** ** The right-sizing recommender *)

Section EC2RecommenderFacts.
Import EC2Recommender.
Variable config : EC2Config.

Lemma cpu_snapshot_ok (a : Analysis) (cpu : MetricStats) (p : Q) :
  cpu_utilization (a_metrics a) = Some cpu ->
  cpu_snapshot a p =
    Ok {| cs_average := ms_average cpu; cs_p95 := p; cs_max := ms_max cpu |}.
Proof. intro H. unfold cpu_snapshot. now rewrite H. Qed.

(** What a downsize recommendation looks like when one is returned. *)
Lemma recommend_downsize_inv (a : Analysis) (family size : string) (cost p : Q)
    (r : Recommendation) :
  _recommend_downsize config a family size cost p = Ok (Some r) ->
  let rtype := type_name family (nth (index size instance_sizes - 1) instance_sizes EmptyString) in
  let rcost := dict_get_or rtype pricing (cost * 0.5) in
  str_in size instance_sizes = true /\
  index size instance_sizes <> 0%nat /\
  Qlt_bool (cost - rcost) (min_savings_threshold config) = false /\
  rec_strategy r = "downsize"%string /\
  rec_recommended_type r = rtype /\
  rec_current_monthly_cost r = cost /\
  rec_recommended_monthly_cost r = rcost /\
  rec_monthly_savings r = cost - rcost /\
  rec_annual_savings r = rec_monthly_savings r * 12 /\
  rec_instance_id r = a_instance_id a /\
  rec_region r = a_region a.
Proof.
  unfold _recommend_downsize. cbv zeta.
  destruct (str_in size instance_sizes); [|discriminate]. cbn [negb].
  destruct (Nat.eqb_spec (index size instance_sizes) 0) as [E|E]; [discriminate|].
  destruct (Qlt_bool _ (min_savings_threshold config)) eqn:Hs; [discriminate|].
  destruct (cpu_snapshot a p) as [snap|e]; [|discriminate]. cbn [bind].
  intro H. injection H as <-. cbn. repeat split; assumption.
Qed.

(** A downsize evaluation that does not lead to a recommendation
    returns [None] before the CPU snapshot is read; with a CPU series
    present it never raises. *)
Lemma recommend_downsize_total (a : Analysis) (cpu : MetricStats)
    (family size : string) (cost p : Q) :
  cpu_utilization (a_metrics a) = Some cpu ->
  exists o, _recommend_downsize config a family size cost p = Ok o.
Proof.
  intro Hc. unfold _recommend_downsize. cbv zeta.
  destruct (negb _); [now eexists|].
  destruct (Nat.eqb _ 0); [now eexists|].
  destruct (Qlt_bool _ _); [now eexists|].
  rewrite (cpu_snapshot_ok _ _ _ Hc). cbn [bind]. now eexists.
Qed.

Lemma recommend_family_switch_inv (a : Analysis) (family size : string) (cost p : Q)
    (r : Recommendation) :
  _recommend_family_switch config a family size cost p = Ok (Some r) ->
  exists budget,
    dict_get family premium_to_budget = Some budget /\
    str_in budget (allowed_families config) = true /\
    Qlt_bool (cost - cost * 0.90) (min_savings_threshold config) = false /\
    rec_strategy r = "family_switch"%string /\
    rec_recommended_type r = type_name budget size /\
    rec_current_monthly_cost r = cost /\
    rec_recommended_monthly_cost r = cost * 0.90 /\
    rec_monthly_savings r = cost - cost * 0.90 /\
    rec_annual_savings r = rec_monthly_savings r * 12 /\
    rec_instance_id r = a_instance_id a /\
    rec_region r = a_region a.
Proof.
  unfold _recommend_family_switch. cbv zeta.
  destruct (dict_get family premium_to_budget) as [budget|]; [|discriminate].
  destruct (str_in budget (allowed_families config)) eqn:Hb; [|discriminate]. cbn [negb].
  destruct (Qlt_bool _ (min_savings_threshold config)) eqn:Hs; [discriminate|].
  destruct (cpu_snapshot a p) as [snap|e]; [|discriminate]. cbn [bind].
  intro H. injection H as <-. exists budget. cbn. repeat split; assumption.
Qed.

Lemma recommend_family_switch_total (a : Analysis) (cpu : MetricStats)
    (family size : string) (cost p : Q) :
  cpu_utilization (a_metrics a) = Some cpu ->
  exists o, _recommend_family_switch config a family size cost p = Ok o.
Proof.
  intro Hc. unfold _recommend_family_switch. cbv zeta.
  destruct (dict_get family premium_to_budget); [|now eexists].
  destruct (negb _); [now eexists|].
  destruct (Qlt_bool _ _); [now eexists|].
  rewrite (cpu_snapshot_ok _ _ _ Hc). cbn [bind]. now eexists.
Qed.

Lemma In_append_if (recs : list Recommendation) (o : option Recommendation)
    (r : Recommendation) :
  In r (append_if recs o) <-> In r recs \/ o = Some r.
Proof.
  destruct o as [r'|]; simpl.
  - rewrite in_app_iff. simpl. intuition congruence.
  - intuition congruence.
Qed.

Lemma find_better_total (a : Analysis) (cpu : MetricStats) (ty : string) (p : Q) :
  cpu_utilization (a_metrics a) = Some cpu ->
  exists recs, _find_better_instance_types config a ty p = Ok recs.
Proof.
  intro Hc. unfold _find_better_instance_types. cbv zeta.
  destruct (split_dot ty) as [|family [|size [|? ?]]]; try (now eexists).
  destruct (recommend_downsize_total a cpu family size (a_current_cost a) p Hc) as [o1 ->].
  destruct (recommend_family_switch_total a cpu family size (a_current_cost a) p Hc) as [o2 ->].
  cbn [bind]. now eexists.
Qed.

Lemma find_better_inv (a : Analysis) (ty : string) (p : Q)
    (recs : list Recommendation) (r : Recommendation) :
  _find_better_instance_types config a ty p = Ok recs ->
  In r recs ->
  exists family size,
    split_dot ty = [family; size] /\
    (_recommend_downsize config a family size (a_current_cost a) p = Ok (Some r) \/
     _recommend_family_switch config a family size (a_current_cost a) p = Ok (Some r)).
Proof.
  unfold _find_better_instance_types. cbv zeta.
  destruct (split_dot ty) as [|family [|size [|? ?]]];
    try (intro H; injection H as <-; intros []).
  destruct (_recommend_downsize config a family size (a_current_cost a) p) as [o1|] eqn:H1;
    [|discriminate].
  destruct (_recommend_family_switch config a family size (a_current_cost a) p) as [o2|] eqn:H2;
    [|discriminate].
  cbn [bind]. intro H. injection H as <-. intro Hin.
  exists family, size. split; [reflexivity|].
  apply In_append_if in Hin. destruct Hin as [Hin| ->]; [|now right].
  apply In_append_if in Hin. destruct Hin as [[]| ->]. now left.
Qed.

Lemma find_better_malformed (a : Analysis) (ty : string) (p : Q) :
  List.length (split_dot ty) <> 2%nat ->
  _find_better_instance_types config a ty p = Ok [].
Proof.
  intro H. unfold _find_better_instance_types. cbv zeta.
  destruct (split_dot ty) as [|family [|size [|? ?]]]; try reflexivity.
  now contradiction H.
Qed.

(** The loop body only ever extends the accumulator, and only for an
    eligible resource. *)
Lemma loop_body_inv (acc acc' : list Recommendation) (a : Analysis) :
  loop_body config acc a = Ok acc' ->
  exists recs, acc' = acc ++ recs /\ forall r, In r recs -> produced_for config a r.
Proof.
  unfold loop_body. cbv zeta.
  destruct (cpu_utilization (a_metrics a)) as [cpu|] eqn:Hc.
  - destruct (Qlt_bool (ms_p95 cpu) (cpu_underutilized_threshold config)) eqn:Hp.
    + destruct (_find_better_instance_types config a (a_instance_type a) (ms_p95 cpu))
        as [recs|] eqn:Hf; [|discriminate].
      cbn [bind]. intro H. injection H as <-. exists recs. split; [reflexivity|].
      intros r Hr. destruct (find_better_inv _ _ _ _ _ Hf Hr) as (family & size & Hs & Hd).
      exists cpu, family, size. apply Qlt_bool_true in Hp. auto.
    + intro H. injection H as <-. exists []. split; [now rewrite app_nil_r|intros ? []].
  - intro H. injection H as <-. exists []. split; [now rewrite app_nil_r|intros ? []].
Qed.

Lemma loop_body_total (acc : list Recommendation) (a : Analysis) :
  exists acc', loop_body config acc a = Ok acc'.
Proof.
  unfold loop_body. cbv zeta.
  destruct (cpu_utilization (a_metrics a)) as [cpu|] eqn:Hc; [|now eexists].
  destruct (Qlt_bool _ _); [|now eexists].
  destruct (find_better_total a cpu (a_instance_type a) (ms_p95 cpu) Hc) as [recs ->].
  cbn [bind]. now eexists.
Qed.

Lemma loop_body_ineligible (acc : list Recommendation) (a : Analysis) :
  ineligible config a -> loop_body config acc a = Ok acc.
Proof.
  unfold loop_body. cbv zeta. intros [-> | (cpu & -> & Hle)]; [reflexivity|].
  apply Qlt_bool_false in Hle. now rewrite Hle.
Qed.

Lemma loop_body_malformed (acc : list Recommendation) (a : Analysis) :
  malformed a -> loop_body config acc a = Ok acc.
Proof.
  unfold loop_body, malformed. cbv zeta. intro Hm.
  destruct (cpu_utilization (a_metrics a)) as [cpu|]; [|reflexivity].
  destruct (Qlt_bool _ _); [|reflexivity].
  rewrite (find_better_malformed _ _ _ Hm). cbn [bind]. now rewrite app_nil_r.
Qed.

Lemma loop_total (l : list Analysis) (acc : list Recommendation) :
  exists rs, loop config l acc = Ok rs.
Proof.
  revert acc. induction l as [|a l IH]; intro acc; simpl.
  - now eexists.
  - destruct (loop_body_total acc a) as [acc' ->]. cbn [bind]. apply IH.
Qed.

Lemma loop_inv (l : list Analysis) (acc rs : list Recommendation) (r : Recommendation) :
  loop config l acc = Ok rs -> In r rs ->
  In r acc \/ exists a, In a l /\ produced_for config a r.
Proof.
  revert acc. induction l as [|a l IH]; intro acc; simpl.
  - intro H. injection H as <-. now left.
  - destruct (loop_body config acc a) as [acc'|] eqn:Hb; [|discriminate]. cbn [bind].
    intros Hl Hr. destruct (loop_body_inv _ _ _ Hb) as (recs & -> & Hrecs).
    destruct (IH _ Hl Hr) as [Hin|(a' & Ha' & Hp)].
    + apply in_app_iff in Hin. destruct Hin as [Hin|Hin]; [now left|].
      right. exists a. split; [now left|now apply Hrecs].
    + right. exists a'. split; [now right|exact Hp].
Qed.

(** Skipping a resource whose loop body leaves the accumulator alone
    does not change the run. *)
Lemma loop_skip (l1 l2 : list Analysis) (a : Analysis) (acc : list Recommendation) :
  (forall acc', loop_body config acc' a = Ok acc') ->
  loop config (l1 ++ a :: l2) acc = loop config (l1 ++ l2) acc.
Proof.
  intro Hskip. revert acc. induction l1 as [|b l1 IH]; intro acc; simpl.
  - now rewrite Hskip.
  - destruct (loop_body config acc b) as [acc'|]; [|reflexivity]. cbn [bind]. apply IH.
Qed.

Lemma generate_total (l : list Analysis) :
  exists rs, generate_recommendations config l = Ok rs.
Proof.
  unfold generate_recommendations. destruct (loop_total l []) as [rs ->].
  cbn [bind]. now eexists.
Qed.

Lemma generate_inv (l : list Analysis) (rs : list Recommendation) (r : Recommendation) :
  generate_recommendations config l = Ok rs -> In r rs ->
  exists a, In a l /\ produced_for config a r.
Proof.
  unfold generate_recommendations.
  destruct (loop config l []) as [recs|] eqn:Hl; [|discriminate]. cbn [bind].
  intro H. injection H as <-. intro Hr. apply sort_desc_In in Hr.
  destruct (loop_inv _ _ _ _ Hl Hr) as [[]|H]. exact H.
Qed.

(** The result is ordered by decreasing monthly savings. *)
Lemma generate_descending (l : list Analysis) (rs : list Recommendation) :
  generate_recommendations config l = Ok rs -> descending rec_monthly_savings rs.
Proof.
  unfold generate_recommendations.
  destruct (loop config l []) as [recs|]; [|discriminate]. cbn [bind].
  intro H. injection H as <-. apply sort_desc_descending.
Qed.

Lemma generate_skip (l1 l2 : list Analysis) (a : Analysis) :
  (forall acc', loop_body config acc' a = Ok acc') ->
  generate_recommendations config (l1 ++ a :: l2) =
  generate_recommendations config (l1 ++ l2).
Proof.
  intro H. unfold generate_recommendations. now rewrite (loop_skip _ _ _ _ H).
Qed.

End EC2RecommenderFacts.

(** ** Properties of the right-sizing recommender *)

Section EC2RecommenderClaims.
Import EC2Recommender.

Lemma str_in_In (x : string) (l : list string) : str_in x l = true <-> In x l.
Proof.
  unfold str_in. rewrite existsb_exists. split.
  - intros (y & Hy & E). apply String.eqb_eq in E. now subst.
  - intro H. exists x. split; [exact H|apply String.eqb_refl].
Qed.

Lemma dict_get_In {V : Type} (k : string) (d : list (string * V)) (v : V) :
  dict_get k d = Some v -> In (k, v) d.
Proof.
  induction d as [|[k' v'] d IH]; simpl; [discriminate|].
  destruct (String.eqb_spec k k') as [->|_].
  - intro H. injection H as ->. now left.
  - intro H. right. now apply IH.
Qed.

Lemma eligible_not_ineligible (config : EC2Config) (a : Analysis) :
  eligible config a -> ~ ineligible config a.
Proof.
  intros (cpu & Hc & Hlt) [Hn|(cpu' & Hc' & Hle)]; [congruence|].
  rewrite Hc in Hc'. injection Hc' as <-. now apply (Qlt_not_le _ _ Hlt).
Qed.

Lemma produced_for_eligible (config : EC2Config) (a : Analysis) (r : Recommendation) :
  produced_for config a r -> eligible config a.
Proof. intros (cpu & _ & _ & Hc & Hp & _). now exists cpu. Qed.

Lemma produced_for_well_formed (config : EC2Config) (a : Analysis) (r : Recommendation) :
  produced_for config a r -> ~ malformed a.
Proof. intros (_ & family & size & _ & _ & Hs & _) Hm. apply Hm. now rewrite Hs. Qed.

(** A recommendation keeps the identity of the resource it was
    produced for. *)
Lemma produced_for_identity (config : EC2Config) (a : Analysis) (r : Recommendation) :
  produced_for config a r ->
  rec_instance_id r = a_instance_id a /\ rec_region r = a_region a.
Proof.
  intros (cpu & family & size & _ & _ & _ & [H|H]).
  - apply recommend_downsize_inv in H. cbv zeta in H. tauto.
  - apply recommend_family_switch_inv in H. destruct H as (budget & H). tauto.
Qed.

(** Every fact shared by the two strategies, for a recommendation that
    was produced for a resource. *)
Lemma produced_for_savings (config : EC2Config) (a : Analysis) (r : Recommendation) :
  produced_for config a r ->
  min_savings_threshold config <= rec_monthly_savings r /\
  rec_monthly_savings r = rec_current_monthly_cost r - rec_recommended_monthly_cost r /\
  rec_annual_savings r = rec_monthly_savings r * 12.
Proof.
  intros (cpu & family & size & _ & _ & _ & [H|H]).
  - apply recommend_downsize_inv in H. cbv zeta in H.
    destruct H as (_ & _ & Hs & _ & _ & Hc & Hr & Hm & Ha & _).
    apply Qlt_bool_false in Hs.
    repeat split; [rewrite Hm; exact Hs|rewrite Hm, Hc, Hr; reflexivity|exact Ha].
  - apply recommend_family_switch_inv in H.
    destruct H as (budget & _ & _ & Hs & _ & _ & Hc & Hr & Hm & Ha & _).
    apply Qlt_bool_false in Hs.
    repeat split; [rewrite Hm; exact Hs|rewrite Hm, Hc, Hr; reflexivity|exact Ha].
Qed.

(** C1, as stated, fails: with a threshold of 35.04 the idle [m5.large]
    at 70.08 per month gets a downsize recommendation whose monthly
    savings are exactly 35.04, not strictly more. *)
Lemma savings_equal_to_threshold_emitted :
  ~ (forall config l rs r,
       generate_recommendations config l = Ok rs -> In r rs ->
       min_savings_threshold config < rec_monthly_savings r).
Proof.
  intro H.
  destruct (generate_recommendations Examples.config_35 [Examples.idle_m5_large])
    as [[|r rs]|] eqn:E; try discriminate E.
  specialize (H Examples.config_35 [Examples.idle_m5_large] _ r E (or_introl eq_refl)).
  vm_compute in E. injection E as <- _.
  vm_compute in H. discriminate H.
Qed.

Example savings_equal_to_threshold_values :
  exists r,
    generate_recommendations Examples.config_35 [Examples.idle_m5_large] = Ok [r] /\
    rec_recommended_type r = "m5.medium"%string /\
    rec_monthly_savings r == 35.04 /\
    min_savings_threshold Examples.config_35 == 35.04.
Proof. eexists. split; [vm_compute; reflexivity|]. repeat split. Qed.

(** The smallest rung is never downsized: an idle [t3.nano] gets no
    recommendation when its budget family is not allowed. *)
Example smallest_rung_not_downsized :
  generate_recommendations Examples.config_0 [Examples.idle_nano] = Ok [].
Proof. reflexivity. Qed.

(** With a threshold of 0 a recommendation that saves nothing is
    returned. *)
Example zero_savings_emitted_at_zero_threshold :
  exists r, generate_recommendations Examples.config_0 [Examples.idle_free] = Ok [r] /\
            rec_monthly_savings r == 0.
Proof. eexists. split; [vm_compute; reflexivity|reflexivity]. Qed.

(** C1 (amended): [generate_recommendations] returns, and every
    recommendation it returns has
    [monthly_savings = current_monthly_cost - recommended_monthly_cost]
    at least equal to [min_savings_threshold] (savings equal to the
    threshold are emitted); when the threshold is positive, so are the
    savings of every returned recommendation. *)
Theorem savings_reach_threshold (config : EC2Config) (l : list Analysis) :
  exists rs,
    generate_recommendations config l = Ok rs /\
    Forall (fun r =>
              min_savings_threshold config <= rec_monthly_savings r /\
              rec_monthly_savings r =
                rec_current_monthly_cost r - rec_recommended_monthly_cost r /\
              (0 < min_savings_threshold config -> 0 < rec_monthly_savings r)) rs.
Proof.
  destruct (generate_total config l) as [rs Hrs]. exists rs. split; [exact Hrs|].
  apply List.Forall_forall. intros r Hr.
  destruct (generate_inv _ _ _ _ Hrs Hr) as (a & _ & Hp).
  destruct (produced_for_savings _ _ _ Hp) as (Hle & Hm & _).
  repeat split; try assumption.
  intro Hpos. now apply Qlt_le_trans with (min_savings_threshold config).
Qed.

Lemma savings_reach_threshold_witness :
  exists rs,
    generate_recommendations Examples.config_50 [Examples.idle_x9; Examples.idle_m5] = Ok rs /\
    Forall (fun r => 0 < rec_monthly_savings r) rs.
Proof.
  destruct (savings_reach_threshold Examples.config_50 [Examples.idle_x9; Examples.idle_m5])
    as (rs & Hg & Hall).
  exists rs. split; [exact Hg|].
  eapply List.Forall_impl; [|exact Hall].
  intros r (_ & _ & Hpos). apply Hpos. reflexivity.
Defined.

(** C10: every recommendation returned by [generate_recommendations],
    from either strategy, has [annual_savings] equal to 12 times its
    [monthly_savings]. *)
Theorem annual_is_twelve_monthly (config : EC2Config) (l : list Analysis) :
  exists rs,
    generate_recommendations config l = Ok rs /\
    Forall (fun r => rec_annual_savings r = rec_monthly_savings r * 12 /\
                     rec_annual_savings r == 12 * rec_monthly_savings r) rs.
Proof.
  destruct (generate_total config l) as [rs Hrs]. exists rs. split; [exact Hrs|].
  apply List.Forall_forall. intros r Hr.
  destruct (generate_inv _ _ _ _ Hrs Hr) as (a & _ & Hp).
  destruct (produced_for_savings _ _ _ Hp) as (_ & _ & Ha).
  split; [exact Ha|]. rewrite Ha. ring.
Qed.

(** C4: [generate_recommendations] never raises; every recommendation
    it returns was produced for an input resource whose CPU series
    exists with p95 strictly below the threshold; and a resource whose
    CPU series is missing or whose p95 is at or above the threshold
    contributes nothing: the loop body leaves the list of
    recommendations as it was, and the result is the one obtained
    without that resource. *)
Theorem cpu_gate (config : EC2Config) (l : list Analysis) :
  exists rs,
    generate_recommendations config l = Ok rs /\
    (forall r, In r rs ->
       exists a, In a l /\ eligible config a /\ produced_for config a r /\
                 rec_instance_id r = a_instance_id a) /\
    (forall l1 a l2, l = l1 ++ a :: l2 -> ineligible config a ->
       (forall acc, loop_body config acc a = Ok acc) /\
       generate_recommendations config (l1 ++ l2) = Ok rs).
Proof.
  destruct (generate_total config l) as [rs Hrs]. exists rs. split; [exact Hrs|]. split.
  - intros r Hr. destruct (generate_inv _ _ _ _ Hrs Hr) as (a & Ha & Hp).
    exists a. split; [exact Ha|]. split; [now apply produced_for_eligible with r|].
    split; [exact Hp|]. now apply (produced_for_identity config).
  - intros l1 a l2 -> Hi.
    assert (Hskip : forall acc, loop_body config acc a = Ok acc)
      by (intro acc; now apply loop_body_ineligible).
    split; [exact Hskip|]. now rewrite <- (generate_skip config l1 l2 a Hskip).
Qed.

(** C8: [generate_recommendations] never raises; a resource whose type
    does not split into exactly two dot-separated segments gets no
    strategy evaluated ([_find_better_instance_types] returns the
    empty list for it), adds nothing to the result, and leaves the
    result for the other resources as it is without that resource;
    every recommendation returned belongs to a resource with a
    two-segment type. *)
Theorem malformed_type_skipped (config : EC2Config) (l : list Analysis) :
  exists rs,
    generate_recommendations config l = Ok rs /\
    (forall l1 a l2, l = l1 ++ a :: l2 -> malformed a ->
       (forall p, _find_better_instance_types config a (a_instance_type a) p = Ok []) /\
       (forall acc, loop_body config acc a = Ok acc) /\
       generate_recommendations config (l1 ++ l2) = Ok rs) /\
    (forall r, In r rs ->
       exists a, In a l /\ ~ malformed a /\ produced_for config a r /\
                 rec_instance_id r = a_instance_id a).
Proof.
  destruct (generate_total config l) as [rs Hrs]. exists rs. split; [exact Hrs|]. split.
  - intros l1 a l2 -> Hm.
    assert (Hskip : forall acc, loop_body config acc a = Ok acc)
      by (intro acc; now apply loop_body_malformed).
    split; [intro p; now apply find_better_malformed|].
    split; [exact Hskip|]. now rewrite <- (generate_skip config l1 l2 a Hskip).
  - intros r Hr. destruct (generate_inv _ _ _ _ Hrs Hr) as (a & Ha & Hp).
    exists a. split; [exact Ha|]. split; [now apply produced_for_well_formed with config r|].
    split; [exact Hp|]. now apply (produced_for_identity config).
Qed.

Lemma cpu_gate_witness :
  exists rs,
    generate_recommendations Examples.config_50
      [Examples.idle_m5; Examples.busy_m5; Examples.blind_m5] = Ok rs /\
    generate_recommendations Examples.config_50 [Examples.idle_m5; Examples.blind_m5] = Ok rs /\
    generate_recommendations Examples.config_50 [Examples.idle_m5; Examples.busy_m5] = Ok rs.
Proof.
  destruct (cpu_gate Examples.config_50 [Examples.idle_m5; Examples.busy_m5; Examples.blind_m5])
    as (rs & Hg & _ & Hskip).
  exists rs. split; [exact Hg|]. split.
  - apply (Hskip [Examples.idle_m5] Examples.busy_m5 [Examples.blind_m5] eq_refl).
    right. exists (Examples.cpu_stats 12 20 90). split; [reflexivity|].
    unfold Qle. simpl. lia.
  - apply (Hskip [Examples.idle_m5; Examples.busy_m5] Examples.blind_m5 [] eq_refl).
    left. reflexivity.
Defined.

Lemma malformed_type_skipped_witness :
  exists rs,
    generate_recommendations Examples.config_50 [Examples.idle_db; Examples.idle_m5] = Ok rs /\
    generate_recommendations Examples.config_50 [Examples.idle_m5] = Ok rs.
Proof.
  destruct (malformed_type_skipped Examples.config_50 [Examples.idle_db; Examples.idle_m5])
    as (rs & Hg & Hskip & _).
  exists rs. split; [exact Hg|].
  apply (Hskip [] Examples.idle_db [Examples.idle_m5] eq_refl).
  unfold malformed. simpl. lia.
Defined.




(** C6: when the family-switch strategy returns a recommendation, the
    family is a key of the premium-to-budget map
    (m5 to m5a, c5 to c5a, r5 to r5a, t3 to t3a), the mapped budget
    family is in [allowed_families], the recommended type is the budget
    family with the size unchanged, that is the budget family, a dot and
    the size the current type has after its own family and dot, and the
    recommended cost is the current monthly cost times 0.90. *)
Theorem family_switch_gate (config : EC2Config) (a : Analysis)
    (family size : string) (cost p : Q) (r : Recommendation) :
  _recommend_family_switch config a family size cost p = Ok (Some r) ->
  exists budget,
    In (family, budget) [("m5", "m5a"); ("c5", "c5a"); ("r5", "r5a"); ("t3", "t3a")]%string /\
    In budget (allowed_families config) /\
    rec_strategy r = "family_switch"%string /\
    rec_recommended_type r = type_name budget size /\
    rec_recommended_type r = String.append budget (String "." size) /\
    rec_current_type r = String.append family (String "." size) /\
    rec_recommended_monthly_cost r = cost * 0.90 /\
    rec_recommended_monthly_cost r == (9 # 10) * cost.
Proof.
  intro H. pose proof (recommend_family_switch_inv _ _ _ _ _ _ _ H) as Hinv.
  destruct Hinv as (budget & Hm & Ha & _ & Hst & Hrt & _ & Hrc & _).
  exists budget. split; [exact (dict_get_In _ _ _ Hm)|].
  split; [now apply str_in_In|].
  split; [exact Hst|]. split; [exact Hrt|]. split; [rewrite Hrt; reflexivity|].
  split; [|split; [exact Hrc|rewrite Hrc; ring]].
  unfold _recommend_family_switch in H. cbv zeta in H.
  rewrite Hm in H. apply str_in_In in Ha.
  destruct (negb (str_in budget (allowed_families config))); [discriminate H|].
  destruct (Qlt_bool _ _); [discriminate H|].
  destruct (cpu_snapshot _) as [snap|e]; [|discriminate H].
  cbn [bind] in H. injection H as <-. reflexivity.
Qed.

(** The specification's example: with [allowed_families = {m5a}] an
    idle [c5.large] gets no family-switch recommendation although
    [c5] maps to [c5a]. *)
Example no_switch_to_disallowed_family :
  _recommend_family_switch Examples.config_50 Examples.idle_c5 "c5" "large" 1000 10 = Ok None /\
  dict_get "c5" premium_to_budget = Some "c5a"%string.
Proof. split; reflexivity. Qed.

(** In the whole run every recommendation tagged [family_switch] comes
    from an input resource through the gate above. *)
Lemma generate_family_switch (config : EC2Config) (l : list Analysis)
    (rs : list Recommendation) (r : Recommendation) :
  generate_recommendations config l = Ok rs -> In r rs ->
  rec_strategy r = "family_switch"%string ->
  exists a family size budget,
    In a l /\ split_dot (a_instance_type a) = [family; size] /\
    dict_get family premium_to_budget = Some budget /\
    In budget (allowed_families config) /\
    rec_recommended_type r = type_name budget size /\
    rec_recommended_monthly_cost r = a_current_cost a * 0.90.
Proof.
  intros Hg Hr Hst.
  destruct (generate_inv _ _ _ _ Hg Hr) as (a & Ha & cpu & family & size & _ & _ & Hs & [H|H]).
  - apply recommend_downsize_inv in H. cbv zeta in H.
    destruct H as (_ & _ & _ & Hst' & _). congruence.
  - apply recommend_family_switch_inv in H.
    destruct H as (budget & Hm & Hal & _ & _ & Hrt & _ & Hrc & _).
    exists a, family, size, budget. repeat split; try assumption. now apply str_in_In.
Qed.


Lemma family_switch_gate_witness :
  exists r,
    _recommend_family_switch Examples.config_50 Examples.idle_m5 "m5" "xlarge" 1000 10
      = Ok (Some r) /\
    In "m5a"%string (allowed_families Examples.config_50) /\
    rec_current_type r = "m5.xlarge"%string /\
    rec_recommended_type r = "m5a.xlarge"%string /\
    rec_recommended_monthly_cost r == 900.
Proof.
  assert (E : exists r, _recommend_family_switch Examples.config_50 Examples.idle_m5
                          "m5" "xlarge" 1000 10 = Ok (Some r))
    by (vm_compute; eexists; reflexivity).
  destruct E as [r E].
  destruct (family_switch_gate _ _ _ _ _ _ _ E)
    as (budget & Hin & Ha & _ & _ & Ht & Hct & _ & Hc).
  assert (Hb : budget = "m5a"%string).
  { destruct Hin as [Hp|[Hp|[Hp|[Hp|[]]]]]; inversion Hp. reflexivity. }
  subst budget.
  exists r. repeat split; try assumption. rewrite Hc. reflexivity.
Defined.

End EC2RecommenderClaims.

(** ** Further properties of the right-sizing recommender *)

Section EC2RecommenderExtra.
Import EC2Recommender.

Lemma loop_body_recs_of (config : EC2Config) (acc : list Recommendation) (a : Analysis) :
  loop_body config acc a = Ok (acc ++ recs_of config a).
Proof.
  unfold recs_of, loop_body. cbv zeta.
  destruct (cpu_utilization (a_metrics a)) as [cpu|] eqn:Hc; [|now rewrite app_nil_r].
  destruct (Qlt_bool _ _); [|now rewrite app_nil_r].
  destruct (find_better_total config a cpu (a_instance_type a) (ms_p95 cpu) Hc) as [recs ->].
  reflexivity.
Qed.

Lemma loop_flat_map (config : EC2Config) (l : list Analysis) (acc : list Recommendation) :
  loop config l acc = Ok (acc ++ flat_map (recs_of config) l).
Proof.
  revert acc. induction l as [|a l IH]; intro acc; simpl.
  - now rewrite app_nil_r.
  - rewrite loop_body_recs_of. cbn [bind]. rewrite IH, <- app_assoc. reflexivity.
Qed.

Lemma generate_flat_map (config : EC2Config) (l : list Analysis) :
  generate_recommendations config l =
  Ok (sort_desc rec_monthly_savings (flat_map (recs_of config) l)).
Proof. unfold generate_recommendations. rewrite loop_flat_map. reflexivity. Qed.

Lemma recs_of_produced (config : EC2Config) (a : Analysis) (r : Recommendation) :
  In r (recs_of config a) <-> produced_for config a r.
Proof.
  split.
  - intro Hin. destruct (loop_body_inv config [] _ a (loop_body_recs_of config [] a))
      as (recs & E & H). simpl in E. subst recs. now apply H.
  - intros (cpu & family & size & Hc & Hp & Hs & Hr).
    unfold recs_of, loop_body. cbv zeta. rewrite Hc.
    apply Qlt_bool_true in Hp. rewrite Hp.
    unfold _find_better_instance_types. cbv zeta. rewrite Hs.
    destruct (recommend_downsize_total config a cpu family size (a_current_cost a)
                (ms_p95 cpu) Hc) as [o1 H1].
    destruct (recommend_family_switch_total config a cpu family size (a_current_cost a)
                (ms_p95 cpu) Hc) as [o2 H2].
    rewrite H1, H2. cbn [bind app]. apply In_append_if.
    destruct Hr as [Hr|Hr].
    + left. apply In_append_if. right. congruence.
    + right. congruence.
Qed.

Lemma generate_complete (config : EC2Config) (l : list Analysis) (a : Analysis)
    (r : Recommendation) :
  In a l -> produced_for config a r ->
  In r (sort_desc rec_monthly_savings (flat_map (recs_of config) l)).
Proof.
  intros Ha Hp. apply sort_desc_In. apply in_flat_map. exists a.
  split; [exact Ha|now apply recs_of_produced].
Qed.

Lemma recs_of_length (config : EC2Config) (a : Analysis) :
  (List.length (recs_of config a) <= 2)%nat.
Proof.
  unfold recs_of, loop_body. cbv zeta.
  destruct (cpu_utilization (a_metrics a)) as [cpu|]; [|simpl; lia].
  destruct (Qlt_bool _ _); [|simpl; lia].
  unfold _find_better_instance_types. cbv zeta.
  destruct (split_dot (a_instance_type a)) as [|family [|size [|? ?]]]; try (simpl; lia).
  destruct (_recommend_downsize _ _ _ _ _ _) as [o1|]; [|simpl; lia].
  destruct (_recommend_family_switch _ _ _ _ _ _) as [o2|]; [|simpl; lia].
  destruct o1, o2; simpl; lia.
Qed.

Lemma sort_desc_fixed {A : Type} (key : A -> Q) (l : list A) :
  descending key l -> sort_desc key l = l.
Proof.
  induction 1 as [|x l Hx Hl IH]; simpl; [reflexivity|].
  rewrite IH. destruct l as [|y l]; [reflexivity|]. simpl.
  apply List.Forall_inv in Hx. apply Qlt_bool_false in Hx. now rewrite Hx.
Qed.

(** X1: the recommendations are returned in order of decreasing
    monthly savings, they are exactly the recommendations collected by
    the loop (none lost, none duplicated), and sorting the result again
    leaves it unchanged. *)
Theorem recommendations_sorted_by_savings (config : EC2Config) (l : list Analysis) :
  exists rs,
    generate_recommendations config l = Ok rs /\
    descending rec_monthly_savings rs /\
    Permutation rs (flat_map (recs_of config) l) /\
    sort_desc rec_monthly_savings rs = rs.
Proof.
  eexists. split; [apply generate_flat_map|].
  split; [apply sort_desc_descending|].
  split; [apply sort_desc_Permutation|].
  apply sort_desc_fixed, sort_desc_descending.
Qed.

(** X2: an eligible input resource whose type splits into a premium
    family and a size, whose budget family is allowed, and for which
    the strategy's guard does not fire (the difference
    [current_cost - current_cost * 0.90] is not below the threshold),
    gets a family-switch recommendation in the result: it names the
    resource, its recommended type is the budget family, a dot and the
    same size, and its monthly_savings is that same difference. *)
Theorem family_switch_emitted (config : EC2Config) (l : list Analysis) (a : Analysis)
    (family size budget : string) :
  In a l ->
  eligible config a ->
  split_dot (a_instance_type a) = [family; size] ->
  dict_get family premium_to_budget = Some budget ->
  In budget (allowed_families config) ->
  min_savings_threshold config <= a_current_cost a - a_current_cost a * 0.90 ->
  exists rs r,
    generate_recommendations config l = Ok rs /\
    In r rs /\
    rec_instance_id r = a_instance_id a /\
    rec_strategy r = "family_switch"%string /\
    rec_recommended_type r = String.append budget (String "." size) /\
    rec_monthly_savings r = a_current_cost a - a_current_cost a * 0.90.
Proof.
  intros Ha (cpu & Hc & Hp) Hs Hm Hal Hsav.
  assert (E : exists r,
            _recommend_family_switch config a family size (a_current_cost a) (ms_p95 cpu)
            = Ok (Some r)).
  { unfold _recommend_family_switch. cbv zeta. rewrite Hm.
    apply str_in_In in Hal. rewrite Hal. cbn [negb].
    apply Qlt_bool_false in Hsav. rewrite Hsav.
    rewrite (cpu_snapshot_ok _ _ _ Hc). cbn [bind]. eexists. reflexivity. }
  destruct E as [r Hr].
  exists (sort_desc rec_monthly_savings (flat_map (recs_of config) l)), r.
  split; [apply generate_flat_map|]. split.
  - apply (generate_complete config l a r Ha).
    exists cpu, family, size. auto.
  - apply recommend_family_switch_inv in Hr.
    destruct Hr as (b & Hb & _ & _ & Hst & Hrt & _ & _ & Hms & _ & Hid & _).
    assert (b = budget) by congruence. subst b.
    repeat split; assumption.
Qed.


Lemma about_recs_of (config : EC2Config) (id : string) (a : Analysis) :
  List.filter (about id) (recs_of config a) =
  if has_id id a then recs_of config a else [].
Proof.
  assert (H : forall r, In r (recs_of config a) -> about id r = has_id id a).
  { intros r Hr. apply recs_of_produced in Hr.
    destruct (produced_for_identity _ _ _ Hr) as [Hid _].
    unfold about, has_id. now rewrite Hid. }
  induction (recs_of config a) as [|r rs IH]; simpl.
  - now destruct (has_id id a).
  - rewrite (H r (or_introl eq_refl)), IH by (intros r' Hr'; apply H; now right).
    now destruct (has_id id a).
Qed.

(** X4: a resource gets at most two recommendations: for every
    identifier, the result holds at most twice as many recommendations
    about it as there are input resources with that identifier. *)
Theorem at_most_two_per_resource (config : EC2Config) (l : list Analysis) (id : string) :
  exists rs,
    generate_recommendations config l = Ok rs /\
    (List.length (List.filter (about id) rs) <=
     2 * List.length (List.filter (has_id id) l))%nat /\
    (List.length rs <= 2 * List.length l)%nat.
Proof.
  eexists. split; [apply generate_flat_map|].
  set (recs := flat_map (recs_of config) l).
  assert (Hperm := sort_desc_Permutation rec_monthly_savings recs).
  split.
  - assert (Hlen : List.length (List.filter (about id) (sort_desc rec_monthly_savings recs)) =
                   List.length (List.filter (about id) recs)).
    { clear - Hperm. induction Hperm as [|x l1 l2 _ IH|x y l1|l1 l2 l3 _ IH1 _ IH2]; simpl.
      - reflexivity.
      - destruct (about id x); simpl; now rewrite IH.
      - destruct (about id x), (about id y); reflexivity.
      - now rewrite IH1. }
    rewrite Hlen. unfold recs. clear.
    induction l as [|a l IH]; simpl; [lia|].
    rewrite List.filter_app, List.length_app, about_recs_of.
    pose proof (recs_of_length config a).
    destruct (has_id id a); simpl; lia.
  - rewrite (Permutation_length Hperm). unfold recs. clear.
    induction l as [|a l IH]; simpl; [lia|].
    rewrite List.length_app. pose proof (recs_of_length config a). lia.
Qed.

Lemma type_name_inj (family s1 s2 : string) :
  type_name family s1 = type_name family s2 -> s1 = s2.
Proof.
  unfold type_name. induction family as [|c family IH]; simpl.
  - intro H. now injection H.
  - intro H. injection H as H. now apply IH.
Qed.

Lemma ladder_smaller_differs (size : string) :
  str_in size instance_sizes = true ->
  index size instance_sizes <> 0%nat ->
  nth (index size instance_sizes - 1) instance_sizes EmptyString <> size.
Proof.
  intros Hin Hidx. apply str_in_In in Hin.
  repeat (destruct Hin as [<-|Hin]; [first [now contradiction Hidx | discriminate]|]).
  destruct Hin.
Qed.

(** X5: no recommendation proposes the type the resource already has:
    in every returned recommendation the recommended type differs from
    the current type. *)
Theorem never_recommends_current_type (config : EC2Config) (l : list Analysis) :
  exists rs,
    generate_recommendations config l = Ok rs /\
    Forall (fun r => rec_recommended_type r <> rec_current_type r) rs.
Proof.
  eexists. split; [apply generate_flat_map|].
  apply sort_desc_Forall. apply List.Forall_forall. intros r Hr.
  apply in_flat_map in Hr. destruct Hr as (a & _ & Hr).
  unfold recs_of, loop_body in Hr. cbv zeta in Hr.
  destruct (cpu_utilization (a_metrics a)) as [cpu|] eqn:Hc; [|destruct Hr].
  destruct (Qlt_bool _ _); [|destruct Hr].
  destruct (_find_better_instance_types config a (a_instance_type a) (ms_p95 cpu))
    as [recs|] eqn:Hf; [|destruct Hr]. cbn [bind app] in Hr.
  destruct (find_better_inv _ _ _ _ _ _ Hf Hr) as (family & size & _ & [H|H]).
  - pose proof (recommend_downsize_inv _ _ _ _ _ _ _ H) as Hinv. cbv zeta in Hinv.
    destruct Hinv as (Hin & Hidx & _ & _ & Hrt & _).
    assert (Hct : rec_current_type r = type_name family size).
    { revert H. unfold _recommend_downsize. cbv zeta. rewrite Hin. cbn [negb].
      destruct (Nat.eqb _ 0); [discriminate|].
      destruct (Qlt_bool _ _); [discriminate|].
      destruct (cpu_snapshot a (ms_p95 cpu)); [|discriminate]. cbn [bind].
      intro E. injection E as <-. reflexivity. }
    rewrite Hrt, Hct. intro E. apply type_name_inj in E.
    now apply (ladder_smaller_differs size Hin Hidx).
  - pose proof (recommend_family_switch_inv _ _ _ _ _ _ _ H) as Hinv.
    destruct Hinv as (budget & Hm & _ & _ & _ & Hrt & _).
    assert (Hct : rec_current_type r = type_name family size).
    { revert H. unfold _recommend_family_switch. cbv zeta. rewrite Hm.
      destruct (negb _); [discriminate|].
      destruct (Qlt_bool _ _); [discriminate|].
      destruct (cpu_snapshot a (ms_p95 cpu)); [|discriminate]. cbn [bind].
      intro E. injection E as <-. reflexivity. }
    rewrite Hrt, Hct. apply dict_get_In in Hm. simpl in Hm.
    destruct Hm as [Hm|[Hm|[Hm|[Hm|[]]]]]; injection Hm as <- <-;
      unfold type_name; simpl; discriminate.
Qed.

Lemma family_switch_emitted_witness :
  exists rs r,
    generate_recommendations Examples.config_50 [Examples.busy_m5; Examples.idle_m5] = Ok rs /\
    In r rs /\
    rec_instance_id r = a_instance_id Examples.idle_m5 /\
    rec_strategy r = "family_switch"%string /\
    rec_recommended_type r = "m5a.xlarge"%string /\
    rec_monthly_savings r = 1000 - 1000 * 0.90.
Proof.
  assert (Hel : eligible Examples.config_50 Examples.idle_m5).
  { exists (Examples.cpu_stats 4 10 35). split; reflexivity. }
  assert (Hsav : min_savings_threshold Examples.config_50 <=
                 a_current_cost Examples.idle_m5 - a_current_cost Examples.idle_m5 * 0.90).
  { unfold Qle. simpl. lia. }
  destruct (family_switch_emitted Examples.config_50 [Examples.busy_m5; Examples.idle_m5]
              Examples.idle_m5 "m5" "xlarge" "m5a"
              (or_intror (or_introl eq_refl)) Hel eq_refl eq_refl (or_introl eq_refl) Hsav)
    as (rs & r & Hg & Hin & Hid & Hst & Ht & Hm).
  exists rs, r. repeat split; assumption.
Defined.


(** Under a higher threshold each strategy returns the same
    recommendation or none. *)
Lemma recommend_downsize_threshold (config config' : EC2Config) (a : Analysis)
    (family size : string) (cost p : Q) (r : Recommendation) :
  min_savings_threshold config <= min_savings_threshold config' ->
  (_recommend_downsize config' a family size cost p = Ok (Some r) <->
   _recommend_downsize config a family size cost p = Ok (Some r) /\
   min_savings_threshold config' <= rec_monthly_savings r).
Proof.
  intro Hle. unfold _recommend_downsize. cbv zeta.
  destruct (negb _); [split; [discriminate|intros [? _]; discriminate]|].
  destruct (Nat.eqb _ 0); [split; [discriminate|intros [? _]; discriminate]|].
  set (savings := cost - _).
  destruct (cpu_snapshot a p) as [snap|e]; cbn [bind].
  - destruct (Qlt_bool savings (min_savings_threshold config')) eqn:E'.
    + split; [discriminate|]. intros [H Hm].
      destruct (Qlt_bool savings (min_savings_threshold config)); [discriminate|].
      injection H as <-. cbn in Hm. apply Qlt_bool_false in Hm. congruence.
    + apply Qlt_bool_false in E'.
      assert (E : Qlt_bool savings (min_savings_threshold config) = false).
      { apply Qlt_bool_false. now apply Qle_trans with (min_savings_threshold config'). }
      rewrite E. split.
      * intro H. split; [exact H|]. injection H as <-. exact E'.
      * now intros [H _].
  - split.
    + destruct (Qlt_bool savings (min_savings_threshold config')); discriminate.
    + intros [H _]. destruct (Qlt_bool savings (min_savings_threshold config)); discriminate.
Qed.

Lemma recommend_family_switch_threshold (config config' : EC2Config) (a : Analysis)
    (family size : string) (cost p : Q) (r : Recommendation) :
  allowed_families config' = allowed_families config ->
  min_savings_threshold config <= min_savings_threshold config' ->
  (_recommend_family_switch config' a family size cost p = Ok (Some r) <->
   _recommend_family_switch config a family size cost p = Ok (Some r) /\
   min_savings_threshold config' <= rec_monthly_savings r).
Proof.
  intros Hal Hle. unfold _recommend_family_switch. cbv zeta. rewrite Hal.
  destruct (dict_get family premium_to_budget) as [budget|];
    [|split; [discriminate|intros [? _]; discriminate]].
  destruct (negb _); [split; [discriminate|intros [? _]; discriminate]|].
  set (savings := cost - _).
  destruct (cpu_snapshot a p) as [snap|e]; cbn [bind].
  - destruct (Qlt_bool savings (min_savings_threshold config')) eqn:E'.
    + split; [discriminate|]. intros [H Hm].
      destruct (Qlt_bool savings (min_savings_threshold config)); [discriminate|].
      injection H as <-. cbn in Hm. apply Qlt_bool_false in Hm. congruence.
    + apply Qlt_bool_false in E'.
      assert (E : Qlt_bool savings (min_savings_threshold config) = false).
      { apply Qlt_bool_false. now apply Qle_trans with (min_savings_threshold config'). }
      rewrite E. split.
      * intro H. split; [exact H|]. injection H as <-. exact E'.
      * now intros [H _].
  - split.
    + destruct (Qlt_bool savings (min_savings_threshold config')); discriminate.
    + intros [H _]. destruct (Qlt_bool savings (min_savings_threshold config)); discriminate.
Qed.

(** X6: raising [min_savings_threshold], everything else unchanged,
    only removes recommendations: the result under the higher threshold
    consists of exactly the recommendations of the result under the
    lower threshold whose monthly savings reach the higher threshold. *)
Theorem raising_threshold_only_removes (config config' : EC2Config) (l : list Analysis) :
  cpu_underutilized_threshold config' = cpu_underutilized_threshold config ->
  allowed_families config' = allowed_families config ->
  min_savings_threshold config <= min_savings_threshold config' ->
  exists rs rs',
    generate_recommendations config l = Ok rs /\
    generate_recommendations config' l = Ok rs' /\
    forall r, In r rs' <->
              In r rs /\ min_savings_threshold config' <= rec_monthly_savings r.
Proof.
  intros Hthr Hal Hle.
  exists (sort_desc rec_monthly_savings (flat_map (recs_of config) l)),
         (sort_desc rec_monthly_savings (flat_map (recs_of config') l)).
  split; [apply generate_flat_map|]. split; [apply generate_flat_map|].
  intro r. rewrite !sort_desc_In, !in_flat_map.
  assert (Hp : forall a, produced_for config' a r <->
                         produced_for config a r /\
                         min_savings_threshold config' <= rec_monthly_savings r).
  { intro a. unfold produced_for. rewrite Hthr. split.
    - intros (cpu & family & size & Hc & Hp & Hs & [H|H]).
      + apply (recommend_downsize_threshold config config') in H; [|exact Hle].
        destruct H as [H Hm]. split; [|exact Hm]. exists cpu, family, size. auto.
      + apply (recommend_family_switch_threshold config config') in H; [|exact Hal|exact Hle].
        destruct H as [H Hm]. split; [|exact Hm]. exists cpu, family, size. auto.
    - intros [(cpu & family & size & Hc & Hp & Hs & [H|H]) Hm];
        exists cpu, family, size; repeat split; try assumption.
      + left. apply (recommend_downsize_threshold config config'); auto.
      + right. apply (recommend_family_switch_threshold config config'); auto. }
  split.
  - intros (a & Ha & Hr). apply recs_of_produced, Hp in Hr. destruct Hr as [Hr Hm].
    split; [|exact Hm]. exists a. split; [exact Ha|now apply recs_of_produced].
  - intros [(a & Ha & Hr) Hm]. exists a. split; [exact Ha|].
    apply recs_of_produced, Hp. split; [now apply recs_of_produced|exact Hm].
Qed.

Lemma raising_threshold_only_removes_witness :
  exists rs rs',
    generate_recommendations Examples.config_0 [Examples.idle_m5; Examples.idle_x9] = Ok rs /\
    generate_recommendations Examples.config_50 [Examples.idle_m5; Examples.idle_x9] = Ok rs' /\
    forall r, In r rs' -> In r rs.
Proof.
  assert (Hle : min_savings_threshold Examples.config_0 <=
                min_savings_threshold Examples.config_50) by (unfold Qle; simpl; lia).
  destruct (raising_threshold_only_removes Examples.config_0 Examples.config_50
              [Examples.idle_m5; Examples.idle_x9] eq_refl eq_refl Hle)
    as (rs & rs' & Hg & Hg' & H).
  exists rs, rs'. repeat split; try assumption. intros r Hr. now apply H.
Defined.

(** X7: the order of the input resources only matters for the order of
    the result: a reordered input gives a reordering of the same
    recommendations. *)
Theorem input_order_only_reorders (config : EC2Config) (l l' : list Analysis) :
  Permutation l l' ->
  exists rs rs',
    generate_recommendations config l = Ok rs /\
    generate_recommendations config l' = Ok rs' /\
    Permutation rs rs'.
Proof.
  intro Hperm.
  exists (sort_desc rec_monthly_savings (flat_map (recs_of config) l)),
         (sort_desc rec_monthly_savings (flat_map (recs_of config) l')).
  split; [apply generate_flat_map|]. split; [apply generate_flat_map|].
  rewrite !sort_desc_Permutation. now apply Permutation_flat_map.
Qed.

Lemma input_order_only_reorders_witness :
  exists rs rs',
    generate_recommendations Examples.config_0 [Examples.idle_m5; Examples.idle_x9] = Ok rs /\
    generate_recommendations Examples.config_0 [Examples.idle_x9; Examples.idle_m5] = Ok rs' /\
    Permutation rs rs'.
Proof.
  exact (input_order_only_reorders Examples.config_0
           [Examples.idle_m5; Examples.idle_x9] [Examples.idle_x9; Examples.idle_m5]
           (perm_swap _ _ _)).
Defined.

End EC2RecommenderExtra.

(** ** The reserved-instance recommender *)

Section ReservedInstanceFacts.
Import ReservedInstanceRecommender.

Lemma key_eqb_eq (k1 k2 : GroupKey) : key_eqb k1 k2 = true <-> k1 = k2.
Proof.
  destruct k1 as [r1 t1], k2 as [r2 t2]. unfold key_eqb. simpl.
  rewrite Bool.andb_true_iff, !String.eqb_eq. split.
  - intros [-> ->]. reflexivity.
  - intro H. injection H as -> ->. split; reflexivity.
Qed.

Lemma key_eqb_refl (k : GroupKey) : key_eqb k k = true.
Proof. now apply key_eqb_eq. Qed.

Lemma key_eqb_neq (k1 k2 : GroupKey) : key_eqb k1 k2 = false <-> k1 <> k2.
Proof. rewrite <- Bool.not_true_iff_false, key_eqb_eq. reflexivity. Qed.

Lemma key_eqb_sym (k1 k2 : GroupKey) : key_eqb k1 k2 = key_eqb k2 k1.
Proof.
  destruct (key_eqb k2 k1) eqn:E.
  - apply key_eqb_eq in E. subst. apply key_eqb_refl.
  - apply key_eqb_neq in E. apply key_eqb_neq. congruence.
Qed.

Lemma members_app (k : GroupKey) (l1 l2 : list Analysis) :
  members k (l1 ++ l2) = members k l1 ++ members k l2.
Proof. unfold members. apply List.filter_app. Qed.

Lemma members_nonempty (k : GroupKey) (l : list Analysis) :
  members k l <> [] <-> exists a, In a l /\ group_key a = k.
Proof.
  unfold members. split.
  - destruct (List.filter _ l) as [|a ms] eqn:E; [congruence|]. intros _.
    assert (Ha : In a (List.filter (fun a => key_eqb (group_key a) k) l))
      by (rewrite E; now left).
    apply List.filter_In in Ha. destruct Ha as [Ha Hk].
    exists a. split; [exact Ha|now apply key_eqb_eq].
  - intros (a & Ha & Hk) E.
    assert (Hin : In a (List.filter (fun a => key_eqb (group_key a) k) l))
      by (apply List.filter_In; split; [exact Ha|now apply key_eqb_eq]).
    rewrite E in Hin. exact Hin.
Qed.

(** *** Grouping *)

Lemma stored_groups_append (k ka : GroupKey) (a : Analysis)
    (g : list (GroupKey * list Analysis)) :
  stored k (groups_append ka a g) =
  stored k g ++ (if key_eqb ka k then [a] else []).
Proof.
  induction g as [|[k' ms] g IH]; simpl.
  - rewrite (key_eqb_sym k ka). now destruct (key_eqb ka k).
  - destruct (key_eqb ka k') eqn:Ea; simpl.
    + apply key_eqb_eq in Ea. subst k'. rewrite (key_eqb_sym k ka).
      destruct (key_eqb ka k); [reflexivity|now rewrite app_nil_r].
    + destruct (key_eqb k k') eqn:Ek'; [|exact IH].
      destruct (key_eqb ka k) eqn:Ek; [|now rewrite app_nil_r].
      apply key_eqb_eq in Ek, Ek'. subst. rewrite key_eqb_refl in Ea. discriminate Ea.
Qed.

Lemma keys_groups_append (ka : GroupKey) (a : Analysis)
    (g : list (GroupKey * list Analysis)) :
  map fst (groups_append ka a g) =
  if existsb (key_eqb ka) (map fst g) then map fst g else map fst g ++ [ka].
Proof.
  induction g as [|[k' ms] g IH]; simpl; [reflexivity|].
  destruct (key_eqb ka k'); simpl; [reflexivity|].
  rewrite IH. now destruct (existsb (key_eqb ka) (map fst g)).
Qed.

Lemma fold_groups_stored (k : GroupKey) (l : list Analysis)
    (g : list (GroupKey * list Analysis)) :
  stored k (fold_left (fun groups a => groups_append (group_key a) a groups) l g) =
  stored k g ++ members k l.
Proof.
  revert g. induction l as [|a l IH]; intro g; simpl.
  - now rewrite app_nil_r.
  - rewrite IH, stored_groups_append, <- app_assoc. f_equal.
    unfold members. simpl. now destruct (key_eqb (group_key a) k).
Qed.

Lemma fold_groups_keys (k : GroupKey) (l : list Analysis)
    (g : list (GroupKey * list Analysis)) :
  In k (map fst (fold_left (fun groups a => groups_append (group_key a) a groups) l g)) <->
  In k (map fst g) \/ exists a, In a l /\ group_key a = k.
Proof.
  revert g. induction l as [|a l IH]; intro g; simpl.
  - split; [now left|]. intros [H|(a & [] & _)]. exact H.
  - rewrite IH, keys_groups_append.
    destruct (existsb (key_eqb (group_key a)) (map fst g)) eqn:E.
    + apply existsb_exists in E. destruct E as (k' & Hk' & E). apply key_eqb_eq in E.
      split.
      * intros [H|(b & Hb & Hk)]; [now left|]. right. exists b. auto.
      * intros [H|(b & [<-|Hb] & Hk)]; [now left| |].
        -- left. congruence.
        -- right. exists b. auto.
    + rewrite in_app_iff. simpl. split.
      * intros [[H|[H|[]]]|(b & Hb & Hk)]; [now left| |].
        -- right. exists a. auto.
        -- right. exists b. auto.
      * intros [H|(b & [<-|Hb] & Hk)]; [now left; left| |].
        -- left. right. now left.
        -- right. exists b. auto.
Qed.

Lemma fold_groups_NoDup (l : list Analysis) (g : list (GroupKey * list Analysis)) :
  List.NoDup (map fst g) ->
  List.NoDup (map fst (fold_left (fun groups a => groups_append (group_key a) a groups) l g)).
Proof.
  revert g. induction l as [|a l IH]; intros g Hg; simpl; [exact Hg|].
  apply IH. rewrite keys_groups_append.
  destruct (existsb (key_eqb (group_key a)) (map fst g)) eqn:E; [exact Hg|].
  apply List.NoDup_app; [exact Hg|repeat constructor; intros []|].
  intros k Hk [<-|[]].
  assert (Ht : existsb (key_eqb (group_key a)) (map fst g) = true)
    by (apply existsb_exists; exists (group_key a); split; [exact Hk|apply key_eqb_refl]).
  congruence.
Qed.

Lemma stored_In (k : GroupKey) (ms : list Analysis) (g : list (GroupKey * list Analysis)) :
  List.NoDup (map fst g) -> In (k, ms) g -> stored k g = ms.
Proof.
  induction g as [|[k' ms'] g IH]; simpl; [intros _ []|].
  intros Hnd [H|H].
  - injection H as -> ->. now rewrite key_eqb_refl.
  - apply List.NoDup_cons_iff in Hnd. destruct Hnd as [Hk' Hnd].
    destruct (key_eqb k k') eqn:E; [|now apply IH].
    apply key_eqb_eq in E. subst k'. exfalso. apply Hk'.
    change k with (fst (k, ms)). now apply in_map.
Qed.

(** The grouping dictionary: keys are distinct, a key is present
    exactly when some input carries it, and its list holds exactly the
    inputs that carry it, in input order. *)
Lemma group_instances_spec (l : list Analysis) :
  List.NoDup (map fst (_group_instances l)) /\
  (forall k, In k (map fst (_group_instances l)) <-> members k l <> []) /\
  (forall k ms, In (k, ms) (_group_instances l) -> ms = members k l /\ ms <> []).
Proof.
  unfold _group_instances.
  assert (Hnd := fold_groups_NoDup l [] (List.NoDup_nil _)).
  assert (Hkeys : forall k,
    In k (map fst (fold_left (fun groups a => groups_append (group_key a) a groups) l [])) <->
    members k l <> []).
  { intro k. rewrite fold_groups_keys, members_nonempty. simpl. tauto. }
  split; [exact Hnd|]. split; [exact Hkeys|].
  intros k ms Hin.
  assert (Hs := stored_In k ms _ Hnd Hin). rewrite fold_groups_stored in Hs. simpl in Hs.
  subst ms. split; [reflexivity|]. apply Hkeys.
  change k with (fst (k, members k l)). now apply in_map.
Qed.

(** *** One recommendation per group *)

Lemma lookup_discount_rate_table (config : RIConfig) (rate : Q) :
  lookup_discount_rate config = Ok rate ->
  exists by_option,
    In (term_years config, by_option) discount_rates /\
    In (payment_option config, rate) by_option.
Proof.
  unfold lookup_discount_rate.
  destruct (term_get (term_years config) discount_rates) as [by_option|] eqn:Ht;
    [|discriminate].
  destruct (dict_get (payment_option config) by_option) as [rate'|] eqn:Hp; [|discriminate].
  intro H. injection H as ->. exists by_option. split.
  - clear Hp. revert Ht. generalize discount_rates.
    induction l as [|[k v] d IH]; simpl; [discriminate|].
    destruct (Z.eqb_spec (term_years config) k) as [->|_].
    + intro H. injection H as ->. now left.
    + intro H. right. now apply IH.
  - now apply dict_get_In.
Qed.

(** With the discount rate found, creating a recommendation cannot
    fail, and its fields are the ones computed from the group. *)
Lemma create_ri_recommendation_ok (config : RIConfig) (rate : Q)
    (region instance_type : string) (ms : list Analysis) :
  lookup_discount_rate config = Ok rate ->
  exists r,
    _create_ri_recommendation config region instance_type ms = Ok r /\
    ri_key r = (region, instance_type) /\
    ri_instance_count r = List.length ms /\
    ri_instances r =
      map (fun a => {| ir_instance_id := a_instance_id a; ir_name := a_name a |}) ms /\
    ri_term_years r = term_years config /\
    ri_payment_option r = payment_option config /\
    ri_discount_rate r = rate * 100 /\
    ri_current_monthly_cost r = sum (map a_current_cost ms) /\
    ri_ri_monthly_cost r = ri_current_monthly_cost r * (1 - rate) /\
    ri_monthly_savings r = ri_current_monthly_cost r - ri_ri_monthly_cost r /\
    ri_annual_savings r = ri_monthly_savings r * 12 /\
    ri_total_savings_over_term r = ri_annual_savings r * inject_Z (term_years config) /\
    ri_upfront_payment r =
      _calculate_upfront_payment config (ri_current_monthly_cost r) rate.
Proof.
  intro Hrate. unfold _create_ri_recommendation. cbv zeta. rewrite Hrate. cbn [bind].
  eexists. split; [reflexivity|]. cbn. repeat split.
Qed.


Lemma ri_loop_spec (config : RIConfig) (rate : Q)
    (g : list (GroupKey * list Analysis)) (acc : list RIRecommendation) :
  lookup_discount_rate config = Ok rate ->
  Forall (fun e => snd e <> []) g ->
  exists news,
    loop config g acc = Ok (acc ++ news) /\
    Forall2 (fun e r =>
               _create_ri_recommendation config (fst (fst e)) (snd (fst e)) (snd e) = Ok r)
            g news.
Proof.
  intros Hrate Hne. revert acc.
  induction Hne as [|[[region ty] ms] g Hms _ IH]; intro acc; simpl.
  - exists []. split; [now rewrite app_nil_r|constructor].
  - simpl in Hms. destruct ms as [|a ms]; [congruence|]. cbn [List.length Nat.ltb Nat.leb].
    destruct (create_ri_recommendation_ok config rate region ty (a :: ms) Hrate)
      as (r & Hr & _).
    rewrite Hr. cbn [bind]. destruct (IH (acc ++ [r])) as (news & Hl & Hf).
    exists (r :: news). split.
    + rewrite Hl, <- app_assoc. reflexivity.
    + constructor; [exact Hr|exact Hf].
Qed.






(** A missing (term_years, payment_option) combination is reported to
    the caller as soon as there is a group to price. *)
Lemma misconfigured_discount_raises (config : RIConfig) (a : Analysis) (l : list Analysis) :
  lookup_discount_rate config = Raise KeyError ->
  generate_recommendations config (a :: l) = Raise KeyError.
Proof.
  intro Hrate. unfold generate_recommendations. cbv zeta.
  destruct (group_instances_spec (a :: l)) as (_ & Hkeys & Hms).
  destruct (_group_instances (a :: l)) as [|[[region ty] ms] g] eqn:Eg.
  - exfalso. apply (Hkeys (group_key a)). unfold members. simpl.
    now rewrite key_eqb_refl.
  - simpl. destruct (Hms (region, ty) ms (or_introl eq_refl)) as [_ Hne].
    destruct ms as [|b ms]; [congruence|]. cbn [List.length Nat.ltb Nat.leb].
    unfold _create_ri_recommendation. cbv zeta. rewrite Hrate. reflexivity.
Qed.

End ReservedInstanceFacts.

(** ** Further properties of the reserved-instance recommender *)

Section ReservedInstanceExtra.
Import ReservedInstanceRecommender.

(** The result of a run whose discount rate is found: the sorted list
    of the recommendations created group by group. *)
Lemma ri_generate_spec (config : RIConfig) (rate : Q) (l : list Analysis) :
  lookup_discount_rate config = Ok rate ->
  exists news,
    generate_recommendations config l = Ok (sort_desc ri_annual_savings news) /\
    Forall2 (fun e r =>
               _create_ri_recommendation config (fst (fst e)) (snd (fst e)) (snd e) = Ok r)
            (_group_instances l) news.
Proof.
  intro Hrate.
  destruct (group_instances_spec l) as (_ & _ & Hms).
  assert (Hne : Forall (fun e => snd e <> []) (_group_instances l)).
  { apply List.Forall_forall. intros [k ms] Hin. simpl. now apply (Hms k ms). }
  destruct (ri_loop_spec config rate _ [] Hrate Hne) as (news & Hloop & Hf2).
  exists news. split; [|exact Hf2].
  unfold generate_recommendations. cbv zeta. rewrite Hloop. reflexivity.
Qed.

Lemma groups_append_members (k : GroupKey) (a : Analysis)
    (g : list (GroupKey * list Analysis)) :
  Permutation (concat (map snd (groups_append k a g))) (a :: concat (map snd g)).
Proof.
  induction g as [|[k' ms] g IH]; simpl; [reflexivity|].
  destruct (key_eqb k k'); simpl.
  - rewrite <- app_assoc. simpl. symmetry. apply Permutation_middle.
  - rewrite IH. symmetry. apply Permutation_middle.
Qed.

Lemma fold_groups_members (l : list Analysis) (g : list (GroupKey * list Analysis)) :
  Permutation
    (concat (map snd (fold_left (fun groups a => groups_append (group_key a) a groups) l g)))
    (concat (map snd g) ++ l).
Proof.
  revert g. induction l as [|a l IH]; intro g; simpl.
  - now rewrite app_nil_r.
  - rewrite IH, groups_append_members. simpl. apply Permutation_middle.
Qed.

(** The groups are a partition of the input. *)
Lemma group_instances_partition (l : list Analysis) :
  Permutation (concat (map snd (_group_instances l))) l.
Proof. unfold _group_instances. now rewrite fold_groups_members. Qed.

Lemma created_fields (config : RIConfig) (rate : Q)
    (g : list (GroupKey * list Analysis)) (news : list RIRecommendation) :
  lookup_discount_rate config = Ok rate ->
  Forall2 (fun e r =>
             _create_ri_recommendation config (fst (fst e)) (snd (fst e)) (snd e) = Ok r)
          g news ->
  map ri_instances news = map (fun e => map instance_ref (snd e)) g /\
  map ri_instance_count news = map (fun e => List.length (snd e)) g /\
  map ri_current_monthly_cost news = map (fun e => sum (map a_current_cost (snd e))) g /\
  Forall (fun r =>
            ri_ri_monthly_cost r = ri_current_monthly_cost r * (1 - rate) /\
            ri_monthly_savings r = ri_current_monthly_cost r - ri_ri_monthly_cost r /\
            ri_annual_savings r = ri_monthly_savings r * 12) news.
Proof.
  intros Hrate Hf2. induction Hf2 as [|[[region ty] ms] r g news Hr _ IH].
  - repeat split; constructor.
  - destruct IH as (Hi & Hc & Hm & Hall). simpl in Hr.
    destruct (create_ri_recommendation_ok config rate region ty ms Hrate)
      as (r' & Hr' & _ & Hcnt & Hinst & _ & _ & _ & Hcur & Hri & Hmon & Hann & _).
    assert (r' = r) by congruence. subst r'. simpl.
    rewrite Hi, Hc, Hm, Hcnt, Hinst, Hcur. repeat split; try reflexivity.
    constructor; [|exact Hall]. auto.
Qed.

(** X8: when the discount rate is found, every input resource is listed
    in exactly one returned recommendation: the instance lists of the
    result, put together, are a reordering of the input resources, and
    the instance counts add up to the number of inputs. *)
Theorem every_instance_reserved_once (config : RIConfig) (rate : Q) (l : list Analysis) :
  lookup_discount_rate config = Ok rate ->
  exists rs,
    generate_recommendations config l = Ok rs /\
    Permutation (concat (map ri_instances rs)) (map instance_ref l) /\
    list_sum (map ri_instance_count rs) = List.length l.
Proof.
  intro Hrate. destruct (ri_generate_spec config rate l Hrate) as (news & Hg & Hf2).
  exists (sort_desc ri_annual_savings news). split; [exact Hg|].
  destruct (created_fields config rate _ _ Hrate Hf2) as (Hi & Hc & _).
  assert (Hperm := sort_desc_Permutation ri_annual_savings news).
  assert (Hpart := group_instances_partition l).
  split.
  - rewrite <- !flat_map_concat_map, (Permutation_flat_map _ Hperm), flat_map_concat_map, Hi.
    rewrite <- (Permutation_map instance_ref Hpart).
    rewrite concat_map, map_map. reflexivity.
  - rewrite (@Permutation_list_sum _ _ (Permutation_map ri_instance_count Hperm)), Hc.
    rewrite <- (Permutation_length Hpart), length_concat, map_map. reflexivity.
Qed.

Lemma every_instance_reserved_once_witness :
  exists rs,
    generate_recommendations Examples.ri_config_1yr_all Examples.mixed_fleet = Ok rs /\
    Permutation (concat (map ri_instances rs)) (map instance_ref Examples.mixed_fleet) /\
    list_sum (map ri_instance_count rs) = 4%nat.
Proof.
  exact (every_instance_reserved_once Examples.ri_config_1yr_all 0.40
           Examples.mixed_fleet eq_refl).
Defined.

Lemma sum_nonneg (l : list Q) : Forall (fun x => 0 <= x) l -> 0 <= sum l.
Proof.
  induction 1 as [|x l Hx _ IH].
  - rewrite sum_nil. apply Qle_refl.
  - rewrite sum_cons. rewrite <- (Qplus_0_l 0). now apply Qplus_le_compat.
Qed.

(** X10: a (term_years, payment_option) pair outside the discount table
    (a term other than 1 and 3, or a payment option other than the
    three known ones) makes the run raise [KeyError] as soon as there is
    one input resource; on an empty input it still returns the empty
    list. *)
Theorem missing_discount_is_fatal (config : RIConfig) :
  (term_years config <> 1%Z /\ term_years config <> 3%Z) \/
  ~ In (payment_option config) ["all_upfront"; "partial_upfront"; "no_upfront"]%string ->
  generate_recommendations config [] = Ok [] /\
  forall a l, generate_recommendations config (a :: l) = Raise KeyError.
Proof.
  intro Hbad. split; [reflexivity|].
  assert (Hrate : lookup_discount_rate config = Raise KeyError).
  { unfold lookup_discount_rate, discount_rates. cbn [term_get].
    destruct (Z.eqb_spec (term_years config) 1) as [E1|N1].
    - destruct Hbad as [[H _]|Hbad]; [contradiction|].
      destruct (dict_get (payment_option config) _) as [rate|] eqn:Hd; [|reflexivity].
      exfalso. apply Hbad. apply dict_get_In in Hd. simpl in Hd.
      destruct Hd as [H|[H|[H|[]]]]; injection H as <- _; simpl; auto.
    - destruct (Z.eqb_spec (term_years config) 3) as [E3|N3]; [|reflexivity].
      destruct Hbad as [[_ H]|Hbad]; [contradiction|].
      destruct (dict_get (payment_option config) _) as [rate|] eqn:Hd; [|reflexivity].
      exfalso. apply Hbad. apply dict_get_In in Hd. simpl in Hd.
      destruct Hd as [H|[H|[H|[]]]]; injection H as <- _; simpl; auto. }
  intros a l. now apply misconfigured_discount_raises.
Qed.

Lemma missing_discount_is_fatal_witness :
  generate_recommendations Examples.ri_config_2yr [] = Ok [] /\
  generate_recommendations Examples.ri_config_2yr Examples.mixed_fleet = Raise KeyError.
Proof.
  assert (Hbad : (term_years Examples.ri_config_2yr <> 1%Z /\
                  term_years Examples.ri_config_2yr <> 3%Z) \/
                 ~ In (payment_option Examples.ri_config_2yr)
                     ["all_upfront"; "partial_upfront"; "no_upfront"]%string).
  { left. simpl. split; lia. }
  destruct (missing_discount_is_fatal Examples.ri_config_2yr Hbad) as [He Hne].
  split; [exact He|]. apply Hne.
Defined.

(** X11: whatever the input, a result that is returned is ordered by
    decreasing annual savings. *)
Theorem reserved_sorted_by_annual_savings (config : RIConfig) (l : list Analysis)
    (rs : list RIRecommendation) :
  generate_recommendations config l = Ok rs ->
  descending ri_annual_savings rs /\ sort_desc ri_annual_savings rs = rs.
Proof.
  unfold generate_recommendations. cbv zeta.
  destruct (loop config (_group_instances l) []) as [recs|]; [|discriminate]. cbn [bind].
  intro H. injection H as <-.
  split; [apply sort_desc_descending|apply sort_desc_fixed, sort_desc_descending].
Qed.

Lemma reserved_sorted_by_annual_savings_witness :
  exists rs,
    generate_recommendations Examples.ri_config_1yr_all Examples.mixed_fleet = Ok rs /\
    descending ri_annual_savings rs.
Proof.
  destruct (generate_recommendations Examples.ri_config_1yr_all Examples.mixed_fleet)
    as [rs|] eqn:E; [|discriminate E].
  exists rs. split; [reflexivity|].
  exact (proj1 (reserved_sorted_by_annual_savings _ _ _ E)).
Defined.

Lemma groups_append_strip (k : GroupKey) (a : Analysis)
    (g : list (GroupKey * list Analysis)) :
  groups_append k (strip a) (map (fun e => (fst e, map strip (snd e))) g) =
  map (fun e => (fst e, map strip (snd e))) (groups_append k a g).
Proof.
  induction g as [|[k' ms] g IH]; simpl; [reflexivity|].
  destruct (key_eqb k k'); simpl.
  - now rewrite map_app.
  - now rewrite IH.
Qed.

Lemma fold_groups_strip (l : list Analysis) (g : list (GroupKey * list Analysis)) :
  fold_left (fun groups a => groups_append (group_key a) a groups) (map strip l)
    (map (fun e => (fst e, map strip (snd e))) g) =
  map (fun e => (fst e, map strip (snd e)))
    (fold_left (fun groups a => groups_append (group_key a) a groups) l g).
Proof.
  revert g. induction l as [|a l IH]; intro g; simpl; [reflexivity|].
  rewrite <- IH. f_equal. apply (groups_append_strip (group_key a)).
Qed.

Lemma create_strip (config : RIConfig) (region ty : string) (ms : list Analysis) :
  _create_ri_recommendation config region ty (map strip ms) =
  _create_ri_recommendation config region ty ms.
Proof.
  unfold _create_ri_recommendation. cbv zeta.
  rewrite length_map, !map_map. reflexivity.
Qed.

Lemma loop_strip (config : RIConfig) (g : list (GroupKey * list Analysis))
    (acc : list RIRecommendation) :
  loop config (map (fun e => (fst e, map strip (snd e))) g) acc = loop config g acc.
Proof.
  revert acc. induction g as [|[[region ty] ms] g IH]; intro acc; simpl; [reflexivity|].
  rewrite length_map, create_strip.
  destruct (Nat.ltb 0 (List.length ms)); [|apply IH].
  destruct (_create_ri_recommendation config region ty ms); [|reflexivity].
  cbn [bind]. apply IH.
Qed.

Lemma generate_strip (config : RIConfig) (l : list Analysis) :
  generate_recommendations config (map strip l) = generate_recommendations config l.
Proof.
  unfold generate_recommendations, _group_instances. cbv zeta.
  change (@nil (GroupKey * list Analysis))
    with (map (fun e : GroupKey * list Analysis => (fst e, map strip (snd e))) []) at 1.
  rewrite fold_groups_strip, loop_strip. reflexivity.
Qed.

Lemma strip_billing (l l' : list Analysis) :
  map billing l = map billing l' -> map strip l = map strip l'.
Proof.
  revert l'. induction l as [|a l IH]; intros [|a' l'] H; try discriminate; [reflexivity|].
  simpl in H. unfold billing at 1 3 in H.
  injection H as Hid Hname Hregion Htype Hcost Hl. simpl. rewrite (IH _ Hl). f_equal.
  unfold strip. now rewrite Hid, Hname, Hregion, Htype, Hcost.
Qed.

(** X12: the reserved-instance recommender reads nothing but the
    identifier, name, region, type and current cost of a resource and
    the term and payment option of the configuration: inputs that agree
    on these give the same outcome, whatever their metrics and whatever
    [min_utilization] is. *)
Theorem reserved_ignores_utilization (config config' : RIConfig) (l l' : list Analysis) :
  term_years config = term_years config' ->
  payment_option config = payment_option config' ->
  map billing l = map billing l' ->
  generate_recommendations config l = generate_recommendations config' l'.
Proof.
  intros Ht Hp Hb.
  rewrite <- (generate_strip config l), <- (generate_strip config' l'), (strip_billing _ _ Hb).
  destruct config as [u t p], config' as [u' t' p']. simpl in Ht, Hp. subst t' p'.
  reflexivity.
Qed.

Lemma reserved_ignores_utilization_witness :
  generate_recommendations Examples.ri_config_1yr_all Examples.three_m5_large =
  generate_recommendations Examples.ri_config_1yr_all_low
    (map strip Examples.three_m5_large).
Proof.
  exact (reserved_ignores_utilization Examples.ri_config_1yr_all
           Examples.ri_config_1yr_all_low Examples.three_m5_large
           (map strip Examples.three_m5_large) eq_refl eq_refl eq_refl).
Defined.

Lemma discount_rate_range (config : RIConfig) (rate : Q) :
  lookup_discount_rate config = Ok rate -> 0.30 <= rate /\ rate <= 0.60.
Proof.
  intro H. destruct (lookup_discount_rate_table config rate H) as (by_option & Ht & Hp).
  simpl in Ht. destruct Ht as [Ht|[Ht|[]]]; injection Ht as _ <-; simpl in Hp;
    destruct Hp as [Hp|[Hp|[Hp|[]]]]; injection Hp as _ <-;
    split; unfold Qle; simpl; lia.
Qed.

(** X13: when the discount rate is found it lies between 0.30 and 0.60,
    and if no input resource has a negative cost then no returned
    recommendation is at a loss: its current monthly cost and its
    monthly savings are not negative, and the reserved monthly cost
    does not exceed the current one. *)
Theorem reserved_never_at_a_loss (config : RIConfig) (rate : Q) (l : list Analysis) :
  lookup_discount_rate config = Ok rate ->
  Forall (fun a => 0 <= a_current_cost a) l ->
  0.30 <= rate /\ rate <= 0.60 /\
  exists rs,
    generate_recommendations config l = Ok rs /\
    Forall (fun r =>
              0 <= ri_current_monthly_cost r /\
              0 <= ri_monthly_savings r /\
              ri_ri_monthly_cost r <= ri_current_monthly_cost r) rs.
Proof.
  intros Hrate Hcost. destruct (discount_rate_range config rate Hrate) as [Hlo Hhi].
  split; [exact Hlo|]. split; [exact Hhi|].
  destruct (ri_generate_spec config rate l Hrate) as (news & Hg & Hf2).
  exists (sort_desc ri_annual_savings news). split; [exact Hg|].
  apply sort_desc_Forall.
  destruct (created_fields config rate _ _ Hrate Hf2) as (_ & _ & Hm & Hall).
  assert (Hnonneg : Forall (fun r => 0 <= ri_current_monthly_cost r) news).
  { apply List.Forall_forall. intros r Hr.
    apply (in_map ri_current_monthly_cost) in Hr. rewrite Hm in Hr.
    apply in_map_iff in Hr. destruct Hr as ([k ms] & <- & Hin). simpl.
    destruct (group_instances_spec l) as (_ & _ & Hms).
    destruct (Hms k ms Hin) as [-> _].
    apply sum_nonneg. apply List.Forall_forall. intros c Hc.
    apply in_map_iff in Hc. destruct Hc as (a & <- & Ha).
    unfold members in Ha. apply List.filter_In in Ha.
    apply (proj1 (List.Forall_forall _ _) Hcost). tauto. }
  apply List.Forall_forall. intros r Hr.
  assert (Hc : 0 <= ri_current_monthly_cost r)
    by exact (proj1 (List.Forall_forall _ _) Hnonneg r Hr).
  destruct (proj1 (List.Forall_forall _ _) Hall r Hr) as (Hri & Hms & _).
  assert (Hpos : 0 <= ri_current_monthly_cost r * rate).
  { apply Qmult_le_0_compat; [exact Hc|].
    apply Qle_trans with 0.30; [unfold Qle; simpl; lia|exact Hlo]. }
  split; [exact Hc|].
  rewrite Hms, Hri. set (c := ri_current_monthly_cost r) in *.
  assert (E : c - c * (1 - rate) == c * rate) by ring.
  split.
  - rewrite E. exact Hpos.
  - apply Qle_minus_iff. rewrite <- E in Hpos.
    unfold Qminus in Hpos. exact Hpos.
Qed.

Lemma reserved_never_at_a_loss_witness :
  exists rs,
    generate_recommendations Examples.ri_config_1yr_all Examples.mixed_fleet = Ok rs /\
    List.length rs = 3%nat /\
    Forall (fun r => 0 <= ri_monthly_savings r /\
                     ri_ri_monthly_cost r <= ri_current_monthly_cost r) rs.
Proof.
  assert (Hcost : Forall (fun a => 0 <= a_current_cost a) Examples.mixed_fleet).
  { repeat constructor; unfold Qle; simpl; lia. }
  destruct (reserved_never_at_a_loss Examples.ri_config_1yr_all 0.40 Examples.mixed_fleet
              eq_refl Hcost) as (_ & _ & rs & Hg & Hall).
  exists rs. split; [exact Hg|]. split.
  - vm_compute in Hg. injection Hg as <-. reflexivity.
  - eapply List.Forall_impl; [|exact Hall]. intros r (_ & H1 & H2). split; assumption.
Defined.

End ReservedInstanceExtra.

(** ** The savings aggregator *)

Section CostOptimizerFacts.
Import CostOptimizer.

(** C2, as stated, fails: the right-sizing annual total is 12 times the
    monthly total, not the sum of the stored annual fields.  For the
    single recommendation [stale_annual] (monthly 10, annual 100) the
    aggregator reports an annual total of 120. *)
Lemma annual_total_rederived :
  ~ (forall ec2 ri,
       st_annual_savings (ss_total (calculate_total_savings ec2 ri)) ==
       sum (map rec_annual_savings ec2) + sum (map ri_annual_savings ri)).
Proof.
  intro H. specialize (H [Examples.stale_annual] []).
  vm_compute in H. discriminate H.
Qed.

(** C2: the aggregator at the input that separates the two readings.
    For every input the monthly total is the sum of the stored
    monthly_savings of both lists, and the annual total is the sum of
    the right-sizing monthly_savings times 12 plus the sum of the stored
    annual_savings of the reserved list: the annual_savings stored in a
    right-sizing recommendation is never read.  On the single
    right-sizing recommendation [stale_annual] (monthly_savings 10,
    annual_savings 100) the annual total is 120 where the stored fields
    sum to 100, the same 120 as for [fresh_annual], which stores 120;
    on the single reserved recommendation [stale_reserved]
    (monthly_savings 10, annual_savings 100) the annual total is the
    stored 100. *)
Theorem stored_annual_savings_not_read :
  (forall ec2 ri,
     let total := ss_total (calculate_total_savings ec2 ri) in
     st_monthly_savings total =
       sum (map rec_monthly_savings ec2) + sum (map ri_monthly_savings ri) /\
     st_annual_savings total =
       sum (map rec_monthly_savings ec2) * 12 + sum (map ri_annual_savings ri)) /\
  (let total := ss_total (calculate_total_savings [Examples.stale_annual] []) in
   st_monthly_savings total == 10 /\
   st_annual_savings total == 120 /\
   sum (map rec_annual_savings [Examples.stale_annual]) +
   sum (map ri_annual_savings []) == 100) /\
  (let total := ss_total (calculate_total_savings [Examples.fresh_annual] []) in
   st_annual_savings total == 120 /\
   sum (map rec_annual_savings [Examples.fresh_annual]) +
   sum (map ri_annual_savings []) == 120) /\
  (let total := ss_total (calculate_total_savings [] [Examples.stale_reserved]) in
   st_monthly_savings total == 10 /\
   st_annual_savings total == 100 /\
   sum (map rec_annual_savings []) +
   sum (map ri_annual_savings [Examples.stale_reserved]) == 100).
Proof.
  split; [intros ec2 ri; split; reflexivity|].
  repeat split.
Qed.

(** *** Region counts *)

Lemma lookup_count_up (k k' : string) (n : nat) (d : gmap string nat) :
  default 0%nat (count_up k n d !! k') =
  (default 0%nat (d !! k') + (if String.eqb k k' then n else 0))%nat.
Proof.
  unfold count_up.
  destruct (String.eqb_spec k k') as [<-|Hne].
  - destruct (d !! k) as [c|] eqn:E.
    + rewrite E, lookup_insert_eq. reflexivity.
    + rewrite lookup_insert_eq, lookup_insert_eq. reflexivity.
  - destruct (d !! k) as [c|] eqn:E.
    + rewrite E, lookup_insert_ne by exact Hne. simpl. lia.
    + rewrite lookup_insert_eq, !lookup_insert_ne by exact Hne. simpl. lia.
Qed.

Lemma fold_count_rightsizing (region : string) (ec2 : list Recommendation)
    (d : gmap string nat) :
  default 0%nat (fold_left (fun d rec => count_up (rec_region rec) 1 d) ec2 d !! region) =
  (default 0%nat (d !! region) + rightsizing_in region ec2)%nat.
Proof.
  revert d. induction ec2 as [|r ec2 IH]; intro d; simpl.
  - unfold rightsizing_in. simpl. lia.
  - rewrite IH, lookup_count_up. unfold rightsizing_in. simpl.
    destruct (String.eqb (rec_region r) region); simpl; lia.
Qed.

Lemma fold_count_reserved (region : string) (ri : list RIRecommendation)
    (d : gmap string nat) :
  default 0%nat
    (fold_left (fun d rec => count_up (ri_region rec) (List.length (ri_instances rec)) d)
       ri d !! region) =
  (default 0%nat (d !! region) + reserved_members_in region ri)%nat.
Proof.
  revert d. induction ri as [|r ri IH]; intro d; simpl.
  - unfold reserved_members_in. simpl. lia.
  - rewrite IH, lookup_count_up. unfold reserved_members_in. simpl.
    destruct (String.eqb (ri_region r) region); simpl; lia.
Qed.

(** C7: in the statistics, the count of a region is the number of
    right-sizing recommendations located there plus, for the
    reserved-instance recommendations located there, the number of
    their member resources: a right-sizing recommendation adds 1 to its
    region and a reserved-instance recommendation adds the length of
    its instance list. *)
Theorem region_counts (ec2 : list Recommendation) (ri : list RIRecommendation)
    (region : string) :
  default 0%nat (by_region (get_summary_stats ec2 ri) !! region) =
    (rightsizing_in region ec2 + reserved_members_in region ri)%nat /\
  (forall r,
     default 0%nat (by_region (get_summary_stats (ec2 ++ [r]) ri) !! rec_region r) =
     (default 0%nat (by_region (get_summary_stats ec2 ri) !! rec_region r) + 1)%nat) /\
  (forall r,
     default 0%nat (by_region (get_summary_stats ec2 (ri ++ [r])) !! ri_region r) =
     (default 0%nat (by_region (get_summary_stats ec2 ri) !! ri_region r) +
      List.length (ri_instances r))%nat).
Proof.
  assert (Hcount : forall ec2 ri region,
            default 0%nat (by_region (get_summary_stats ec2 ri) !! region) =
            (rightsizing_in region ec2 + reserved_members_in region ri)%nat).
  { intros e i g. unfold get_summary_stats. cbn [by_region].
    rewrite fold_count_reserved, fold_count_rightsizing, lookup_empty. reflexivity. }
  split; [apply Hcount|]. split; intro r; rewrite !Hcount.
  - unfold rightsizing_in. rewrite List.filter_app, List.length_app. simpl.
    rewrite String.eqb_refl. simpl. lia.
  - unfold reserved_members_in. rewrite List.filter_app, map_app, list_sum_app. simpl.
    rewrite String.eqb_refl. simpl. lia.
Qed.

(** The specification's example: one reserved-instance recommendation
    that covers five resources adds 5 to its region, not 1. *)
Example five_members_count_five :
  by_region (get_summary_stats [] [Examples.reserved_five]) !! "us-east-1"%string = Some 5%nat /\
  by_region (get_summary_stats [Examples.stale_annual] [Examples.reserved_five])
    !! "us-east-1"%string = Some 6%nat.
Proof. split; vm_compute; reflexivity. Qed.

End CostOptimizerFacts.

(** *** The aggregator on binary64 numbers

    On what the right-sizing recommender itself returns, the re-derived
    annual figure and the stored annual fields differ only by rounding,
    which the rational amounts cannot show.  The replay below follows
    the source operator for operator on binary64 numbers, for one idle
    [t3.micro] (0.0104 per hour, 730 hours) with [t3a] allowed: the
    downsize to [t3.nano] saves [cost - 0.0052 * 730], the family
    switch [cost - cost * 0.90], each stores its savings times 12, and
    the aggregator reports the sum of the monthly savings times 12. *)
Section Binary64Replay.
Import PrimFloat Binary64.
Local Open Scope float_scope.

#[warnings="-inexact-float"]
Example float_annual_total_differs :
  let cost := 0.0104 * 730 in
  let downsize := cost - 0.0052 * 730 in
  let switch := cost - cost * 0.90 in
  PrimFloat.eqb (fsum [downsize; switch] * 12 + fsum [])
                (fsum [downsize * 12; switch * 12] + fsum []) = false /\
  PrimFloat.eqb (fsum [downsize; switch] * 12 + fsum []) 54.66239999999999 = true /\
  PrimFloat.eqb (fsum [downsize * 12; switch * 12] + fsum []) 54.6624 = true.
Proof. repeat split. Qed.

(** Summation on binary64 numbers depends on the order of the list. *)
#[warnings="-inexact-float"]
Example float_sum_depends_on_order :
  PrimFloat.eqb (fsum [0.1; 0.2; 0.3]) (fsum [0.3; 0.2; 0.1]) = false.
Proof. reflexivity. Qed.

End Binary64Replay.

(** ** Further properties of the aggregator and of the whole run *)

Section CostOptimizerExtra.
Import CostOptimizer.

Lemma fold_count_strategy (s : string) (ec2 : list Recommendation) (d : gmap string nat) :
  default 0%nat (fold_left (fun d rec => count_up (rec_strategy rec) 1 d) ec2 d !! s) =
  (default 0%nat (d !! s) + tagged s ec2)%nat.
Proof.
  revert d. induction ec2 as [|r ec2 IH]; intro d; simpl.
  - unfold tagged. simpl. lia.
  - rewrite IH, lookup_count_up. unfold tagged. simpl.
    destruct (String.eqb (rec_strategy r) s); simpl; lia.
Qed.

(** X14: in the statistics, a strategy tag other than
    [reserved_instances] counts the right-sizing recommendations that
    carry it; the [reserved_instances] entry is the number of
    reserved-instance recommendations whenever there is one, and it
    then replaces whatever the right-sizing recommendations had counted
    under that tag. *)
Theorem strategy_counts (ec2 : list Recommendation) (ri : list RIRecommendation)
    (s : string) :
  default 0%nat (by_strategy (get_summary_stats ec2 ri) !! s) =
  if String.eqb s "reserved_instances" then
    match ri with
    | [] => tagged s ec2
    | _ :: _ => List.length ri
    end
  else tagged s ec2.
Proof.
  unfold get_summary_stats. cbn [by_strategy].
  destruct (String.eqb_spec s "reserved_instances") as [->|Hne].
  - destruct ri as [|r ri].
    + rewrite fold_count_strategy, lookup_empty. reflexivity.
    + rewrite lookup_insert_eq. reflexivity.
  - destruct ri as [|r ri].
    + rewrite fold_count_strategy, lookup_empty. reflexivity.
    + rewrite lookup_insert_ne by congruence.
      rewrite fold_count_strategy, lookup_empty. reflexivity.
Qed.

Lemma count_up_is_Some (k k' : string) (n : nat) (d : gmap string nat) :
  is_Some (count_up k n d !! k') <-> k = k' \/ is_Some (d !! k').
Proof.
  unfold count_up.
  destruct (String.eqb_spec k k') as [<-|Hne].
  - split; [auto|]. intros _.
    destruct (d !! k) as [c|] eqn:E.
    + rewrite E, lookup_insert_eq. eauto.
    + rewrite lookup_insert_eq, lookup_insert_eq. eauto.
  - destruct (d !! k) as [c|] eqn:E.
    + rewrite E, lookup_insert_ne by exact Hne. tauto.
    + rewrite lookup_insert_eq, !lookup_insert_ne by exact Hne. tauto.
Qed.

Lemma fold_count_is_Some {A : Type} (key : A -> string) (weight : A -> nat) (l : list A)
    (d : gmap string nat) (k : string) :
  is_Some (fold_left (fun d x => count_up (key x) (weight x) d) l d !! k) <->
  is_Some (d !! k) \/ exists x, In x l /\ key x = k.
Proof.
  revert d. induction l as [|x l IH]; intro d; simpl.
  - split; [auto|]. intros [H|(x & [] & _)]. exact H.
  - rewrite IH, count_up_is_Some. split.
    + intros [[H|H]|(y & Hy & Hk)]; [right; exists x; auto|now left|right; exists y; auto].
    + intros [H|(y & [<-|Hy] & Hk)]; [left; now right|left; now left|right; exists y; auto].
Qed.

(** X15: a region is a key of the per-region statistics exactly when
    some right-sizing or reserved-instance recommendation is located in
    it; a region whose only recommendation is a reserved one with an
    empty instance list is present with the count 0. *)
Theorem region_keys (ec2 : list Recommendation) (ri : list RIRecommendation)
    (region : string) :
  (is_Some (by_region (get_summary_stats ec2 ri) !! region) <->
   (exists r, In r ec2 /\ rec_region r = region) \/
   (exists r, In r ri /\ ri_region r = region)) /\
  (rightsizing_in region ec2 = 0%nat ->
   (exists r, In r ri /\ ri_region r = region) ->
   reserved_members_in region ri = 0%nat ->
   by_region (get_summary_stats ec2 ri) !! region = Some 0%nat).
Proof.
  assert (Hkeys : is_Some (by_region (get_summary_stats ec2 ri) !! region) <->
                  (exists r, In r ec2 /\ rec_region r = region) \/
                  (exists r, In r ri /\ ri_region r = region)).
  { unfold get_summary_stats. cbn [by_region].
    rewrite (fold_count_is_Some ri_region (fun r => List.length (ri_instances r))).
    rewrite (fold_count_is_Some rec_region (fun _ => 1%nat)).
    rewrite lookup_empty. split.
    - intros [[H|H]|H]; [now destruct H|now left|now right].
    - intros [H|H]; [left; now right|now right]. }
  split; [exact Hkeys|].
  intros He Hri Hm.
  assert (Hs : is_Some (by_region (get_summary_stats ec2 ri) !! region))
    by (apply Hkeys; now right).
  destruct Hs as [c Hc]. rewrite Hc. f_equal.
  assert (Hv : default 0%nat (by_region (get_summary_stats ec2 ri) !! region) =
               (rightsizing_in region ec2 + reserved_members_in region ri)%nat).
  { unfold get_summary_stats. cbn [by_region].
    rewrite fold_count_reserved, fold_count_rightsizing, lookup_empty. reflexivity. }
  rewrite Hc in Hv. simpl in Hv. lia.
Qed.

Lemma region_keys_witness :
  by_region (get_summary_stats [] [Examples.reserved_none]) !! "ap-south-1"%string
  = Some 0%nat.
Proof.
  apply (region_keys [] [Examples.reserved_none] "ap-south-1").
  - reflexivity.
  - exists Examples.reserved_none. split; [now left|reflexivity].
  - reflexivity.
Defined.

End CostOptimizerExtra.

(** ** The two recommenders and the aggregator together *)

Section Pipeline.

Lemma filter_length_Permutation {A : Type} (f : A -> bool) (l l' : list A) :
  Permutation l l' -> List.length (List.filter f l) = List.length (List.filter f l').
Proof.
  induction 1 as [|x l1 l2 _ IH|x y l1|l1 l2 l3 _ IH1 _ IH2]; simpl.
  - reflexivity.
  - destruct (f x); simpl; now rewrite IH.
  - destruct (f x), (f y); reflexivity.
  - now rewrite IH1.
Qed.

Lemma reserved_members_in_Permutation (region : string) (rs rs' : list RIRecommendation) :
  Permutation rs rs' -> reserved_members_in region rs = reserved_members_in region rs'.
Proof.
  unfold reserved_members_in.
  induction 1 as [|x l1 l2 _ IH|x y l1|l1 l2 l3 _ IH1 _ IH2]; simpl.
  - reflexivity.
  - destruct (String.eqb (ri_region x) region); simpl; now rewrite IH.
  - destruct (String.eqb (ri_region x) region), (String.eqb (ri_region y) region); simpl; lia.
  - now rewrite IH1.
Qed.

Lemma lookup_discount_rate_raises (config : RIConfig) (e : exn) :
  ReservedInstanceRecommender.lookup_discount_rate config = Raise e -> e = KeyError.
Proof.
  unfold ReservedInstanceRecommender.lookup_discount_rate.
  destruct (ReservedInstanceRecommender.term_get _ _) as [by_option|]; [|congruence].
  destruct (dict_get _ by_option); congruence.
Qed.

(** The two ways a reserved-instance run can end. *)
Lemma ri_generate_cases (config : RIConfig) (l : list Analysis) :
  (exists rate news,
     ReservedInstanceRecommender.lookup_discount_rate config = Ok rate /\
     ReservedInstanceRecommender.generate_recommendations config l =
       Ok (sort_desc ri_annual_savings news) /\
     Forall2 (fun e r =>
                ReservedInstanceRecommender._create_ri_recommendation config
                  (fst (fst e)) (snd (fst e)) (snd e) = Ok r)
             (ReservedInstanceRecommender._group_instances l) news) \/
  (ReservedInstanceRecommender.lookup_discount_rate config = Raise KeyError /\
   match l with
   | [] => ReservedInstanceRecommender.generate_recommendations config l = Ok []
   | _ :: _ => ReservedInstanceRecommender.generate_recommendations config l = Raise KeyError
   end).
Proof.
  destruct (ReservedInstanceRecommender.lookup_discount_rate config) as [rate|e] eqn:Hrate.
  - left. destruct (ri_generate_spec config rate l Hrate) as (news & Hg & Hf2).
    exists rate, news. auto.
  - right. pose proof (lookup_discount_rate_raises config e Hrate). subst e.
    split; [reflexivity|]. destruct l as [|a l]; [reflexivity|].
    now apply misconfigured_discount_raises.
Qed.

Lemma group_members_region (l : list Analysis) :
  Forall (fun e => Forall (fun a => a_region a = fst (fst e)) (snd e))
         (ReservedInstanceRecommender._group_instances l).
Proof.
  destruct (group_instances_spec l) as (_ & _ & Hms).
  apply List.Forall_forall. intros [k ms] Hin. simpl.
  destruct (Hms k ms Hin) as [-> _].
  apply List.Forall_forall. intros a Ha. unfold members in Ha.
  apply List.filter_In in Ha. destruct Ha as [_ Ha].
  apply key_eqb_eq in Ha. now rewrite <- Ha.
Qed.

Lemma resources_in_group (region : string) (k : string) (ms : list Analysis) :
  Forall (fun a => a_region a = k) ms ->
  resources_in region ms = if String.eqb k region then List.length ms else 0%nat.
Proof.
  unfold resources_in. induction 1 as [|a ms Ha _ IH]; simpl.
  - now destruct (String.eqb k region).
  - rewrite Ha. destruct (String.eqb k region); simpl; [now rewrite <- IH|exact IH].
Qed.

Lemma resources_in_app (region : string) (l1 l2 : list Analysis) :
  resources_in region (l1 ++ l2) = (resources_in region l1 + resources_in region l2)%nat.
Proof. unfold resources_in. now rewrite List.filter_app, List.length_app. Qed.

Lemma created_region_members (config : RIConfig) (rate : Q) (region : string)
    (g : list (GroupKey * list Analysis)) (news : list RIRecommendation) :
  ReservedInstanceRecommender.lookup_discount_rate config = Ok rate ->
  Forall2 (fun e r =>
             ReservedInstanceRecommender._create_ri_recommendation config
               (fst (fst e)) (snd (fst e)) (snd e) = Ok r) g news ->
  Forall (fun e => Forall (fun a => a_region a = fst (fst e)) (snd e)) g ->
  reserved_members_in region news = resources_in region (concat (map snd g)).
Proof.
  intros Hrate Hf2. induction Hf2 as [|[[rg ty] ms] r g news Hr _ IH]; intro Hreg.
  - reflexivity.
  - apply List.Forall_cons_iff in Hreg. destruct Hreg as [Hms Hreg]. simpl in Hms, Hr.
    destruct (create_ri_recommendation_ok config rate rg ty ms Hrate)
      as (r' & Hr' & Hk & _ & Hinst & _).
    assert (r' = r) by congruence. subst r'.
    unfold ri_key in Hk. injection Hk as Hrg _.
    simpl. rewrite resources_in_app.
    rewrite <- (IH Hreg), (resources_in_group region rg ms Hms).
    unfold reserved_members_in. simpl. rewrite Hrg.
    destruct (String.eqb rg region); simpl; [|reflexivity].
    now rewrite Hinst, length_map.
Qed.

(** What a returned reserved-instance result always satisfies. *)
Lemma ri_generated_fields (config : RIConfig) (l : list Analysis)
    (rs : list RIRecommendation) :
  ReservedInstanceRecommender.generate_recommendations config l = Ok rs ->
  Forall (fun r => ri_annual_savings r = ri_monthly_savings r * 12) rs /\
  forall region, reserved_members_in region rs = resources_in region l.
Proof.
  intro Hg. destruct (ri_generate_cases config l) as
      [(rate & news & Hrate & Hg' & Hf2)|[Hrate Hcase]].
  - rewrite Hg' in Hg. injection Hg as <-.
    destruct (created_fields config rate _ _ Hrate Hf2) as (Hi & _ & _ & Hall).
    split.
    + apply sort_desc_Forall. eapply List.Forall_impl; [|exact Hall]. intros r H. apply H.
    + intro region.
      rewrite (reserved_members_in_Permutation region _ _
                 (sort_desc_Permutation ri_annual_savings news)).
      rewrite (created_region_members config rate region _ _ Hrate Hf2
                 (group_members_region l)).
      unfold resources_in.
      apply filter_length_Permutation, group_instances_partition.
  - destruct l as [|a l]; rewrite Hcase in Hg; [|discriminate].
    injection Hg as <-. split; [constructor|]. intro region. reflexivity.
Qed.

Lemma tagged_two_strategies (ec2 : list Recommendation) :
  Forall (fun r => rec_strategy r = "downsize"%string \/
                   rec_strategy r = "family_switch"%string) ec2 ->
  (tagged "downsize" ec2 + tagged "family_switch" ec2)%nat = List.length ec2 /\
  tagged "reserved_instances" ec2 = 0%nat.
Proof.
  unfold tagged. induction 1 as [|r ec2 Hr _ [IH1 IH2]]; simpl; [split; reflexivity|].
  destruct Hr as [-> | ->]; simpl; split; lia.
Qed.

Lemma generated_strategies (config : EC2Config) (l : list Analysis)
    (rs : list Recommendation) :
  EC2Recommender.generate_recommendations config l = Ok rs ->
  Forall (fun r => rec_strategy r = "downsize"%string \/
                   rec_strategy r = "family_switch"%string) rs.
Proof.
  intro Hg. apply List.Forall_forall. intros r Hr.
  destruct (generate_inv _ _ _ _ Hg Hr) as (a & _ & cpu & family & size & _ & _ & _ & [H|H]).
  - apply recommend_downsize_inv in H. cbv zeta in H. left. tauto.
  - apply recommend_family_switch_inv in H. destruct H as (budget & H). right. tauto.
Qed.

Lemma main_generate_inv {R : Type} (config : Config) (l : list Analysis) (rds : list R)
    (ec2 : list Recommendation) (ri : list RIRecommendation) :
  Main.generate_recommendations config l rds = Ok (ec2, ri) ->
  EC2Recommender.generate_recommendations (cfg_ec2 config) l = Ok ec2 /\
  ReservedInstanceRecommender.generate_recommendations (cfg_reserved_instances config) l
    = Ok ri.
Proof.
  unfold Main.generate_recommendations.
  destruct (EC2Recommender.generate_recommendations _ l) as [e|]; [|discriminate].
  cbn [bind].
  destruct (ReservedInstanceRecommender.generate_recommendations _ l) as [r|]; [|discriminate].
  cbn [bind]. intro H. injection H as <- <-. split; reflexivity.
Qed.

(** X17: on the recommendations returned for one analysis, the count
    of a region in the statistics is the number of right-sizing
    recommendations located there plus the number of analysed resources
    located there: every analysed resource is counted once through its
    reserved-instance group, and once more for each right-sizing
    recommendation it received. *)
Theorem run_counts_by_region {R : Type} (config : Config) (l : list Analysis) (rds : list R)
    (ec2 : list Recommendation) (ri : list RIRecommendation) (region : string) :
  Main.generate_recommendations config l rds = Ok (ec2, ri) ->
  default 0%nat (by_region (CostOptimizer.get_summary_stats ec2 ri) !! region) =
  (rightsizing_in region ec2 + resources_in region l)%nat.
Proof.
  intro Hg. destruct (main_generate_inv _ _ _ _ _ Hg) as [_ Hr].
  destruct (ri_generated_fields _ _ _ Hr) as [_ Hmem].
  unfold CostOptimizer.get_summary_stats. cbn [by_region].
  rewrite fold_count_reserved, fold_count_rightsizing, lookup_empty, Hmem. reflexivity.
Qed.

(** X18: on the recommendations returned for one analysis, the three
    entries [downsize], [family_switch] and [reserved_instances] of the
    per-strategy statistics add up to [total_recommendations], and no
    other tag is counted. *)
Theorem run_counts_by_strategy {R : Type} (config : Config) (l : list Analysis) (rds : list R)
    (ec2 : list Recommendation) (ri : list RIRecommendation) :
  Main.generate_recommendations config l rds = Ok (ec2, ri) ->
  let stats := CostOptimizer.get_summary_stats ec2 ri in
  total_recommendations stats =
    (default 0%nat (by_strategy stats !! "downsize"%string) +
     default 0%nat (by_strategy stats !! "family_switch"%string) +
     default 0%nat (by_strategy stats !! "reserved_instances"%string))%nat /\
  forall s, is_Some (by_strategy stats !! s) ->
            s = "downsize"%string \/ s = "family_switch"%string \/
            s = "reserved_instances"%string.
Proof.
  intro Hg. destruct (main_generate_inv _ _ _ _ _ Hg) as [He _].
  pose proof (generated_strategies _ _ _ He) as Hst.
  destruct (tagged_two_strategies ec2 Hst) as [Hsum Hnone]. cbv zeta. split.
  - unfold CostOptimizer.get_summary_stats. cbn [by_strategy total_recommendations].
    destruct ri as [|r ri].
    + rewrite !fold_count_strategy, !lookup_empty. simpl. simpl in Hnone. lia.
    + rewrite lookup_insert_eq, !lookup_insert_ne by discriminate.
      rewrite !fold_count_strategy, !lookup_empty. simpl. lia.
  - intros s Hs. unfold CostOptimizer.get_summary_stats in Hs. cbn [by_strategy] in Hs.
    assert (Hfold : is_Some (fold_left (fun d rec => CostOptimizer.count_up (rec_strategy rec) 1 d)
                               ec2 ∅ !! s) ->
                    s = "downsize"%string \/ s = "family_switch"%string).
    { intro H. apply (fold_count_is_Some rec_strategy (fun _ => 1%nat)) in H.
      rewrite lookup_empty in H. destruct H as [H|(r & Hr & <-)]; [now destruct H|].
      exact (proj1 (List.Forall_forall _ _) Hst r Hr). }
    destruct ri as [|r ri]; [destruct (Hfold Hs); auto|].
    destruct (String.eqb_spec s "reserved_instances") as [->|Hne]; [auto|].
    rewrite lookup_insert_ne in Hs by congruence. destruct (Hfold Hs); auto.
Qed.

(** X19: the two recommenders together raise only for a discount table
    that lacks the configured (term_years, payment_option) pair: with an
    empty analysis, or with the pair in the table, both lists are
    returned; with at least one analysed resource and the pair missing,
    the run ends with [KeyError], whatever the right-sizing part found. *)
Theorem run_fails_only_on_discount_table {R : Type} (config : Config)
    (l : list Analysis) (rds : list R) :
  match ReservedInstanceRecommender.lookup_discount_rate (cfg_reserved_instances config), l with
  | Raise _, _ :: _ => Main.generate_recommendations config l rds = Raise KeyError
  | _, _ => exists ec2 ri, Main.generate_recommendations config l rds = Ok (ec2, ri)
  end.
Proof.
  unfold Main.generate_recommendations.
  destruct (generate_total (cfg_ec2 config) l) as [ec2 ->]. cbn [bind].
  destruct (ri_generate_cases (cfg_reserved_instances config) l)
    as [(rate & news & -> & -> & _)|[-> Hcase]].
  - cbn [bind]. eauto.
  - destruct l as [|a l]; rewrite Hcase; cbn [bind]; eauto.
Qed.

Lemma run_counts_by_region_witness :
  exists ec2 ri,
    Main.generate_recommendations Examples.config_both Examples.mixed_fleet (@nil unit)
      = Ok (ec2, ri) /\
    default 0%nat (by_region (CostOptimizer.get_summary_stats ec2 ri) !! "us-east-1"%string) =
    (rightsizing_in "us-east-1" ec2 + 3)%nat.
Proof.
  destruct (Main.generate_recommendations Examples.config_both Examples.mixed_fleet (@nil unit))
    as [[ec2 ri]|] eqn:E; [|vm_compute in E; discriminate E].
  exists ec2, ri. split; [reflexivity|].
  exact (run_counts_by_region _ _ _ _ _ "us-east-1"%string E).
Defined.

Lemma run_counts_by_strategy_witness :
  exists ec2 ri,
    Main.generate_recommendations Examples.config_both Examples.mixed_fleet (@nil unit)
      = Ok (ec2, ri) /\
    total_recommendations (CostOptimizer.get_summary_stats ec2 ri) =
    (default 0%nat (by_strategy (CostOptimizer.get_summary_stats ec2 ri) !! "downsize"%string) +
     default 0%nat (by_strategy (CostOptimizer.get_summary_stats ec2 ri)
                      !! "family_switch"%string) +
     default 0%nat (by_strategy (CostOptimizer.get_summary_stats ec2 ri)
                      !! "reserved_instances"%string))%nat.
Proof.
  destruct (Main.generate_recommendations Examples.config_both Examples.mixed_fleet (@nil unit))
    as [[ec2 ri]|] eqn:E; [|vm_compute in E; discriminate E].
  exists ec2, ri. split; [reflexivity|].
  exact (proj1 (run_counts_by_strategy _ _ _ _ _ E)).
Defined.

Example run_with_missing_discount :
  Main.generate_recommendations Examples.config_both_2yr Examples.mixed_fleet (@nil unit)
    = Raise KeyError /\
  Main.generate_recommendations Examples.config_both_2yr [] (@nil unit) = Ok ([], []).
Proof. split; reflexivity. Qed.

End Pipeline.

(** ** The percentile helper *)

Section PercentileFacts.

Lemma insert_asc_Permutation (x : Q) (l : list Q) : Permutation (insert_asc x l) (x :: l).
Proof.
  induction l as [|y l IH]; simpl.
  - reflexivity.
  - destruct (Qlt_bool y x).
    + rewrite IH. apply perm_swap.
    + reflexivity.
Qed.

Lemma sorted_Permutation (l : list Q) : Permutation (sorted l) l.
Proof.
  induction l as [|x l IH]; simpl.
  - reflexivity.
  - rewrite insert_asc_Permutation. now apply perm_skip.
Qed.

Lemma sorted_length (l : list Q) : List.length (sorted l) = List.length l.
Proof. apply Permutation_length, sorted_Permutation. Qed.

Lemma insert_asc_ascending (x : Q) (l : list Q) :
  ascending l -> ascending (insert_asc x l).
Proof.
  induction 1 as [|y l Hy Hl IH]; simpl.
  - constructor; constructor.
  - destruct (Qlt_bool y x) eqn:E.
    + constructor; [|exact IH].
      apply List.Forall_forall. intros z Hz.
      apply (Permutation_in _ (insert_asc_Permutation x l)) in Hz.
      destruct Hz as [<-|Hz].
      * apply Qlt_le_weak. now apply Qlt_bool_true.
      * revert z Hz. now apply List.Forall_forall.
    + apply Qlt_bool_false in E.
      constructor; [|now constructor].
      constructor; [exact E|].
      eapply List.Forall_impl; [|exact Hy].
      intros z Hz. simpl in Hz. now apply Qle_trans with y.
Qed.

Lemma sorted_ascending (l : list Q) : ascending (sorted l).
Proof.
  induction l as [|x l IH]; simpl.
  - constructor.
  - now apply insert_asc_ascending.
Qed.

Lemma int_nonneg (x : Q) : 0 <= x -> int x = Qfloor x.
Proof.
  destruct x as [n d]. unfold Qle, int, Qfloor. simpl. intro H.
  apply Z.quot_div_nonneg; lia.
Qed.

Lemma subscript_in_range {A : Type} (l : list A) (i : Z) (d : A) :
  (0 <= i < Z.of_nat (List.length l))%Z ->
  subscript l i = Ok (nth (Z.to_nat i) l d).
Proof.
  intro H. unfold subscript. cbv zeta.
  destruct (Z.ltb_spec i 0) as [Hneg|_]; [lia|].
  destruct (Z.ltb_spec i 0) as [Hneg|_]; [lia|].
  destruct (Z.leb_spec (Z.of_nat (List.length l)) i) as [Hbig|_]; [lia|].
  cbn [orb].
  assert (Hlt : (Z.to_nat i < List.length l)%nat) by lia.
  destruct (nth_error l (Z.to_nat i)) as [x|] eqn:E.
  - now rewrite (nth_error_nth _ _ d E).
  - apply nth_error_None in E. lia.
Qed.

(** The index [(n - 1) * p / 100] stays between [0] and [n - 1]. *)
Lemma index_bounds (n : Z) (p : Q) :
  (1 <= n)%Z -> 0 <= p -> p <= 100 ->
  0 <= inject_Z (n - 1) * p / 100 /\ inject_Z (n - 1) * p / 100 <= inject_Z (n - 1).
Proof.
  intros Hn H0 H100.
  assert (Hm : 0 <= inject_Z (n - 1)).
  { change 0 with (inject_Z 0). rewrite <- Zle_Qle. lia. }
  split.
  - apply Qle_shift_div_l; [reflexivity|]. rewrite Qmult_0_l.
    now apply Qmult_le_0_compat.
  - apply Qle_shift_div_r; [reflexivity|].
    rewrite (Qmult_comm (inject_Z (n - 1)) p), (Qmult_comm (inject_Z (n - 1)) 100).
    now apply Qmult_le_compat_r.
Qed.

Lemma floor_ceiling_cases (x : Q) :
  (Qceiling x = Qfloor x /\ x == inject_Z (Qfloor x)) \/
  Qceiling x = (Qfloor x + 1)%Z.
Proof.
  assert (Hfc := Qle_floor_ceiling x). rewrite <- Zle_Qle in Hfc.
  assert (Hc : (Qceiling x <= Qfloor x + 1)%Z).
  { rewrite <- (Qceiling_Z (Qfloor x + 1)). apply Qceiling_resp_le.
    apply Qlt_le_weak, Qlt_floor. }
  destruct (Z.eq_dec (Qceiling x) (Qfloor x)) as [E|E]; [left|right; lia].
  split; [exact E|]. apply Qle_antisym.
  - rewrite <- E. apply Qle_ceiling.
  - apply Qfloor_le.
Qed.

(** C9: for a non-empty list of values and [p] between 0 and 100, the
    percentile helper of both analyzers returns, without raising, the
    value [v[floor i] + (i - floor i) * (v[ceil i] - v[floor i])]
    ([v[floor i]] when [ceil i >= n]) where [v] is the list of values
    sorted in ascending order, [n] its length and
    [i = (n - 1) * p / 100]. *)
Theorem percentile_interpolates (data : list Q) (p : Q) :
  data <> [] -> 0 <= p -> p <= 100 ->
  exists r,
    EC2Analyzer._percentile data p = Ok r /\
    RDSAnalyzer._percentile data p = Ok r /\
    Permutation (sorted data) data /\
    ascending (sorted data) /\
    r == percentile_formula (sorted data) p.
Proof.
  intros Hne H0 H100.
  assert (Hsame : RDSAnalyzer._percentile data p = EC2Analyzer._percentile data p)
    by reflexivity.
  rewrite Hsame. clear Hsame.
  unfold EC2Analyzer._percentile, percentile_formula.
  destruct data as [|x0 data0]; [congruence|].
  set (v := sorted (x0 :: data0)). set (n := Z.of_nat (List.length v)). cbv zeta.
  assert (Hn : (1 <= n)%Z).
  { unfold n, v. rewrite sorted_length. simpl. lia. }
  set (i := inject_Z (n - 1) * p / 100).
  destruct (index_bounds n p Hn H0 H100) as [Hi0 Hin]. fold i in Hi0, Hin.
  rewrite (int_nonneg i Hi0).
  assert (Hf0 : (0 <= Qfloor i)%Z).
  { rewrite <- (Qfloor_Z 0). now apply Qfloor_resp_le. }
  assert (Hfn : (Qfloor i <= n - 1)%Z).
  { rewrite <- (Qfloor_Z (n - 1)). now apply Qfloor_resp_le. }
  assert (Hlo : subscript v (Qfloor i) = Ok (nth (Z.to_nat (Qfloor i)) v 0)).
  { apply subscript_in_range. fold n. lia. }
  destruct (Z.leb_spec n (Qfloor i + 1)) as [Hlast|Hmid].
  - (* the index is the last position *)
    exists (nth (Z.to_nat (Qfloor i)) v 0).
    split; [exact Hlo|]. split; [exact Hlo|].
    split; [apply sorted_Permutation|]. split; [apply sorted_ascending|].
    assert (Hfi : i == inject_Z (Qfloor i)).
    { apply Qle_antisym; [|apply Qfloor_le].
      apply Qle_trans with (inject_Z (n - 1)); [exact Hin|]. rewrite <- Zle_Qle. lia. }
    destruct (Z.leb_spec n (Qceiling i)); [reflexivity|].
    assert (Hz : i - inject_Z (Qfloor i) == 0) by (rewrite <- Hfi; ring).
    rewrite Hz. ring.
  - rewrite Hlo. cbn [bind].
    assert (Hhi : subscript v (Qfloor i + 1) = Ok (nth (Z.to_nat (Qfloor i + 1)) v 0)).
    { apply subscript_in_range. fold n. lia. }
    rewrite Hhi. cbn [bind]. eexists.
    split; [reflexivity|]. split; [reflexivity|].
    split; [apply sorted_Permutation|]. split; [apply sorted_ascending|].
    destruct (floor_ceiling_cases i) as [[Hc Hfi]|Hc]; rewrite Hc.
    + destruct (Z.leb_spec n (Qfloor i)); [lia|].
      assert (Hz : i - inject_Z (Qfloor i) == 0) by (rewrite <- Hfi; ring).
      rewrite Hz. ring.
    + destruct (Z.leb_spec n (Qfloor i + 1)); [lia|]. reflexivity.
Qed.

(** The specification's example: values 10, 20, 30, 40 and p = 95 give
    index 2.85 and the percentile 38.5. *)
Lemma percentile_interpolates_witness :
  exists r,
    EC2Analyzer._percentile [10; 20; 30; 40] 95 = Ok r /\
    RDSAnalyzer._percentile [10; 20; 30; 40] 95 = Ok r /\
    r == 38.5.
Proof.
  assert (Hne : [10; 20; 30; 40] <> ([] : list Q)) by discriminate.
  assert (H0 : 0 <= 95) by (unfold Qle; simpl; lia).
  assert (H100 : 95 <= 100) by (unfold Qle; simpl; lia).
  destruct (percentile_interpolates [10; 20; 30; 40] 95 Hne H0 H100)
    as (r & He & Hr & _ & _ & Hv).
  exists r. split; [exact He|]. split; [exact Hr|].
  rewrite Hv. reflexivity.
Defined.

End PercentileFacts.

(** ** Further properties of the percentile helper *)

Section PercentileExtra.
Import EC2Analyzer.

Lemma percentile_index_bounds (n : nat) (p : Q) :
  (1 <= n)%nat -> 0 <= p -> p <= 100 ->
  0 <= percentile_index n p /\ percentile_index n p <= inject_Z (Z.of_nat n - 1).
Proof. intros Hn H0 H100. apply index_bounds; [lia|exact H0|exact H100]. Qed.

Lemma floor_index_range (n : nat) (i : Q) :
  0 <= i -> i <= inject_Z (Z.of_nat n - 1) ->
  (0 <= Qfloor i <= Z.of_nat n - 1)%Z.
Proof.
  intros H0 Hn. split.
  - rewrite <- (Qfloor_Z 0). now apply Qfloor_resp_le.
  - rewrite <- (Qfloor_Z (Z.of_nat n - 1)). now apply Qfloor_resp_le.
Qed.

(** Inside the range of percentiles the helper returns the
    interpolated value and does not raise. *)
Lemma percentile_value (data : list Q) (p : Q) :
  data <> [] -> 0 <= p -> p <= 100 ->
  _percentile data p =
  Ok (interpolate (sorted data) (percentile_index (List.length data) p)).
Proof.
  intros Hne H0 H100. unfold _percentile, interpolate, percentile_index.
  destruct data as [|x0 data0]; [congruence|].
  set (data := x0 :: data0). set (v := sorted data). cbv zeta.
  assert (Hlen : List.length v = List.length data) by apply sorted_length.
  rewrite Hlen.
  assert (Hn : (1 <= List.length data)%nat) by (simpl; lia).
  set (n := List.length data) in *.
  set (i := inject_Z (Z.of_nat n - 1) * p / 100).
  destruct (percentile_index_bounds n p Hn H0 H100) as [Hi0 Hin].
  unfold percentile_index in Hi0, Hin. fold i in Hi0, Hin.
  rewrite (int_nonneg i Hi0).
  destruct (floor_index_range n i Hi0 Hin) as [Hf0 Hfn].
  assert (Hlo : subscript v (Qfloor i) = Ok (nth (Z.to_nat (Qfloor i)) v 0)).
  { apply subscript_in_range. rewrite Hlen. fold n. lia. }
  destruct (Z.leb_spec (Z.of_nat n) (Qfloor i + 1)) as [Hlast|Hmid]; [exact Hlo|].
  rewrite Hlo. cbn [bind].
  assert (Hhi : subscript v (Qfloor i + 1) = Ok (nth (Z.to_nat (Qfloor i + 1)) v 0)).
  { apply subscript_in_range. rewrite Hlen. fold n. lia. }
  rewrite Hhi. reflexivity.
Qed.

Lemma ascending_nth (v : list Q) (a b : nat) :
  ascending v -> (a <= b)%nat -> (b < List.length v)%nat -> nth a v 0 <= nth b v 0.
Proof.
  intro Hv. revert a b. induction Hv as [|x l Hx Hl IH]; intros a b Hab Hb.
  - simpl in Hb. lia.
  - destruct b as [|b].
    + assert (a = 0%nat) by lia. subst a. apply Qle_refl.
    + simpl in Hb. destruct a as [|a].
      * simpl. apply (proj1 (List.Forall_forall _ _) Hx). apply nth_In. lia.
      * simpl. apply IH; lia.
Qed.

Lemma blend_between (lo hi t : Q) :
  lo <= hi -> 0 <= t -> t <= 1 ->
  lo <= lo + t * (hi - lo) /\ lo + t * (hi - lo) <= hi.
Proof.
  intros Hlh H0 H1.
  assert (Hd : 0 <= hi - lo) by lra.
  assert (Hp : 0 <= t * (hi - lo)) by now apply Qmult_le_0_compat.
  assert (Hq : 0 <= (1 - t) * (hi - lo)) by (apply Qmult_le_0_compat; lra).
  split; [lra|].
  setoid_replace (lo + t * (hi - lo)) with (hi - (1 - t) * (hi - lo)) using relation Qeq by ring.
  lra.
Qed.

Lemma fraction_range (i : Q) : 0 <= i - inject_Z (Qfloor i) /\ i - inject_Z (Qfloor i) <= 1.
Proof.
  pose proof (Qfloor_le i) as H1. pose proof (Qlt_floor i) as H2.
  rewrite inject_Z_plus in H2. change (inject_Z 1) with 1 in H2.
  generalize dependent (inject_Z (Qfloor i)). intros x H1 H2. split; lra.
Qed.

(** The interpolated value lies between the values at the two
    positions around the index. *)
Lemma interpolate_between (v : list Q) (i : Q) :
  ascending v -> 0 <= i -> i <= inject_Z (Z.of_nat (List.length v) - 1) ->
  nth (Z.to_nat (Qfloor i)) v 0 <= interpolate v i /\
  interpolate v i <=
    nth (Z.to_nat (Z.min (Qfloor i + 1) (Z.of_nat (List.length v) - 1))) v 0.
Proof.
  intros Hv H0 Hn. destruct (floor_index_range _ i H0 Hn) as [Hf0 Hfn].
  unfold interpolate. cbv zeta.
  destruct (Z.leb_spec (Z.of_nat (List.length v)) (Qfloor i + 1)) as [Hlast|Hmid].
  - rewrite Z.min_r by lia. split; [apply Qle_refl|].
    apply ascending_nth; [exact Hv|lia|lia].
  - rewrite Z.min_l by lia.
    destruct (fraction_range i) as [Ht0 Ht1].
    apply blend_between; [|exact Ht0|exact Ht1].
    apply ascending_nth; [exact Hv|lia|lia].
Qed.

Lemma interpolate_monotone (v : list Q) (i j : Q) :
  ascending v -> 0 <= i -> i <= j -> j <= inject_Z (Z.of_nat (List.length v) - 1) ->
  interpolate v i <= interpolate v j.
Proof.
  intros Hv H0 Hij Hn.
  assert (Hi : i <= inject_Z (Z.of_nat (List.length v) - 1)) by lra.
  assert (Hj : 0 <= j) by lra.
  destruct (floor_index_range _ i H0 Hi) as [Hfi0 Hfin].
  destruct (floor_index_range _ j Hj Hn) as [Hfj0 Hfjn].
  pose proof (Qfloor_resp_le i j Hij) as Hfij.
  destruct (Z.eq_dec (Qfloor i) (Qfloor j)) as [E|E].
  - unfold interpolate. cbv zeta. rewrite <- E.
    destruct (Z.leb_spec (Z.of_nat (List.length v)) (Qfloor i + 1)); [apply Qle_refl|].
    assert (Hd : 0 <= nth (Z.to_nat (Qfloor i + 1)) v 0 - nth (Z.to_nat (Qfloor i)) v 0).
    { assert (nth (Z.to_nat (Qfloor i)) v 0 <= nth (Z.to_nat (Qfloor i + 1)) v 0)
        by (apply ascending_nth; [exact Hv|lia|lia]). lra. }
    assert (Hm : (i - inject_Z (Qfloor i)) *
                 (nth (Z.to_nat (Qfloor i + 1)) v 0 - nth (Z.to_nat (Qfloor i)) v 0) <=
                 (j - inject_Z (Qfloor i)) *
                 (nth (Z.to_nat (Qfloor i + 1)) v 0 - nth (Z.to_nat (Qfloor i)) v 0)).
    { apply Qmult_le_compat_r; [lra|exact Hd]. }
    lra.
  - destruct (interpolate_between v i Hv H0 Hi) as [_ Hup].
    destruct (interpolate_between v j Hv Hj Hn) as [Hlow _].
    apply Qle_trans with (nth (Z.to_nat (Qfloor j)) v 0); [|exact Hlow].
    eapply Qle_trans; [exact Hup|].
    apply ascending_nth; [exact Hv|lia|lia].
Qed.

Lemma sorted_In (data : list Q) (x : Q) : In x (sorted data) <-> In x data.
Proof.
  split; apply Permutation_in;
    [apply sorted_Permutation|symmetry; apply sorted_Permutation].
Qed.

(** The result lies between two of the values. *)
Lemma percentile_between_values (data : list Q) (p : Q) :
  data <> [] -> 0 <= p -> p <= 100 ->
  exists r lo hi,
    _percentile data p = Ok r /\
    In lo data /\ In hi data /\ lo <= r /\ r <= hi.
Proof.
  intros Hne H0 H100.
  set (v := sorted data). set (i := percentile_index (List.length data) p).
  assert (Hn : (1 <= List.length data)%nat) by (destruct data; [congruence|simpl; lia]).
  destruct (percentile_index_bounds _ p Hn H0 H100) as [Hi0 Hin]. fold i in Hi0, Hin.
  assert (Hlen : List.length v = List.length data) by apply sorted_length.
  rewrite <- Hlen in Hin.
  destruct (floor_index_range _ i Hi0 Hin) as [Hf0 Hfn].
  destruct (interpolate_between v i (sorted_ascending data) Hi0 Hin) as [Hlow Hup].
  exists (interpolate v i), (nth (Z.to_nat (Qfloor i)) v 0),
         (nth (Z.to_nat (Z.min (Qfloor i + 1) (Z.of_nat (List.length v) - 1))) v 0).
  split; [now apply percentile_value|].
  split; [apply (proj1 (sorted_In data _)); fold v; apply nth_In; lia|].
  split; [apply (proj1 (sorted_In data _)); fold v; apply nth_In; lia|].
  split; assumption.
Qed.

(** X20: for a non-empty list of values and a percentile between 0 and
    100 the helper returns a value between the smallest and the largest
    of the values: every lower bound of the values is a lower bound of
    the result, and every upper bound an upper bound. *)
Theorem percentile_within_data (data : list Q) (p : Q) :
  data <> [] -> 0 <= p -> p <= 100 ->
  exists r,
    _percentile data p = Ok r /\
    (forall m, Forall (fun x => m <= x) data -> m <= r) /\
    (forall M, Forall (fun x => x <= M) data -> r <= M).
Proof.
  intros Hne H0 H100.
  destruct (percentile_between_values data p Hne H0 H100)
    as (r & lo & hi & Hr & Hlo & Hhi & Hlow & Hup).
  exists r. split; [exact Hr|]. split.
  - intros m Hm. apply Qle_trans with lo; [|exact Hlow].
    exact (proj1 (List.Forall_forall _ _) Hm lo Hlo).
  - intros M HM. apply Qle_trans with hi; [exact Hup|].
    exact (proj1 (List.Forall_forall _ _) HM hi Hhi).
Qed.

Lemma percentile_within_data_witness :
  exists r, _percentile [40; 10; 30; 20] 95 = Ok r /\ 10 <= r /\ r <= 40.
Proof.
  assert (Hne : [40; 10; 30; 20] <> ([] : list Q)) by discriminate.
  assert (H0 : 0 <= 95) by (unfold Qle; simpl; lia).
  assert (H100 : 95 <= 100) by (unfold Qle; simpl; lia).
  destruct (percentile_within_data [40; 10; 30; 20] 95 Hne H0 H100) as (r & Hr & Hlo & Hhi).
  exists r. split; [exact Hr|]. split.
  - apply Hlo. repeat constructor; unfold Qle; simpl; lia.
  - apply Hhi. repeat constructor; unfold Qle; simpl; lia.
Defined.

(** X21: on a fixed non-empty list of values the helper is monotone in
    the percentile: between 0 and 100, a larger percentile never gives
    a smaller value. *)
Theorem percentile_monotone (data : list Q) (p q : Q) :
  data <> [] -> 0 <= p -> p <= q -> q <= 100 ->
  exists rp rq,
    _percentile data p = Ok rp /\
    _percentile data q = Ok rq /\
    rp <= rq.
Proof.
  intros Hne H0 Hpq H100.
  assert (Hp100 : p <= 100) by lra. assert (Hq0 : 0 <= q) by lra.
  eexists. eexists. split; [now apply percentile_value|].
  split; [now apply percentile_value|].
  assert (Hn : (1 <= List.length data)%nat) by (destruct data; [congruence|simpl; lia]).
  destruct (percentile_index_bounds _ p Hn H0 Hp100) as [Hi0 _].
  destruct (percentile_index_bounds _ q Hn Hq0 H100) as [_ Hjn].
  apply interpolate_monotone; [apply sorted_ascending|exact Hi0| |now rewrite sorted_length].
  unfold percentile_index. apply Qmult_le_compat_r; [|unfold Qle; simpl; lia].
  rewrite !(Qmult_comm (inject_Z _)). apply Qmult_le_compat_r; [exact Hpq|].
  change 0 with (inject_Z 0). rewrite <- Zle_Qle. lia.
Qed.

Lemma percentile_monotone_witness :
  exists rp rq,
    _percentile [40; 10; 30; 20] 50 = Ok rp /\
    _percentile [40; 10; 30; 20] 95 = Ok rq /\
    rp <= rq.
Proof.
  assert (Hne : [40; 10; 30; 20] <> ([] : list Q)) by discriminate.
  assert (H0 : 0 <= 50) by (unfold Qle; simpl; lia).
  assert (Hpq : 50 <= 95) by (unfold Qle; simpl; lia).
  assert (H100 : 95 <= 100) by (unfold Qle; simpl; lia).
  exact (percentile_monotone [40; 10; 30; 20] 50 95 Hne H0 Hpq H100).
Defined.

(** X22: on a non-empty list the percentile 0 is the smallest value
    and the percentile 100 the largest: both results bound every value
    and both are values of the list (the first up to the way the same
    number is written). *)
Theorem percentile_extremes (data : list Q) :
  data <> [] ->
  exists r0 r100,
    _percentile data 0 = Ok r0 /\
    _percentile data 100 = Ok r100 /\
    Forall (fun x => r0 <= x /\ x <= r100) data /\
    (exists x, In x data /\ x == r0) /\
    In r100 data.
Proof.
  intro Hne.
  assert (Hn : (1 <= List.length data)%nat) by (destruct data; [congruence|simpl; lia]).
  assert (H0 : 0 <= 0) by apply Qle_refl.
  assert (H100 : 0 <= 100) by (unfold Qle; simpl; lia).
  assert (Hle : 100 <= 100) by apply Qle_refl.
  set (v := sorted data).
  assert (Hlen : List.length v = List.length data) by apply sorted_length.
  assert (Hv : ascending v) by apply sorted_ascending.
  (* percentile 0 *)
  assert (Hi0 : percentile_index (List.length data) 0 == 0).
  { unfold percentile_index. field. }
  assert (Hf0 : Qfloor (percentile_index (List.length data) 0) = 0%Z).
  { rewrite Hi0. reflexivity. }
  assert (Hr0 : interpolate v (percentile_index (List.length data) 0) == nth 0 v 0).
  { unfold interpolate. cbv zeta. rewrite Hf0. simpl (Z.to_nat 0).
    destruct (Z.leb_spec (Z.of_nat (List.length v)) (0 + 1)); [reflexivity|].
    rewrite Hi0. change (Z.to_nat 0) with 0%nat. change (inject_Z 0) with 0.
    generalize (nth 0 v 0) (nth (Z.to_nat (0 + 1)) v 0). intros a b. ring. }
  (* percentile 100 *)
  assert (Hi100 : percentile_index (List.length data) 100 ==
                  inject_Z (Z.of_nat (List.length data) - 1)).
  { unfold percentile_index. field. }
  assert (Hf100 : Qfloor (percentile_index (List.length data) 100) =
                  (Z.of_nat (List.length data) - 1)%Z).
  { rewrite Hi100. apply Qfloor_Z. }
  assert (Hr100 : interpolate v (percentile_index (List.length data) 100) =
                  nth (List.length data - 1) v 0).
  { unfold interpolate. cbv zeta. rewrite Hf100, Hlen.
    destruct (Z.leb_spec (Z.of_nat (List.length data)) (Z.of_nat (List.length data) - 1 + 1));
      [|lia].
    f_equal. lia. }
  exists (interpolate v (percentile_index (List.length data) 0)),
         (interpolate v (percentile_index (List.length data) 100)).
  split; [now apply percentile_value|]. split; [now apply percentile_value|].
  split; [|split].
  - apply List.Forall_forall. intros x Hx. apply sorted_In in Hx. fold v in Hx.
    destruct (In_nth v x 0 Hx) as (k & Hk & <-). rewrite Hr0, Hr100. split.
    + apply ascending_nth; [exact Hv|lia|exact Hk].
    + apply ascending_nth; [exact Hv|lia|lia].
  - exists (nth 0 v 0). split; [|now rewrite Hr0].
    apply (proj1 (sorted_In data _)). fold v. apply nth_In. lia.
  - rewrite Hr100. apply (proj1 (sorted_In data _)). fold v. apply nth_In. lia.
Qed.

Lemma percentile_extremes_witness :
  exists r0 r100,
    _percentile [40; 10; 30; 20] 0 = Ok r0 /\
    _percentile [40; 10; 30; 20] 100 = Ok r100 /\
    r0 == 10 /\ r100 = 40.
Proof.
  assert (Hne : [40; 10; 30; 20] <> ([] : list Q)) by discriminate.
  destruct (percentile_extremes [40; 10; 30; 20] Hne) as (r0 & r100 & H0 & H100 & _).
  exists r0, r100. split; [exact H0|]. split; [exact H100|].
  vm_compute in H0. injection H0 as <-. vm_compute in H100. injection H100 as <-.
  split; reflexivity.
Defined.

(** An index that reaches the number of values is out of range. *)
Lemma percentile_raises (data : list Q) (p : Q) :
  data <> [] ->
  inject_Z (Z.of_nat (List.length data)) <= percentile_index (List.length data) p ->
  _percentile data p = Raise IndexError.
Proof.
  intros Hne Hbig. unfold _percentile.
  destruct data as [|x0 data0]; [congruence|].
  set (data := x0 :: data0) in *. cbv zeta. rewrite sorted_length.
  unfold percentile_index in Hbig.
  set (n := List.length data) in *.
  set (i := inject_Z (Z.of_nat n - 1) * p / 100) in *.
  assert (Hn0 : 0 <= inject_Z (Z.of_nat n)).
  { change 0 with (inject_Z 0). rewrite <- Zle_Qle. lia. }
  assert (Hi0 : 0 <= i) by lra.
  rewrite (int_nonneg i Hi0).
  assert (Hf : (Z.of_nat n <= Qfloor i)%Z).
  { rewrite <- (Qfloor_Z (Z.of_nat n)). now apply Qfloor_resp_le. }
  destruct (Z.leb_spec (Z.of_nat n) (Qfloor i + 1)) as [_|Hlt]; [|lia].
  unfold subscript. cbv zeta. rewrite sorted_length. fold n.
  destruct (Z.ltb_spec (Qfloor i) 0) as [Hneg|_]; [lia|].
  destruct (Z.ltb_spec (Qfloor i) 0) as [Hneg|_]; [lia|].
  destruct (Z.leb_spec (Z.of_nat n) (Qfloor i)) as [_|Hlt]; [|lia].
  reflexivity.
Qed.

Lemma percentile_raises_from_200 (data : list Q) (p : Q) :
  (2 <= List.length data)%nat -> 200 <= p -> _percentile data p = Raise IndexError.
Proof.
  intros Hlen Hp.
  apply percentile_raises; [destruct data; [simpl in Hlen; lia|discriminate]|].
  unfold percentile_index. set (n := List.length data) in *.
  assert (Hn : 2 <= inject_Z (Z.of_nat n)).
  { change 2 with (inject_Z 2). rewrite <- Zle_Qle. lia. }
  assert (Hm1 : inject_Z (Z.of_nat n - 1) == inject_Z (Z.of_nat n) - 1)
    by (unfold Qeq; simpl; lia).
  rewrite Hm1. clear Hm1.
  generalize dependent (inject_Z (Z.of_nat n)). intros m Hm.
  apply Qle_shift_div_l; [reflexivity|].
  apply Qle_trans with ((m - 1) * 200).
  - lra.
  - rewrite !(Qmult_comm (m - 1)). apply Qmult_le_compat_r; [exact Hp|lra].
Qed.

(** X23: outside its range the helper is not protected.  An empty list
    gives 0 and a single value is returned for every percentile, even a
    negative one or one above 100; but with two values or more, a
    percentile whose index [(n - 1) * p / 100] reaches [n] raises
    [IndexError] (any percentile from 200 on does). *)
Theorem percentile_out_of_range (p : Q) :
  _percentile [] p = Ok 0 /\
  (forall x, _percentile [x] p = Ok x) /\
  (forall data,
     data <> [] ->
     inject_Z (Z.of_nat (List.length data)) <= percentile_index (List.length data) p ->
     _percentile data p = Raise IndexError) /\
  (forall data,
     (2 <= List.length data)%nat -> 200 <= p ->
     _percentile data p = Raise IndexError).
Proof.
  split; [reflexivity|]. split; [|split].
  - intro x. unfold _percentile. cbv zeta. simpl sorted. simpl List.length.
    assert (Hint : int (inject_Z (Z.of_nat 1 - 1) * p / 100) = 0%Z).
    { destruct p as [pn pd]. reflexivity. }
    rewrite Hint. reflexivity.
  - intros data. apply percentile_raises.
  - intros data Hlen Hp. now apply percentile_raises_from_200.
Qed.

Lemma percentile_out_of_range_witness :
  _percentile [7] 250 = Ok 7 /\ _percentile [10; 20] 250 = Raise IndexError.
Proof.
  destruct (percentile_out_of_range 250) as (_ & Hone & _ & Hmany).
  split; [apply Hone|]. apply Hmany; [simpl; lia|unfold Qle; simpl; lia].
Defined.

End PercentileExtra.

(** ** The analyzer *)

Section AnalyzerFacts.
Import EC2Analyzer.

Lemma insert_by_Permutation {A : Type} (key : A -> Z) (x : A) (l : list A) :
  Permutation (insert_by key x l) (x :: l).
Proof.
  induction l as [|y l IH]; simpl.
  - reflexivity.
  - destruct (key y <? key x)%Z.
    + rewrite IH. apply perm_swap.
    + reflexivity.
Qed.

Lemma sorted_by_Permutation {A : Type} (key : A -> Z) (l : list A) :
  Permutation (sorted_by key l) l.
Proof.
  induction l as [|x l IH]; simpl.
  - reflexivity.
  - rewrite insert_by_Permutation. now apply perm_skip.
Qed.

Lemma fold_max_bounds (l : list Q) (x0 : Q) :
  let m := fold_left (fun m y => if Qlt_bool m y then y else m) l x0 in
  x0 <= m /\ Forall (fun y => y <= m) l.
Proof.
  revert x0. induction l as [|y l IH]; intro x0; simpl.
  - split; [apply Qle_refl|constructor].
  - destruct (Qlt_bool x0 y) eqn:E.
    + destruct (IH y) as [Hy Hl]. apply Qlt_bool_true in E.
      split; [lra|]. constructor; assumption.
    + destruct (IH x0) as [Hx Hl]. apply Qlt_bool_false in E.
      split; [exact Hx|]. constructor; [lra|exact Hl].
Qed.

Lemma fold_min_bounds (l : list Q) (x0 : Q) :
  let m := fold_left (fun m y => if Qlt_bool y m then y else m) l x0 in
  m <= x0 /\ Forall (fun y => m <= y) l.
Proof.
  revert x0. induction l as [|y l IH]; intro x0; simpl.
  - split; [apply Qle_refl|constructor].
  - destruct (Qlt_bool y x0) eqn:E.
    + destruct (IH y) as [Hy Hl]. apply Qlt_bool_true in E.
      split; [lra|]. constructor; assumption.
    + destruct (IH x0) as [Hx Hl]. apply Qlt_bool_false in E.
      split; [exact Hx|]. constructor; [lra|exact Hl].
Qed.

Lemma py_max_upper (l : list Q) : Forall (fun y => y <= py_max l) l.
Proof.
  destruct l as [|x l]; [constructor|]. unfold py_max.
  destruct (fold_max_bounds l x) as [Hx Hl]. constructor; assumption.
Qed.

Lemma py_min_lower (l : list Q) : Forall (fun y => py_min l <= y) l.
Proof.
  destruct l as [|x l]; [constructor|]. unfold py_min.
  destruct (fold_min_bounds l x) as [Hx Hl]. constructor; assumption.
Qed.

Lemma sum_lower (l : list Q) (m : Q) :
  Forall (fun x => m <= x) l -> inject_Z (Z.of_nat (List.length l)) * m <= sum l.
Proof.
  induction 1 as [|x l Hx _ IH].
  - rewrite sum_nil. change (inject_Z (Z.of_nat (List.length (@nil Q)))) with 0. lra.
  - rewrite sum_cons. cbn [List.length]. rewrite Nat2Z.inj_succ, <- Z.add_1_r.
    rewrite inject_Z_plus. change (inject_Z 1) with 1.
    generalize dependent (inject_Z (Z.of_nat (List.length l))). intros n IH.
    setoid_replace ((n + 1) * m) with (n * m + m) using relation Qeq by ring. lra.
Qed.

Lemma sum_upper (l : list Q) (M : Q) :
  Forall (fun x => x <= M) l -> sum l <= inject_Z (Z.of_nat (List.length l)) * M.
Proof.
  induction 1 as [|x l Hx _ IH].
  - rewrite sum_nil. change (inject_Z (Z.of_nat (List.length (@nil Q)))) with 0. lra.
  - rewrite sum_cons. cbn [List.length]. rewrite Nat2Z.inj_succ, <- Z.add_1_r.
    rewrite inject_Z_plus. change (inject_Z 1) with 1.
    generalize dependent (inject_Z (Z.of_nat (List.length l))). intros n IH.
    setoid_replace ((n + 1) * M) with (n * M + M) using relation Qeq by ring. lra.
Qed.

Lemma mean_bounds (l : list Q) (m M : Q) :
  l <> [] -> Forall (fun x => m <= x) l -> Forall (fun x => x <= M) l ->
  m <= mean l /\ mean l <= M.
Proof.
  intros Hne Hm HM. unfold mean.
  assert (Hn : 0 < inject_Z (Z.of_nat (List.length l))).
  { change 0 with (inject_Z 0). rewrite <- Zlt_Qlt. destruct l; [congruence|simpl; lia]. }
  split.
  - apply Qle_shift_div_l; [exact Hn|]. rewrite Qmult_comm. now apply sum_lower.
  - apply Qle_shift_div_r; [exact Hn|]. rewrite Qmult_comm. now apply sum_upper.
Qed.

Lemma hourly_pricing_listed (instance_type : string) (h : Q) :
  dict_get instance_type hourly_pricing = Some h ->
  0 < h /\ dict_get instance_type EC2Recommender.pricing = Some (h * 730).
Proof.
  intro H. apply dict_get_In in H. unfold hourly_pricing in H. simpl in H.
  repeat (destruct H as [H|H]; [injection H as <- <-; split; reflexivity|]).
  destruct H.
Qed.

Lemma estimate_positive (instance_type : string) :
  0 < _estimate_monthly_cost instance_type.
Proof.
  unfold _estimate_monthly_cost, dict_get_or. cbv zeta.
  destruct (dict_get instance_type hourly_pricing) as [h|] eqn:E; [|reflexivity].
  destruct (hourly_pricing_listed _ _ E) as [Hpos _].
  apply Qmult_lt_0_compat; [exact Hpos|reflexivity].
Qed.

(** X26: the analyzer's cost estimate is never zero or negative; a type
    it does not list is priced at 0.10 per hour, that is 73 per month;
    and a type it lists has, in the recommender's catalog, exactly the
    estimated monthly price. *)
Theorem estimate_positive_and_consistent (instance_type : string) :
  0 < _estimate_monthly_cost instance_type /\
  (dict_get instance_type hourly_pricing = None ->
   _estimate_monthly_cost instance_type == 73) /\
  (forall h, dict_get instance_type hourly_pricing = Some h ->
     dict_get instance_type EC2Recommender.pricing =
     Some (_estimate_monthly_cost instance_type)).
Proof.
  unfold _estimate_monthly_cost, dict_get_or. cbv zeta.
  destruct (dict_get instance_type hourly_pricing) as [h|] eqn:E.
  - destruct (hourly_pricing_listed _ _ E) as [Hpos Hcat].
    split; [|split; [discriminate|]].
    + apply Qmult_lt_0_compat; [exact Hpos|reflexivity].
    + intros h' Hh'. injection Hh' as <-. exact Hcat.
  - split; [reflexivity|]. split; [reflexivity|discriminate].
Qed.

Lemma first_name_tag_spec (tags : list Tag) :
  match first_name_tag tags with
  | Some value =>
      exists before after,
        tags = before ++ {| tag_Key := "Name"; tag_Value := value |} :: after /\
        Forall (fun tag => tag_Key tag <> "Name"%string) before
  | None => Forall (fun tag => tag_Key tag <> "Name"%string) tags
  end.
Proof.
  induction tags as [|[k v] tags IH]; simpl; [constructor|].
  destruct (String.eqb_spec k "Name") as [->|Hne].
  - exists [], tags. split; [reflexivity|constructor].
  - destruct (first_name_tag tags) as [value|].
    + destruct IH as (before & after & -> & Hb).
      exists ({| tag_Key := k; tag_Value := v |} :: before), after.
      split; [reflexivity|]. constructor; [exact Hne|exact Hb].
    + constructor; [exact Hne|exact IH].
Qed.

(** X27: the name of an instance is the value of its first tag whose
    key is [Name]; an instance without tags, or without such a tag, is
    called [N/A]. *)
Theorem instance_name_first_tag (instance : Instance) :
  (forall before value after,
     Tags instance = Some (before ++ {| tag_Key := "Name"; tag_Value := value |} :: after) ->
     Forall (fun tag => tag_Key tag <> "Name"%string) before ->
     _get_instance_name instance = value) /\
  (Tags instance = None -> _get_instance_name instance = "N/A"%string) /\
  (forall tags,
     Tags instance = Some tags ->
     Forall (fun tag => tag_Key tag <> "Name"%string) tags ->
     _get_instance_name instance = "N/A"%string).
Proof.
  unfold _get_instance_name. cbv zeta.
  assert (Hnone : forall tags, Forall (fun tag => tag_Key tag <> "Name"%string) tags ->
                               first_name_tag tags = None).
  { induction 1 as [|tag tags Ht _ IH]; simpl; [reflexivity|].
    apply String.eqb_neq in Ht. now rewrite Ht. }
  split; [|split].
  - intros before value after -> Hb.
    assert (H : first_name_tag (before ++ {| tag_Key := "Name"; tag_Value := value |} :: after)
                = Some value).
    { induction Hb as [|tag before Ht _ IH]; simpl; [reflexivity|].
      apply String.eqb_neq in Ht. now rewrite Ht. }
    now rewrite H.
  - intros ->. reflexivity.
  - intros tags -> Ht. now rewrite (Hnone tags Ht).
Qed.

Lemma insert_by_ascending {A : Type} (key : A -> Z) (x : A) (l : list A) :
  ascending_by key l -> ascending_by key (insert_by key x l).
Proof.
  induction 1 as [|y l Hy Hl IH]; simpl.
  - constructor; constructor.
  - destruct (key y <? key x)%Z eqn:E.
    + apply Z.ltb_lt in E. constructor; [|exact IH].
      apply (Permutation_Forall (Permutation_sym (insert_by_Permutation key x l))).
      constructor; [lia|exact Hy].
    + apply Z.ltb_ge in E. constructor; [|constructor; assumption].
      constructor; [exact E|].
      eapply List.Forall_impl; [|exact Hy]. intros z Hz. simpl in Hz. lia.
Qed.

Lemma sorted_by_ascending {A : Type} (key : A -> Z) (l : list A) :
  ascending_by key (sorted_by key l).
Proof.
  induction l as [|x l IH]; simpl; [constructor|]. now apply insert_by_ascending.
Qed.

Section WithClient.
Variable region : string.
Variable config : AnalysisConfig.
Variable get_metric_statistics : string -> string -> result (list Datapoint).

(** The statistics of a metric whose call returns at least one
    datapoint, for a percentile between 0 and 100. *)
Lemma metric_stats_of_response (instance_id metric_name : string) (response : list Datapoint) :
  0 <= cpu_percentile config -> cpu_percentile config <= 100 ->
  get_metric_statistics instance_id metric_name = Ok response ->
  response <> [] ->
  exists stats lo hi,
    _get_metric_stats config get_metric_statistics instance_id metric_name = Some stats /\
    ms_datapoints stats = List.length response /\
    ms_values stats = map dp_Average (sorted_by dp_Timestamp response) /\
    ms_average stats = mean (ms_values stats) /\
    ms_max stats = py_max (map dp_Maximum (sorted_by dp_Timestamp response)) /\
    ms_min stats = py_min (map dp_Minimum (sorted_by dp_Timestamp response)) /\
    In lo (ms_values stats) /\ In hi (ms_values stats) /\
    lo <= ms_p95 stats /\ ms_p95 stats <= hi.
Proof.
  intros H0 H100 Hget Hne. unfold _get_metric_stats. rewrite Hget.
  destruct response as [|dp0 rest]; [congruence|].
  set (response := dp0 :: rest) in *. cbv zeta.
  set (datapoints := sorted_by dp_Timestamp response).
  assert (Hperm : Permutation datapoints response) by apply sorted_by_Permutation.
  assert (Hane : map dp_Average datapoints <> []).
  { intro E. apply (f_equal (@List.length Q)) in E.
    rewrite length_map, (Permutation_length Hperm) in E. discriminate E. }
  destruct (percentile_between_values (map dp_Average datapoints) (cpu_percentile config)
              Hane H0 H100) as (p95 & lo & hi & Hp & Hinlo & Hinhi & Hlow & Hup).
  rewrite Hp. eexists. exists lo, hi. split; [reflexivity|].
  cbn [ms_datapoints ms_values ms_min ms_max ms_p95 ms_average].
  split; [apply (Permutation_length Hperm)|]. repeat split; assumption.
Qed.

(** X24: with a percentile between 0 and 100, a metric whose call
    returns at least one datapoint always gets statistics; they count
    every datapoint; their values are the averages of the response's
    datapoints put in timestamp order (a reordering of the response
    whose timestamps never decrease); and, when each datapoint has
    Minimum <= Average <= Maximum, both the percentile and the mean lie
    between the reported min and max. *)
Theorem metric_stats_ordered (instance_id metric_name : string) (response : list Datapoint) :
  0 <= cpu_percentile config -> cpu_percentile config <= 100 ->
  get_metric_statistics instance_id metric_name = Ok response ->
  response <> [] ->
  exists stats datapoints,
    _get_metric_stats config get_metric_statistics instance_id metric_name = Some stats /\
    ms_datapoints stats = List.length response /\
    Permutation datapoints response /\
    ascending_by dp_Timestamp datapoints /\
    ms_values stats = map dp_Average datapoints /\
    (Forall (fun dp => dp_Minimum dp <= dp_Average dp /\ dp_Average dp <= dp_Maximum dp)
            response ->
     ms_min stats <= ms_p95 stats /\ ms_p95 stats <= ms_max stats /\
     ms_min stats <= ms_average stats /\ ms_average stats <= ms_max stats).
Proof.
  intros H0 H100 Hget Hne.
  destruct (metric_stats_of_response instance_id metric_name response H0 H100 Hget Hne)
    as (stats & lo & hi & Hs & Hn & Hv & Hav & Hmx & Hmn & Hinlo & Hinhi & Hlow & Hup).
  set (datapoints := sorted_by dp_Timestamp response) in *.
  assert (Hperm : Permutation datapoints response) by apply sorted_by_Permutation.
  exists stats, datapoints.
  split; [exact Hs|]. split; [exact Hn|]. split; [exact Hperm|].
  split; [apply sorted_by_ascending|]. split; [exact Hv|].
  intro Hord. rewrite Hv in *.
  assert (Hane : map dp_Average datapoints <> []).
  { intro E. rewrite E in Hinlo. destruct Hinlo. }
  assert (Hord' : Forall (fun dp => dp_Minimum dp <= dp_Average dp /\
                                    dp_Average dp <= dp_Maximum dp) datapoints).
  { apply List.Forall_forall. intros dp Hdp.
    apply (proj1 (List.Forall_forall _ _) Hord). now apply (Permutation_in _ Hperm). }
  assert (Hmin : Forall (fun x => py_min (map dp_Minimum datapoints) <= x)
                        (map dp_Average datapoints)).
  { apply List.Forall_forall. intros x Hx. apply in_map_iff in Hx.
    destruct Hx as (dp & <- & Hdp).
    destruct (proj1 (List.Forall_forall _ _) Hord' dp Hdp) as [Hlo _].
    eapply Qle_trans; [|exact Hlo].
    apply (proj1 (List.Forall_forall _ _) (py_min_lower (map dp_Minimum datapoints))).
    now apply in_map. }
  assert (Hmax : Forall (fun x => x <= py_max (map dp_Maximum datapoints))
                        (map dp_Average datapoints)).
  { apply List.Forall_forall. intros x Hx. apply in_map_iff in Hx.
    destruct Hx as (dp & <- & Hdp).
    destruct (proj1 (List.Forall_forall _ _) Hord' dp Hdp) as [_ Hhi].
    eapply Qle_trans; [exact Hhi|].
    apply (proj1 (List.Forall_forall _ _) (py_max_upper (map dp_Maximum datapoints))).
    now apply in_map. }
  destruct (mean_bounds _ _ _ Hane Hmin Hmax) as [Hm1 Hm2].
  rewrite Hav, Hmx, Hmn.
  split; [|split; [|split; assumption]].
  - apply Qle_trans with lo; [|exact Hlow].
    exact (proj1 (List.Forall_forall _ _) Hmin lo Hinlo).
  - apply Qle_trans with hi; [exact Hup|].
    exact (proj1 (List.Forall_forall _ _) Hmax hi Hinhi).
Qed.

(** X25: a metric gets no statistics when the call raises, when it
    returns no datapoint, and also when the configured percentile is 200
    or more and there are at least two datapoints: the [IndexError] of
    the percentile helper is swallowed like a failed call. *)
Theorem metric_stats_missing (instance_id metric_name : string) :
  match get_metric_statistics instance_id metric_name with
  | Raise _ => _get_metric_stats config get_metric_statistics instance_id metric_name = None
  | Ok response =>
      (response = [] ->
       _get_metric_stats config get_metric_statistics instance_id metric_name = None) /\
      ((2 <= List.length response)%nat -> 200 <= cpu_percentile config ->
       _get_metric_stats config get_metric_statistics instance_id metric_name = None)
  end.
Proof.
  unfold _get_metric_stats.
  destruct (get_metric_statistics instance_id metric_name) as [response|e]; [|reflexivity].
  split.
  - intros ->. reflexivity.
  - intros Hlen Hp. destruct response as [|dp0 rest]; [reflexivity|]. cbv zeta.
    rewrite percentile_raises_from_200; [reflexivity| |exact Hp].
    rewrite length_map, (Permutation_length (sorted_by_Permutation dp_Timestamp _)).
    exact Hlen.
Qed.

Lemma get_running_instances_concat (reservations : list (list Instance)) :
  _get_running_instances reservations = concat reservations.
Proof.
  unfold _get_running_instances.
  assert (H : forall acc, fold_left (fun instances reservation => instances ++ reservation)
                            reservations acc = acc ++ concat reservations).
  { induction reservations as [|r rs IH]; intro acc; simpl.
    - now rewrite app_nil_r.
    - rewrite IH, app_assoc. reflexivity. }
  apply (H []).
Qed.

(** The loop of [analyze_all_instances] keeps, in order, the instances
    with sufficient data. *)
Lemma analyze_all_instances_spec (reservations : list (list Instance)) :
  analyze_all_instances region config get_metric_statistics reservations =
  map (analysis_of region config get_metric_statistics)
      (List.filter (sufficient config get_metric_statistics) (concat reservations)).
Proof.
  unfold analyze_all_instances. cbv zeta. rewrite get_running_instances_concat.
  set (body := fun (analysis_results : list Analysis) (instance : Instance) => _).
  assert (H : forall instances acc,
            fold_left body instances acc =
            acc ++ map (analysis_of region config get_metric_statistics)
                       (List.filter (sufficient config get_metric_statistics) instances)).
  { induction instances as [|i instances IH]; intro acc; simpl.
    - now rewrite app_nil_r.
    - rewrite IH. unfold body at 1. fold (sufficient config get_metric_statistics i).
      destruct (sufficient config get_metric_statistics i); [|reflexivity].
      simpl. rewrite <- app_assoc. reflexivity. }
  apply (H _ []).
Qed.

Lemma sufficient_cpu (instance : Instance) :
  sufficient config get_metric_statistics instance = true ->
  exists cpu,
    _get_metric_stats config get_metric_statistics (InstanceId instance) "CPUUtilization"
      = Some cpu /\
    (min_datapoints config <= Z.of_nat (ms_datapoints cpu))%Z.
Proof.
  unfold sufficient, _has_sufficient_data, _collect_metrics. cbn [cpu_utilization].
  destruct (_get_metric_stats config get_metric_statistics (InstanceId instance)
              "CPUUtilization") as [cpu|]; [|discriminate].
  cbv zeta. intro H. apply Z.leb_le in H. now exists cpu.
Qed.

(** With a percentile between 0 and 100 the sufficiency test of the
    analyzer comes down to the CloudWatch response for the CPU: it
    passes exactly when the response has at least one datapoint and at
    least [min_datapoints] of them. *)
Lemma sufficient_enough (instance : Instance) :
  0 <= cpu_percentile config -> cpu_percentile config <= 100 ->
  sufficient config get_metric_statistics instance =
  enough_cpu_datapoints config get_metric_statistics instance.
Proof.
  intros H0 H100.
  unfold sufficient, _has_sufficient_data, _collect_metrics, enough_cpu_datapoints.
  cbn [cpu_utilization].
  destruct (get_metric_statistics (InstanceId instance) "CPUUtilization")
    as [response|e] eqn:Hget.
  - destruct response as [|dp0 rest].
    + unfold _get_metric_stats. rewrite Hget. reflexivity.
    + assert (Hne : dp0 :: rest <> []) by discriminate.
      destruct (metric_stats_of_response _ _ _ H0 H100 Hget Hne)
        as (stats & _ & _ & Hs & Hn & _).
      rewrite Hs. cbv zeta. rewrite Hn. reflexivity.
  - unfold _get_metric_stats. rewrite Hget. reflexivity.
Qed.

Lemma enough_cpu_datapoints_response (instance : Instance) :
  enough_cpu_datapoints config get_metric_statistics instance = true <->
  exists response,
    get_metric_statistics (InstanceId instance) "CPUUtilization" = Ok response /\
    response <> [] /\
    (min_datapoints config <= Z.of_nat (List.length response))%Z.
Proof.
  unfold enough_cpu_datapoints. split.
  - destruct (get_metric_statistics (InstanceId instance) "CPUUtilization")
      as [[|dp0 rest]|e]; try discriminate.
    intro H. apply Z.leb_le in H. exists (dp0 :: rest).
    split; [reflexivity|]. split; [discriminate|exact H].
  - intros (response & -> & Hne & Hlen).
    destruct response as [|dp0 rest]; [congruence|]. now apply Z.leb_le.
Qed.

(** X28: with a percentile between 0 and 100, the analysis keeps, in
    their order, exactly the instances for which the CloudWatch call for
    the CPU returns at least one datapoint and at least [min_datapoints]
    of them: such an instance of the reservations is in the result, any
    other is not; every analysis returned carries the analyzer's
    region, a positive cost estimate and a CPU series that counts the
    datapoints of such a response, so the recommenders never meet a
    missing CPU series on the analyzer's output. *)
Theorem analysed_instances_have_cpu (reservations : list (list Instance)) :
  0 <= cpu_percentile config -> cpu_percentile config <= 100 ->
  let analyses := analyze_all_instances region config get_metric_statistics reservations in
  map a_instance_id analyses =
    map InstanceId (List.filter (enough_cpu_datapoints config get_metric_statistics)
                      (concat reservations)) /\
  (forall instance response,
     In instance (concat reservations) ->
     get_metric_statistics (InstanceId instance) "CPUUtilization" = Ok response ->
     response <> [] ->
     (min_datapoints config <= Z.of_nat (List.length response))%Z ->
     In (analysis_of region config get_metric_statistics instance) analyses) /\
  Forall (fun a =>
            a_region a = region /\
            0 < a_current_cost a /\
            exists instance cpu response,
              In instance (concat reservations) /\
              a = analysis_of region config get_metric_statistics instance /\
              a_instance_id a = InstanceId instance /\
              cpu_utilization (a_metrics a) = Some cpu /\
              get_metric_statistics (InstanceId instance) "CPUUtilization" = Ok response /\
              response <> [] /\
              ms_datapoints cpu = List.length response /\
              (min_datapoints config <= Z.of_nat (List.length response))%Z) analyses.
Proof.
  intros H0 H100. cbv zeta. rewrite analyze_all_instances_spec.
  assert (Hfilter : List.filter (sufficient config get_metric_statistics) (concat reservations) =
                    List.filter (enough_cpu_datapoints config get_metric_statistics)
                      (concat reservations)).
  { apply List.filter_ext. intro i. now apply sufficient_enough. }
  rewrite Hfilter. split; [rewrite map_map; reflexivity|]. split.
  - intros instance response Hin Hget Hne Hlen. apply in_map.
    apply List.filter_In. split; [exact Hin|].
    apply enough_cpu_datapoints_response. now exists response.
  - apply List.Forall_forall. intros a Ha. apply in_map_iff in Ha.
    destruct Ha as (i & <- & Hi). apply List.filter_In in Hi. destruct Hi as [Hin He].
    split; [reflexivity|]. split; [apply estimate_positive|].
    apply enough_cpu_datapoints_response in He.
    destruct He as (response & Hget & Hne & Hlen).
    destruct (metric_stats_of_response _ _ _ H0 H100 Hget Hne)
      as (stats & _ & _ & Hs & Hn & _).
    exists i, stats, response. repeat split; try assumption.
Qed.

(** X29: a configured percentile of 200 or more silently empties the
    analysis, provided no CPU series consists of a single datapoint:
    every CPU series is then judged missing and every instance is
    dropped for insufficient data, without any error. *)
Theorem bad_percentile_drops_everything (reservations : list (list Instance)) :
  200 <= cpu_percentile config ->
  (forall instance_id response,
     get_metric_statistics instance_id "CPUUtilization" = Ok response ->
     List.length response <> 1%nat) ->
  analyze_all_instances region config get_metric_statistics reservations = [].
Proof.
  intros Hp Hnot1. rewrite analyze_all_instances_spec.
  assert (Hnone : forall i, sufficient config get_metric_statistics i = false).
  { intro i. unfold sufficient, _has_sufficient_data, _collect_metrics.
    cbn [cpu_utilization]. unfold _get_metric_stats.
    destruct (get_metric_statistics (InstanceId i) "CPUUtilization") as [response|e] eqn:E;
      [|reflexivity].
    destruct response as [|dp0 rest]; [reflexivity|]. cbv zeta.
    rewrite percentile_raises_from_200; [reflexivity| |exact Hp].
    rewrite length_map, (Permutation_length (sorted_by_Permutation dp_Timestamp _)).
    specialize (Hnot1 _ _ E). simpl in *. lia. }
  induction (concat reservations) as [|i l IH]; simpl; [reflexivity|].
  now rewrite Hnone.
Qed.

End WithClient.

Lemma metric_stats_ordered_witness :
  exists stats,
    _get_metric_stats Examples.analysis_config Examples.cloudwatch "i-51" "CPUUtilization"
      = Some stats /\
    ms_datapoints stats = 3%nat /\
    ms_values stats = [8; 10; 12] /\
    ms_min stats <= ms_p95 stats /\ ms_p95 stats <= ms_max stats.
Proof.
  assert (H0 : 0 <= cpu_percentile Examples.analysis_config) by (unfold Qle; simpl; lia).
  assert (H100 : cpu_percentile Examples.analysis_config <= 100)
    by (unfold Qle; simpl; lia).
  assert (Hne : Examples.cpu_datapoints <> []) by discriminate.
  destruct (metric_stats_ordered Examples.analysis_config Examples.cloudwatch
              "i-51" "CPUUtilization" Examples.cpu_datapoints H0 H100 eq_refl Hne)
    as (stats & datapoints & Hs & Hn & _ & _ & _ & Hord).
  exists stats. split; [exact Hs|]. split; [exact Hn|].
  assert (Hdp : Forall (fun dp => dp_Minimum dp <= dp_Average dp /\
                                  dp_Average dp <= dp_Maximum dp) Examples.cpu_datapoints).
  { repeat constructor; unfold Qle; simpl; lia. }
  destruct (Hord Hdp) as (H1 & H2 & _).
  split; [|split; assumption].
  vm_compute in Hs. injection Hs as <-. reflexivity.
Defined.

Lemma analysed_instances_have_cpu_witness :
  map a_instance_id
    (analyze_all_instances "us-east-1" Examples.analysis_config Examples.cloudwatch
       Examples.reservations) = ["i-51"%string] /\
  In (analysis_of "us-east-1" Examples.analysis_config Examples.cloudwatch
        (Examples.instance "i-51" "m5.xlarge"
           (Some [ {| tag_Key := "env"; tag_Value := "prod" |};
                   {| tag_Key := "Name"; tag_Value := "web" |} ])))
     (analyze_all_instances "us-east-1" Examples.analysis_config Examples.cloudwatch
        Examples.reservations).
Proof.
  assert (H0 : 0 <= cpu_percentile Examples.analysis_config) by (unfold Qle; simpl; lia).
  assert (H100 : cpu_percentile Examples.analysis_config <= 100)
    by (unfold Qle; simpl; lia).
  destruct (analysed_instances_have_cpu "us-east-1" Examples.analysis_config
              Examples.cloudwatch Examples.reservations H0 H100) as (Hids & Hin & _).
  split; [rewrite Hids; reflexivity|].
  apply (Hin _ Examples.cpu_datapoints).
  - left. reflexivity.
  - reflexivity.
  - discriminate.
  - simpl. lia.
Defined.

Example missing_metric_examples :
  _get_metric_stats Examples.analysis_config Examples.cloudwatch "i-52" "CPUUtilization" = None /\
  _get_metric_stats Examples.analysis_config Examples.cloudwatch "i-53" "CPUUtilization" = None /\
  _get_metric_stats Examples.analysis_config_250 Examples.cloudwatch "i-51" "CPUUtilization"
    = None.
Proof. repeat split. Qed.

Example analysis_of_the_reservations :
  map a_instance_id
    (analyze_all_instances "us-east-1" Examples.analysis_config Examples.cloudwatch
       Examples.reservations) = ["i-51"%string] /\
  map a_name
    (analyze_all_instances "us-east-1" Examples.analysis_config Examples.cloudwatch
       Examples.reservations) = ["web"%string].
Proof. split; reflexivity. Qed.

Lemma bad_percentile_drops_everything_witness :
  analyze_all_instances "us-east-1" Examples.analysis_config_250 Examples.cloudwatch
    Examples.reservations = [].
Proof.
  apply bad_percentile_drops_everything.
  - unfold Qle. simpl. lia.
  - intros instance_id response. unfold Examples.cloudwatch.
    destruct (String.eqb instance_id "i-51").
    + simpl. intro H. injection H as <-. simpl. lia.
    + destruct (String.eqb instance_id "i-52"); [|discriminate].
      intro H. injection H as <-. simpl. lia.
Defined.

End AnalyzerFacts.
